(** * Market-data aggregation and arbitrage detection: a shallow embedding

    The development follows the Python sources of the repository:

    - [src/models/data_models.py]: the dataclasses, [consolidate_bbo] and
      [find_arbitrage_opportunities];
    - [src/data/gomarket_client.py]: [GoMarketClient._make_request],
      [_parse_ticker_data] and [_normalize_symbol];
    - [src/data/websocket_client.py]: [WebSocketClient] and
      [DataStreamManager];
    - [src/services/arbitrage_service.py]: [ArbitrageService];
    - [src/services/market_view_service.py]: the data gate of
      [_market_view_loop], [get_current_cbbo] and [_should_send_update].

    Conventions.  Prices and sizes (Python floats) are rationals [Q]:
    the finite floats are rationals, and comparisons between them are
    exact.  An operation on floats returns its exact result rounded to a
    float.  In the arbitrage scan and in [is_still_valid], where the
    rounded percentage is tested against a threshold, the rounding is
    written out: these functions take it as the parameter [fl], and what
    is proved of them holds for every rounding, or for every rounding with
    the property named in the statement.  Elsewhere an arithmetic
    expression stands for the float the code computes from it.  The
    infinities and NaN are outside the model: every comparison with NaN is
    false, so that a constructor lets a NaN price pass its checks, which
    no statement below covers.  [datetime] values
    are integers counting microseconds, [timedelta] likewise.  A Python
    [dict] whose iteration order is observable is an association list in
    insertion order; dictionaries that are only looked up, written and
    deleted by key are [gmap]s.  Exceptions are values of [exn] carried by
    [result].  Calls to the logger have no effect on the state and are left
    out.  Each coroutine is modelled as running to completion. *)

From Stdlib Require Import QArith Qabs ZArith List Lia Lqa Ascii.
From stdpp Require Import gmap strings list pretty.

Set Default Proof Using "Type".

(** ** Exceptions and results *)

Inductive exn :=
| ValueError (msg : string)
| ZeroDivisionError
| KeyError (key : string)
| InfiniteQuote
| GoMarketAPIError (msg : string)
| RateLimitError (msg : string)
| OverflowError (msg : string).

Inductive result (A : Type) :=
| Ok (a : A)
| Raise (e : exn).
Arguments Ok {A} a.
Arguments Raise {A} e.

(** [result] with stdpp's monad notation [x ← r; k]. *)
#[global] Instance result_ret : MRet result := λ A a, Ok a.
#[global] Instance result_bind : MBind result := λ A B k r,
  match r with
  | Ok a => k a
  | Raise e => Raise e
  end.

(** ** Numbers *)

(** [datetime] and [timedelta], in microseconds. *)
Definition datetime := Z.
Bind Scope Z_scope with datetime.
Definition timedelta_seconds (s : Z) : Z := (s * 1000000)%Z.
Definition timedelta_minutes (m : Z) : Z := timedelta_seconds (60 * m).
Definition timedelta_hours (h : Z) : Z := timedelta_minutes (60 * h).

(** Python's [x < y] and [x <= y] on floats. *)
Definition Qltb (x y : Q) : bool :=
  match (x ?= y)%Q with Lt => true | _ => false end.
Definition Qleb (x y : Q) : bool := Qle_bool x y.

(** Rounding to the nearest binary64 float, ties to even, with gradual
    underflow: the rounding of Python's float operations.  [binade q] is
    the exponent [e] with [2 ^ e <= q < 2 ^ (e + 1)] of a positive [q];
    the floats of that binade are the multiples of [2 ^ (e - 52)], and
    below [2 ^ -1022] those of [2 ^ -1074].  A result beyond the largest
    float has no counterpart here. *)
Definition round_half_even (q : Q) : Z :=
  let n := Qnum q in
  let d := Zpos (Qden q) in
  let f := (n / d)%Z in
  let r := (n mod d)%Z in
  match (2 * r ?= d)%Z with
  | Lt => f
  | Gt => (f + 1)%Z
  | Eq => if Z.even f then f else (f + 1)%Z
  end.

Definition binade (q : Q) : Z :=
  let e := (Z.log2 (Qnum q) - Z.log2 (Zpos (Qden q)))%Z in
  if Qle_bool (Qpower 2 e) q then e else (e - 1)%Z.

Definition binary64 (q : Q) : Q :=
  if Qeq_bool q 0 then 0%Q
  else
    let a := Qabs q in
    let k := (Z.max (binade a) (-1022) - 52)%Z in
    let m := round_half_even (a / Qpower 2 k) in
    let r := (inject_Z m * Qpower 2 k)%Q in
    if Qle_bool 0 q then r else Qopp r.

(** Python's [x / y] on floats: a zero divisor raises. *)
Definition py_div (x y : Q) : result Q :=
  if Qeq_bool y 0 then Raise ZeroDivisionError else Ok (x / y)%Q.

(** The running minimum of [consolidate_bbo] starts at [float('inf')], the
    only place where the sources produce an infinite float. *)
Inductive running_min :=
| PosInf
| Finite (q : Q).

(** [x < m] for a rational [x]: every rational is below [float('inf')]. *)
Definition below (x : Q) (m : running_min) : bool :=
  match m with
  | PosInf => true
  | Finite q => Qltb x q
  end.

(** ** Dataclasses of [data_models.py] *)

Module MarketData.
Record t := make_raw {
  symbol : string;
  exchange : string;
  bid_price : Q;
  bid_size : Q;
  ask_price : Q;
  ask_size : Q;
  last_price : Q;
  timestamp : datetime
}.

(** [__post_init__]: the three checks, in the order of the source. *)
Definition post_init (d : t) : result t :=
  if Qleb (bid_price d) 0 || Qleb (ask_price d) 0 then
    Raise (ValueError "Prices must be positive")
  else if Qleb (bid_size d) 0 || Qleb (ask_size d) 0 then
    Raise (ValueError "Sizes must be positive")
  else if Qleb (ask_price d) (bid_price d) then
    Raise (ValueError "Bid price must be less than ask price")
  else Ok d.

Definition make (symbol exchange : string)
    (bid_price bid_size ask_price ask_size last_price : Q)
    (timestamp : datetime) : result t :=
  post_init (make_raw symbol exchange bid_price bid_size ask_price ask_size
               last_price timestamp).

(** The invariant every constructed snapshot satisfies. *)
Definition valid (d : t) : Prop :=
  (0 < bid_price d ∧ 0 < ask_price d ∧ 0 < bid_size d ∧ 0 < ask_size d
   ∧ bid_price d < ask_price d)%Q.

(** [is_fresh]: [(utcnow() - timestamp).total_seconds() <= max_age]. *)
Definition is_fresh (d : t) (utcnow : datetime) (max_age_seconds : Z) : bool :=
  bool_decide (utcnow - timestamp d ≤ timedelta_seconds max_age_seconds)%Z.

(** The three properties.  [spread_percentage] divides by the bid. *)
Definition spread_absolute (d : t) : Q := (ask_price d - bid_price d)%Q.

Definition spread_percentage (d : t) : result Q :=
  ratio ← py_div (spread_absolute d) (bid_price d);
  Ok (ratio * 100)%Q.

(** [mid_price], as a formula: the float the code stores is this
    quotient rounded, which may coincide with the bid or the ask. *)
Definition mid_price (d : t) : Q := ((bid_price d + ask_price d) / 2)%Q.
End MarketData.

Module ArbitrageOpportunity.
Record t := make_raw {
  symbol : string;
  buy_exchange : string;
  sell_exchange : string;
  buy_price : Q;
  sell_price : Q;
  spread_percentage : Q;
  spread_absolute : Q;
  timestamp : datetime
}.

Definition post_init (o : t) : result t :=
  if Qleb (buy_price o) 0 || Qleb (sell_price o) 0 then
    Raise (ValueError "Prices must be positive")
  else if Qleb (spread_percentage o) 0 then
    Raise (ValueError "Spread percentage must be positive")
  else Ok o.

Definition make (symbol buy_exchange sell_exchange : string)
    (buy_price sell_price spread_percentage spread_absolute : Q)
    (timestamp : datetime) : result t :=
  post_init (make_raw symbol buy_exchange sell_exchange buy_price sell_price
               spread_percentage spread_absolute timestamp).
End ArbitrageOpportunity.

Module ConsolidatedBBO.
Record t := make_raw {
  symbol : string;
  best_bid_price : Q;
  best_bid_exchange : string;
  best_ask_price : Q;
  best_ask_exchange : string;
  mid_price : Q;
  timestamp : datetime;
  spread_absolute : Q;
  spread_percentage : Q;
  all_exchanges : list string
}.

(** The constructor with [__post_init__]: the two derived fields are
    computed from the best prices. *)
Definition make (symbol : string) (best_bid_price : Q)
    (best_bid_exchange : string) (best_ask_price : Q)
    (best_ask_exchange : string) (mid_price : Q) (timestamp : datetime)
    (all_exchanges : list string) : result t :=
  let spread_absolute := (best_ask_price - best_bid_price)%Q in
  ratio ← py_div spread_absolute best_bid_price;
  Ok (make_raw symbol best_bid_price best_bid_exchange best_ask_price
        best_ask_exchange mid_price timestamp spread_absolute
        (ratio * 100)%Q all_exchanges).
End ConsolidatedBBO.

(** A [Dict[str, MarketData]] in iteration (insertion) order. *)
Abbreviation market_dict := (list (string * MarketData.t)).

(** [d[k]]: the entry stored under [k], or [KeyError]. *)
Fixpoint dict_get {V} (d : list (string * V)) (k : string) : result V :=
  match d with
  | [] => Raise (KeyError k)
  | (k', v) :: rest => if bool_decide (k' = k) then Ok v else dict_get rest k
  end.

(** [d[k] = v]: an existing key keeps its position, a new one goes last. *)
Fixpoint dict_set {V} (d : list (string * V)) (k : string) (v : V)
    : list (string * V) :=
  match d with
  | [] => [(k, v)]
  | (k', v') :: rest =>
      if bool_decide (k' = k) then (k, v) :: rest
      else (k', v') :: dict_set rest k v
  end.

Definition dict_keys {V} (d : list (string * V)) : list string := d.*1.

(** ** [OrderBookLevel] and [OrderBook] *)

Module OrderBookLevel.
Record t := make_raw {
  price : Q;
  size : Q
}.

Definition post_init (l : t) : result t :=
  if Qleb (price l) 0 then Raise (ValueError "Price must be positive")
  else if Qleb (size l) 0 then Raise (ValueError "Size must be positive")
  else Ok l.

Definition make (price size : Q) : result t := post_init (make_raw price size).

Definition valid (l : t) : Prop := (0 < price l)%Q ∧ (0 < size l)%Q.
End OrderBookLevel.

Module OrderBook.
Record t := make_raw {
  symbol : string;
  exchange : string;
  bids : list OrderBookLevel.t;
  asks : list OrderBookLevel.t;
  timestamp : datetime
}.

(** [for i in range(len(levels) - 1)]: is there an [i] at which
    [wrong levels[i] levels[i + 1]] holds? *)
Definition out_of_order (wrong : Q → Q → bool) (levels : list OrderBookLevel.t)
    : bool :=
  existsb
    (λ i, match levels !! i, levels !! (i + 1)%nat with
          | Some a, Some b =>
              wrong (OrderBookLevel.price a) (OrderBookLevel.price b)
          | _, _ => false
          end)
    (seq 0 (length levels - 1)).

Definition post_init (b : t) : result t :=
  match bids b, asks b with
  | [], _ | _, [] =>
      Raise (ValueError "Order book must have both bids and asks")
  | _, _ =>
      if out_of_order Qltb (bids b) then
        Raise (ValueError "Bids must be in descending order")
      else if out_of_order (λ x y, Qltb y x) (asks b) then
        Raise (ValueError "Asks must be in ascending order")
      else Ok b
  end.

Definition make (symbol exchange : string) (bids asks : list OrderBookLevel.t)
    (timestamp : datetime) : result t :=
  post_init (make_raw symbol exchange bids asks timestamp).

(** [self.bids[0]] and [self.asks[0]]; [None] is the [IndexError] of an
    empty list. *)
Definition best_bid (b : t) : option OrderBookLevel.t := bids b !! 0%nat.
Definition best_ask (b : t) : option OrderBookLevel.t := asks b !! 0%nat.

(** The property [market_data]: the snapshot of the two top levels. *)
Definition market_data (b : t) : option (result MarketData.t) :=
  top_bid ← best_bid b;
  top_ask ← best_ask b;
  Some (MarketData.make (symbol b) (exchange b)
          (OrderBookLevel.price top_bid) (OrderBookLevel.size top_bid)
          (OrderBookLevel.price top_ask) (OrderBookLevel.size top_ask)
          ((OrderBookLevel.price top_bid + OrderBookLevel.price top_ask) / 2)%Q
          (timestamp b)).
End OrderBook.

(** ** Helpers of [data_models.py] *)

Definition calculate_spread_percentage (bid_price ask_price : Q) : result Q :=
  if Qleb bid_price 0 then Raise (ValueError "Bid price must be positive")
  else
    ratio ← py_div (ask_price - bid_price)%Q bid_price;
    Ok (ratio * 100)%Q.

(** [ArbitrageOpportunity.is_still_valid] *)
Definition is_still_valid (fl : Q → Q) (o : ArbitrageOpportunity.t)
    (current_data : market_dict) (threshold : Q) : result bool :=
  if negb (bool_decide (ArbitrageOpportunity.buy_exchange o
                        ∈ dict_keys current_data))
     || negb (bool_decide (ArbitrageOpportunity.sell_exchange o
                           ∈ dict_keys current_data))
  then Ok false
  else
    buy_data ← dict_get current_data (ArbitrageOpportunity.buy_exchange o);
    sell_data ← dict_get current_data (ArbitrageOpportunity.sell_exchange o);
    ratio ← py_div (fl (MarketData.ask_price sell_data
                        - MarketData.bid_price buy_data)%Q)
               (MarketData.bid_price buy_data);
    let current_spread := fl (fl ratio * 100)%Q in
    Ok (Qleb threshold current_spread).

(** [ConsolidatedBBO.has_venue_changed] *)
Definition has_venue_changed (q previous : ConsolidatedBBO.t) : bool :=
  negb (bool_decide (ConsolidatedBBO.best_bid_exchange q
                     = ConsolidatedBBO.best_bid_exchange previous))
  || negb (bool_decide (ConsolidatedBBO.best_ask_exchange q
                        = ConsolidatedBBO.best_ask_exchange previous)).

(** ** [consolidate_bbo] *)

(** The five local variables the loop of [consolidate_bbo] updates. *)
Record bbo_vars := {
  best_bid_price : Q;
  best_bid_exchange : string;
  best_ask_price : running_min;
  best_ask_exchange : string;
  all_exchanges : list string
}.

Definition bbo_init : bbo_vars :=
  {| best_bid_price := 0; best_bid_exchange := "";
     best_ask_price := PosInf; best_ask_exchange := "";
     all_exchanges := [] |}.

(** One iteration of [for exchange, data in market_data.items()]. *)
Definition bbo_body (v : bbo_vars) (item : string * MarketData.t) : bbo_vars :=
  let '(exchange, data) := item in
  let bid_better := Qltb (best_bid_price v) (MarketData.bid_price data) in
  let ask_better := below (MarketData.ask_price data) (best_ask_price v) in
  {| best_bid_price :=
       if bid_better then MarketData.bid_price data else best_bid_price v;
     best_bid_exchange :=
       if bid_better then exchange else best_bid_exchange v;
     best_ask_price :=
       if ask_better then Finite (MarketData.ask_price data)
       else best_ask_price v;
     best_ask_exchange :=
       if ask_better then exchange else best_ask_exchange v;
     all_exchanges := all_exchanges v ++ [exchange] |}.

Definition bbo_loop (market_data : market_dict) : bbo_vars :=
  fold_left bbo_body market_data bbo_init.

(** [utcnow] is the reading of the clock taken for the [timestamp] field.
    The sentinel [float('inf')] is still in [best_ask_price] after the loop
    only if the body never ran, which the guard on the empty dictionary
    rules out (lemma [bbo_loop_ask_finite] below); the quote with infinite
    fields Python would build there has no counterpart over [Q]. *)
Definition consolidate_bbo (symbol : string) (market_data : market_dict)
    (utcnow : datetime) : result ConsolidatedBBO.t :=
  match market_data with
  | [] => Raise (ValueError "Market data cannot be empty")
  | _ =>
      let v := bbo_loop market_data in
      match best_ask_price v with
      | PosInf => Raise InfiniteQuote
      | Finite ask =>
          let mid_price := ((best_bid_price v + ask) / 2)%Q in
          ConsolidatedBBO.make symbol (best_bid_price v) (best_bid_exchange v)
            ask (best_ask_exchange v) mid_price utcnow (all_exchanges v)
      end
  end.

(** ** [find_arbitrage_opportunities] *)

Section Scan.
(** [fl]: the rounding of an exact result to the float Python stores. *)
Variable fl : Q → Q.
(** [utcnow_at buy sell]: the reading of [datetime.utcnow()] taken when
    the opportunity for the loop variables [buy_exchange], [sell_exchange]
    is built. *)
Variable utcnow_at : string → string → datetime.

(** The body of the inner loop; [opportunities] is the list built so
    far. *)
Definition scan_pair (market_data : market_dict) (threshold_percentage : Q)
    (buy_exchange sell_exchange : string)
    (opportunities : list ArbitrageOpportunity.t)
    : result (list ArbitrageOpportunity.t) :=
  buy_data ← dict_get market_data buy_exchange;
  sell_data ← dict_get market_data sell_exchange;
  if Qltb (MarketData.ask_price sell_data) (MarketData.bid_price buy_data)
  then
    let spread_absolute :=
      fl (MarketData.bid_price buy_data - MarketData.ask_price sell_data)%Q in
    ratio ← py_div spread_absolute (MarketData.ask_price sell_data);
    let spread_percentage := fl (fl ratio * 100)%Q in
    if Qleb threshold_percentage spread_percentage then
      opportunity ← ArbitrageOpportunity.make
        (MarketData.symbol buy_data)
        sell_exchange
        buy_exchange
        (MarketData.ask_price sell_data)
        (MarketData.bid_price buy_data)
        spread_percentage
        spread_absolute
        (utcnow_at buy_exchange sell_exchange);
      Ok (opportunities ++ [opportunity])
    else Ok opportunities
  else Ok opportunities.

(** [for sell_exchange in exchanges[i+1:]]. *)
Fixpoint scan_inner (market_data : market_dict) (threshold_percentage : Q)
    (buy_exchange : string) (later : list string)
    (opportunities : list ArbitrageOpportunity.t)
    : result (list ArbitrageOpportunity.t) :=
  match later with
  | [] => Ok opportunities
  | sell_exchange :: later' =>
      opportunities' ← scan_pair market_data threshold_percentage
                         buy_exchange sell_exchange opportunities;
      scan_inner market_data threshold_percentage buy_exchange later'
        opportunities'
  end.

(** [for i, buy_exchange in enumerate(exchanges)]: the slice
    [exchanges[i+1:]] is the tail after the current exchange. *)
Fixpoint scan_outer (market_data : market_dict) (threshold_percentage : Q)
    (exchanges : list string) (opportunities : list ArbitrageOpportunity.t)
    : result (list ArbitrageOpportunity.t) :=
  match exchanges with
  | [] => Ok opportunities
  | buy_exchange :: later =>
      opportunities' ← scan_inner market_data threshold_percentage
                         buy_exchange later opportunities;
      scan_outer market_data threshold_percentage later opportunities'
  end.

Definition find_arbitrage_opportunities (market_data : market_dict)
    (threshold_percentage : Q) : result (list ArbitrageOpportunity.t) :=
  scan_outer market_data threshold_percentage (dict_keys market_data) [].
End Scan.

(** ** JSON documents and strings *)

(** A decoded JSON value, as the parsers inspect it.  [JNumber q] is an
    [int] or a [float] that [float] turns into [q]; [JHuge n] is an [int]
    beyond the range of the floats, for which [float] raises
    [OverflowError].  A string carries what [float] makes of it: [None]
    when [float] raises [ValueError].  Numbers are rationals, as the
    prices are: a document with a non-finite number, or with a string
    [float] reads as one, is outside the model.  A [bool] counts as an
    [int] for [isinstance]. *)
#[local] Unset Elimination Schemes.
Inductive json :=
| JNumber (q : Q)
| JHuge (n : Z)
| JBool (b : bool)
| JString (text : string) (as_float : option Q)
| JNull
| JArray (items : list json)
| JObject (fields : list (string * json)).
#[local] Set Elimination Schemes.

(** [str.upper] on a string of ASCII characters; see [ascii_only]. *)
Definition upper_char (c : ascii) : ascii :=
  let n := nat_of_ascii c in
  if bool_decide (97 ≤ n ≤ 122)%nat then ascii_of_nat (n - 32) else c.

Fixpoint upper (s : string) : string :=
  match s with
  | EmptyString => EmptyString
  | String c rest => String (upper_char c) (upper rest)
  end.

(** [s.replace(pat, '')] for a non-empty [pat]: the occurrences of [pat]
    found from left to right, without overlap, are dropped.  [skip]
    counts the characters of a found occurrence still to drop. *)
Fixpoint remove_from (pat : string) (skip : nat) (s : string) : string :=
  match s with
  | EmptyString => EmptyString
  | String c rest =>
      match skip with
      | S k => remove_from pat k rest
      | O =>
          if String.prefix pat s
          then remove_from pat (String.length pat - 1) rest
          else String c (remove_from pat 0 rest)
      end
  end.

Definition remove (pat s : string) : string := remove_from pat 0 s.

(** ** [GoMarketClient._make_request] *)

Module GoMarketClient.
(** What [int(response.headers.get('Retry-After', 60))] finds: no header,
    a header [int] accepts, or a header it rejects. *)
Inductive retry_after_header :=
| NoHeader
| IntHeader (seconds : Z)
| OtherHeader (text : string).

(** The body of a response: a JSON document (kept as its text), or text
    that [response.json()] rejects with the given message. *)
Inductive body :=
| Json (data : string)
| NotJson (text : string) (error : string).

Record response := {
  status : Z;
  retry_after : retry_after_header;
  payload : body
}.

(** What [session.request] does on one attempt. *)
Inductive outcome :=
| Responded (r : response)
| ClientError (error : string)
| OtherException (error : string).

(** Observable effects, oldest first.  Durations are in seconds. *)
Inductive effect :=
| Sleep (seconds : Q)
| Request (method endpoint : string) (attempt : nat).

Record t := {
  rate_limit_delay : Q;
  last_request_time : Q;
  retry_attempts : nat;
  (** [time.time()] and the effects performed so far *)
  clock : Q;
  effects : list effect
}.

(** [__init__], started at clock reading [now]. *)
Definition init (now : Q) : t :=
  {| rate_limit_delay := 1; last_request_time := 0; retry_attempts := 3;
     clock := now; effects := [] |}.

(** [await asyncio.sleep(d)]: time passes; a delay that is not positive
    returns at once. *)
Definition sleep (d : Q) (c : t) : t :=
  {| rate_limit_delay := rate_limit_delay c;
     last_request_time := last_request_time c;
     retry_attempts := retry_attempts c;
     clock := if Qltb 0 d then (clock c + d)%Q else clock c;
     effects := effects c ++ [Sleep d] |}.

Definition perform (e : effect) (c : t) : t :=
  {| rate_limit_delay := rate_limit_delay c;
     last_request_time := last_request_time c;
     retry_attempts := retry_attempts c;
     clock := clock c;
     effects := effects c ++ [e] |}.

Definition _rate_limit (c : t) : t :=
  let current_time := clock c in
  let time_since_last := (current_time - last_request_time c)%Q in
  let c1 :=
    if Qltb time_since_last (rate_limit_delay c)
    then sleep (rate_limit_delay c - time_since_last)%Q c
    else c in
  {| rate_limit_delay := rate_limit_delay c1;
     last_request_time := clock c1;
     retry_attempts := retry_attempts c1;
     clock := clock c1;
     effects := effects c1 |}.

(** The exceptions the [try] block can raise before any handler runs.
    [ClientErr] stands for [aiohttp.ClientError]; [Other] for an
    exception of any other class, here the [ValueError] of [int] or a
    failure of the transport outside the [ClientError] family. *)
Inductive raised :=
| ClientErr (error : string)
| Api (e : exn)
| Other (error : string).

(** [str(e)] *)
Definition exn_str (e : exn) : string :=
  match e with
  | ValueError msg => msg
  | ZeroDivisionError => "float division by zero"
  | KeyError key => key
  | InfiniteQuote => ""
  | GoMarketAPIError msg => msg
  | RateLimitError msg => msg
  | OverflowError msg => msg
  end.

Definition raised_str (r : raised) : string :=
  match r with
  | ClientErr error => error
  | Api e => exn_str e
  | Other error => error
  end.

(** [str(n)] for a status code. *)
Definition status_str (n : Z) : string := pretty n.

(** The [try] block, from the request to [return data].  The request is
    recorded with the method and endpoint it was asked for (the URL is
    [base_url] joined with the endpoint) and with its attempt number
    [retry_count + 1]. *)
Definition attempt (o : outcome) (method endpoint : string)
    (retry_count : nat) (c : t) : (string + raised) * t :=
  let c := perform (Request method endpoint (retry_count + 1)) c in
  match o with
  | ClientError error => (inr (ClientErr error), c)
  | OtherException error => (inr (Other error), c)
  | Responded r =>
      if bool_decide (status r = 429)%Z then
        match retry_after r with
        | OtherHeader text =>
            (inr (Other ("invalid literal for int() with base 10: '"
                         +:+ text +:+ "'")), c)
        | NoHeader =>
            (inr (Api (RateLimitError "Rate limit exceeded")),
             sleep 60 c)
        | IntHeader seconds =>
            (inr (Api (RateLimitError "Rate limit exceeded")),
             sleep (inject_Z seconds) c)
        end
      else if bool_decide (400 ≤ status r)%Z then
        match payload r with
        | Json data | NotJson data _ =>
            (inr (Api (GoMarketAPIError
               ("HTTP " +:+ status_str (status r) +:+ ": " +:+ data))), c)
        end
      else
        match payload r with
        | Json data => (inl data, c)
        | NotJson _ error =>
            (inr (Api (GoMarketAPIError
               ("Invalid JSON response: " +:+ error))), c)
        end
  end.

(** [_make_request] with its two handlers.  [network n] is what the
    request of retry number [n] meets.  [_ensure_session] only opens the
    HTTP session and is left out.  The recursion is on [fuel];
    [_make_request] below supplies enough of it. *)
Fixpoint _make_request_fuel (fuel : nat) (network : nat → outcome)
    (method endpoint : string) (retry_count : nat) (c : t)
    : option (result string * t) :=
  match fuel with
  | O => None
  | S fuel =>
      let c := _rate_limit c in
      match attempt (network retry_count) method endpoint retry_count c with
      | (inl data, c) => Some (Ok data, c)
      | (inr (ClientErr error), c) =>
          (* except aiohttp.ClientError *)
          if bool_decide (retry_count < retry_attempts c)%nat then
            let delay := inject_Z (2 ^ Z.of_nat retry_count) in
            _make_request_fuel fuel network method endpoint
              (retry_count + 1) (sleep delay c)
          else
            Some (Raise (GoMarketAPIError
              ("Network error after " +:+ pretty (retry_attempts c)
               +:+ " retries: " +:+ error)), c)
      | (inr e, c) =>
          (* except Exception *)
          Some (Raise (GoMarketAPIError
            ("Unexpected error: " +:+ raised_str e)), c)
      end
  end.

Definition _make_request (network : nat → outcome)
    (method endpoint : string) (retry_count : nat) (c : t)
    : option (result string * t) :=
  _make_request_fuel (S (retry_attempts c - retry_count)) network method
    endpoint retry_count c.

(** [_normalize_symbol] *)
Definition _normalize_symbol (symbol : string) : string :=
  match symbol with
  | EmptyString => symbol
  | _ => foldl (λ s ch, remove ch s) (upper symbol) ["/"; "-"; " "; "%2F"]
  end.

(** [extract_value] of [_parse_ticker_data]: the first of the field names
    that is present with a number, or with a string [float] accepts.
    Only the [ValueError] of a string is caught: the [OverflowError] of an
    [int] beyond the floats leaves the function. *)
Fixpoint extract_value (data : list (string * json))
    (field_names : list string) : result Q :=
  match field_names with
  | [] => Ok 0%Q
  | field :: field_names' =>
      match dict_get data field with
      | Ok (JNumber q) => Ok q
      | Ok (JHuge _) =>
          Raise (OverflowError "int too large to convert to float")
      | Ok (JBool b) => Ok (if b then 1 else 0)%Q
      | Ok (JString _ (Some q)) => Ok q
      | _ => extract_value data field_names'
      end
  end.

Definition bid_fields : list string := ["bid"; "bestBid"; "bidPrice"; "buy"].
Definition ask_fields : list string := ["ask"; "bestAsk"; "askPrice"; "sell"].
Definition bid_size_fields : list string :=
  ["bidSize"; "bestBidSize"; "bidQty"; "buySize"].
Definition ask_size_fields : list string :=
  ["askSize"; "bestAskSize"; "askQty"; "sellSize"].
Definition last_fields : list string := ["last"; "lastPrice"; "price"; "close"].

(** The timestamp of a ticker.  [fromtimestamp] is the division by 1000
    followed by the library conversion, [fromisoformat] the library
    conversion of the text; both are [None] when they raise, and [utcnow]
    is the clock reading used then.  For an [int] beyond the floats the
    division or the conversion raises. *)
Definition ticker_timestamp (fromtimestamp : Q → option datetime)
    (fromisoformat : string → option datetime) (utcnow : datetime)
    (data : list (string * json)) : datetime :=
  match dict_get data "timestamp" with
  | Ok (JNumber ts) => default utcnow (fromtimestamp (ts / 1000)%Q)
  | Ok (JBool b) =>
      default utcnow (fromtimestamp ((if b then 1 else 0) / 1000)%Q)
  | Ok (JString text _) => default utcnow (fromisoformat text)
  | _ => utcnow
  end.

Definition _parse_ticker_data (fromtimestamp : Q → option datetime)
    (fromisoformat : string → option datetime) (utcnow : datetime)
    (data : list (string * json)) (exchange symbol : string)
    : result MarketData.t :=
  let parsed :=
    bid_price ← extract_value data bid_fields;
    ask_price ← extract_value data ask_fields;
    bid_size ← extract_value data bid_size_fields;
    ask_size ← extract_value data ask_size_fields;
    last_price ← extract_value data last_fields;
    let last_price :=
      if Qeq_bool last_price 0 then
        if Qltb 0 bid_price && Qltb 0 ask_price
        then ((bid_price + ask_price) / 2)%Q else last_price
      else last_price in
    let synthesize :=
      (Qleb bid_price 0 || Qleb ask_price 0) && Qltb 0 last_price in
    let spread_ratio := 0.0001%Q in
    let bid_price' :=
      if synthesize then (last_price * (1 - spread_ratio))%Q else bid_price in
    let ask_price' :=
      if synthesize then (last_price * (1 + spread_ratio))%Q else ask_price in
    let bid_size := if Qleb bid_size 0 then 1%Q else bid_size in
    let ask_size := if Qleb ask_size 0 then 1%Q else ask_size in
    let timestamp :=
      ticker_timestamp fromtimestamp fromisoformat utcnow data in
    MarketData.make symbol exchange bid_price' bid_size ask_price'
      ask_size last_price timestamp in
  match parsed with
  | Ok ticker => Ok ticker
  | Raise e =>
      Raise (GoMarketAPIError ("Failed to parse ticker data: " +:+ exn_str e))
  end.
End GoMarketClient.

(** ** [WebSocketClient] *)

(** [del d[k]] *)
Definition dict_del {V} (d : list (string * V)) (k : string)
    : list (string * V) :=
  filter (λ kv, kv.1 ≠ k) d.

(** [k in d] *)
Definition dict_mem {V} (d : list (string * V)) (k : string) : bool :=
  bool_decide (k ∈ dict_keys d).

(** [text.split(':')] *)
Fixpoint split_colon_aux (text current : string) : list string :=
  match text with
  | EmptyString => [current]
  | String a rest =>
      if bool_decide (a = ":"%char) then current :: split_colon_aux rest ""
      else split_colon_aux rest (current +:+ String a "")
  end.
Definition split_colon (text : string) : list string :=
  split_colon_aux text "".

(** The subscribers.  A bound method such as
    [ArbitrageService._market_data_callback] is one callback however often
    it is registered. *)
Inductive callback :=
| ArbitrageCallback
| MarketViewCallback
| UserCallback (id : nat).

#[global] Instance callback_eq_dec : EqDecision callback.
Proof. solve_decision. Defined.

Module WebSocketClient.
Inductive socket := Open | Closed.

(** The JSON document of [_send_subscription_message]. *)
Record message := {
  action : string;
  msg_exchange : string;
  msg_symbol : string;
  type : string
}.

(** A task made by [_start_polling]; [finished] once the worker has left
    its loop or was cancelled. *)
Record poll_task := {
  task_exchange : string;
  task_symbol : string;
  finished : bool
}.

Record t := {
  reconnect_delay : Z;
  max_reconnect_attempts : Z;
  websocket : option socket;
  is_connected : bool;
  is_running : bool;
  reconnect_count : nat;
  subscriptions : list (string * list callback);
  use_polling : bool;
  polling_tasks : gmap string poll_task;
  (** control state: the receive loop of [start] is running *)
  receiving : bool;
  (** effects, oldest first: messages sent on the socket, callbacks
      invoked with their argument, sleeps of [_reconnect] in seconds *)
  sent : list message;
  delivered : list (callback * MarketData.t);
  slept : list Z
}.

(** [__init__].  An argument that is [None] or zero gives way to the
    configured value: [websocket_reconnect_delay = 5],
    [websocket_max_reconnect_attempts = 10]. *)
Definition init (reconnect_delay max_reconnect_attempts : option Z) : t :=
  {| reconnect_delay :=
       match reconnect_delay with
       | Some d => if bool_decide (d = 0)%Z then 5 else d
       | None => 5
       end;
     max_reconnect_attempts :=
       match max_reconnect_attempts with
       | Some n => if bool_decide (n = 0)%Z then 10 else n
       | None => 10
       end;
     websocket := None; is_connected := false; is_running := false;
     reconnect_count := 0; subscriptions := []; use_polling := false;
     polling_tasks := ∅; receiving := false;
     sent := []; delivered := []; slept := [] |}.

Definition with_subscriptions (s : list (string * list callback)) (c : t) :=
  {| reconnect_delay := reconnect_delay c;
     max_reconnect_attempts := max_reconnect_attempts c;
     websocket := websocket c; is_connected := is_connected c;
     is_running := is_running c; reconnect_count := reconnect_count c;
     subscriptions := s; use_polling := use_polling c;
     polling_tasks := polling_tasks c; receiving := receiving c;
     sent := sent c; delivered := delivered c; slept := slept c |}.

Definition with_polling_tasks (p : gmap string poll_task) (c : t) :=
  {| reconnect_delay := reconnect_delay c;
     max_reconnect_attempts := max_reconnect_attempts c;
     websocket := websocket c; is_connected := is_connected c;
     is_running := is_running c; reconnect_count := reconnect_count c;
     subscriptions := subscriptions c; use_polling := use_polling c;
     polling_tasks := p; receiving := receiving c;
     sent := sent c; delivered := delivered c; slept := slept c |}.

(** The connection flags, set together by [connect], [start] and
    [_reconnect]. *)
Definition with_connection (ws : option socket)
    (connected running polling receive : bool) (count : nat) (c : t) :=
  {| reconnect_delay := reconnect_delay c;
     max_reconnect_attempts := max_reconnect_attempts c;
     websocket := ws; is_connected := connected;
     is_running := running; reconnect_count := count;
     subscriptions := subscriptions c; use_polling := polling;
     polling_tasks := polling_tasks c; receiving := receive;
     sent := sent c; delivered := delivered c; slept := slept c |}.

Definition with_effects (m : list message)
    (d : list (callback * MarketData.t)) (s : list Z) (c : t) :=
  {| reconnect_delay := reconnect_delay c;
     max_reconnect_attempts := max_reconnect_attempts c;
     websocket := websocket c; is_connected := is_connected c;
     is_running := is_running c; reconnect_count := reconnect_count c;
     subscriptions := subscriptions c; use_polling := use_polling c;
     polling_tasks := polling_tasks c; receiving := receiving c;
     sent := m; delivered := d; slept := s |}.

Definition subscription_key (exchange symbol : string) : string :=
  exchange +:+ ":" +:+ symbol.

(** [connect].  [reachable] tells whether [websockets.connect] succeeds.
    Both branches return [True]. *)
Definition connect (reachable : bool) (c : t) : bool * t :=
  if reachable then
    (true, with_connection (Some Open) true (is_running c) false
             (receiving c) 0 c)
  else
    (true, with_connection (websocket c) (is_connected c) (is_running c)
             true (receiving c) (reconnect_count c) c).

(** [_send_subscription_message]: nothing is sent without an open
    socket. *)
Definition _send_subscription_message (exchange symbol : string) (c : t)
    : t :=
  match websocket c with
  | Some Open =>
      with_effects
        (sent c ++ [{| action := "subscribe"; msg_exchange := exchange;
                       msg_symbol := symbol; type := "ticker" |}])
        (delivered c) (slept c) c
  | _ => c
  end.

(** [_start_polling]: one worker task per key. *)
Definition _start_polling (exchange symbol : string) (c : t) : t :=
  let key := subscription_key exchange symbol in
  match polling_tasks c !! key with
  | Some _ => c
  | None =>
      with_polling_tasks
        (<[key := {| task_exchange := exchange; task_symbol := symbol;
                     finished := false |}]> (polling_tasks c)) c
  end.

Definition subscribe (exchange symbol : string) (cb : callback) (c : t)
    : t :=
  let key := subscription_key exchange symbol in
  let subs :=
    if dict_mem (subscriptions c) key then subscriptions c
    else dict_set (subscriptions c) key [] in
  let subs :=
    match dict_get subs key with
    | Ok callbacks => dict_set subs key (callbacks ++ [cb])
    | Raise _ => subs
    end in
  let c := with_subscriptions subs c in
  if use_polling c then _start_polling exchange symbol c
  else _send_subscription_message exchange symbol c.

Definition unsubscribe (exchange symbol : string) (c : t) : t :=
  let key := subscription_key exchange symbol in
  if dict_mem (subscriptions c) key then
    let c := with_subscriptions (dict_del (subscriptions c) key) c in
    match polling_tasks c !! key with
    | Some _ => with_polling_tasks (delete key (polling_tasks c)) c
    | None => c
    end
  else c.

(** The number of callbacks registered under a key: the count
    [subscribe] logs as [callback_count]. *)
Definition callback_count (exchange symbol : string) (c : t) : nat :=
  match dict_get (subscriptions c) (subscription_key exchange symbol) with
  | Ok callbacks => length callbacks
  | Raise _ => 0
  end.

(** [_notify_callbacks]: every callback of the key, in order. *)
Definition _notify_callbacks (key : string) (market_data : MarketData.t)
    (c : t) : t :=
  match dict_get (subscriptions c) key with
  | Raise _ => c
  | Ok callbacks =>
      with_effects (sent c)
        (delivered c ++ ((λ cb, (cb, market_data)) <$> callbacks))
        (slept c) c
  end.

(** One turn of [poll_worker] for the task stored under [key];
    [ticker] is what [get_ticker] returns this time.  Without a stored
    task there is no worker to run. *)
Definition poll_worker (key : string) (ticker : result MarketData.t)
    (c : t) : t :=
  match polling_tasks c !! key with
  | None => c
  | Some task =>
      if finished task then c
      else if is_running c && dict_mem (subscriptions c) key then
        match ticker with
        | Ok market_data => _notify_callbacks key market_data c
        | Raise _ => c
        end
      else
        with_polling_tasks
          (<[key := {| task_exchange := task_exchange task;
                       task_symbol := task_symbol task;
                       finished := true |}]> (polling_tasks c)) c
  end.

(** [_handle_websocket_message]; [parsed] is what [json.loads] and
    [_parse_websocket_data] make of the message, [None] for a message
    they drop. *)
Definition _handle_websocket_message (parsed : option MarketData.t)
    (c : t) : t :=
  match parsed with
  | Some market_data =>
      _notify_callbacks
        (subscription_key (MarketData.exchange market_data)
           (MarketData.symbol market_data))
        market_data c
  | None => c
  end.

(** The loop [for subscription_key in self.subscriptions.keys()] of
    [_reconnect].  The unpacking [exchange, symbol = key.split(':')]
    raises unless the key has exactly one colon. *)
Fixpoint resubscribe (keys : list string) (c : t) : result unit * t :=
  match keys with
  | [] => (Ok (), c)
  | key :: keys' =>
      match split_colon key with
      | [exchange; symbol] =>
          resubscribe keys' (_send_subscription_message exchange symbol c)
      | _ => (Raise (ValueError "too many values to unpack"), c)
      end
  end.

(** [_reconnect]; [reachable] is passed on to [connect]. *)
Definition _reconnect (reachable : bool) (c : t) : result unit * t :=
  if bool_decide (max_reconnect_attempts c ≤ Z.of_nat (reconnect_count c))%Z
  then
    (Ok (), with_connection (websocket c) (is_connected c) true true
              (receiving c) (reconnect_count c) c)
  else
    let count := (reconnect_count c + 1)%nat in
    let c := with_connection (websocket c) (is_connected c) (is_running c)
               (use_polling c) (receiving c) count c in
    let delay := (reconnect_delay c * 2 ^ Z.of_nat (count - 1))%Z in
    let c := with_effects (sent c) (delivered c) (slept c ++ [delay]) c in
    let '(connected, c) := connect reachable c in
    if connected then resubscribe (dict_keys (subscriptions c)) c
    else (Ok (), c).

(** [start], up to the first [recv]: in polling mode it returns at once,
    otherwise the receive loop is entered if [is_running and
    is_connected] holds.  [receiving] says that the loop is waiting in
    [recv]. *)
Definition start (c : t) : t :=
  let c := with_connection (websocket c) (is_connected c) true
             (use_polling c) (receiving c) (reconnect_count c) c in
  if use_polling c then c
  else with_connection (websocket c) (is_connected c) (is_running c)
         (use_polling c) (is_running c && is_connected c)
         (reconnect_count c) c.

(** [recv] returns a message: it is handled, and the loop goes on while
    [is_running and is_connected]. *)
Definition on_message (parsed : option MarketData.t) (c : t) : t :=
  if receiving c then
    let c := _handle_websocket_message parsed c in
    with_connection (websocket c) (is_connected c) (is_running c)
      (use_polling c) (is_running c && is_connected c) (reconnect_count c) c
  else c.

(** [recv] raises [ConnectionClosed]: the socket is closed, [_reconnect]
    runs and the loop ends with [break]; an exception of [_reconnect]
    reaches the outer handler, which clears [is_running]. *)
Definition on_connection_closed (reachable : bool) (c : t) : t :=
  if receiving c then
    let c := with_connection (Some Closed) (is_connected c) (is_running c)
               (use_polling c) (receiving c) (reconnect_count c) c in
    match _reconnect reachable c with
    | (Ok _, c) =>
        with_connection (websocket c) (is_connected c) (is_running c)
          (use_polling c) false (reconnect_count c) c
    | (Raise _, c) =>
        with_connection (websocket c) (is_connected c) false
          (use_polling c) false (reconnect_count c) c
    end
  else c.

(** [disconnect]: every polling task is cancelled (and stays in the
    dictionary), the socket is closed.  The receive loop of [start] is
    not touched: if it is waiting in [recv], the close reaches it as a
    [ConnectionClosed], the event of that name below. *)
Definition disconnect (c : t) : t :=
  let tasks :=
    (λ task, {| task_exchange := task_exchange task;
                task_symbol := task_symbol task; finished := true |})
    <$> polling_tasks c in
  with_polling_tasks tasks
    (with_connection
       (match websocket c with Some _ => Some Closed | None => None end)
       false false (use_polling c) (receiving c) (reconnect_count c) c).

(** What happens to a client without a call from its owner: the receive
    loop gets a message or loses the connection, or the worker stored
    under a key takes a turn. *)
Inductive event :=
| Message (parsed : option MarketData.t)
| ConnectionClosed (reachable : bool)
| PollTurn (key : string) (ticker : result MarketData.t).

Definition step (ev : event) (c : t) : t :=
  match ev with
  | Message parsed => on_message parsed c
  | ConnectionClosed reachable => on_connection_closed reachable c
  | PollTurn key ticker => poll_worker key ticker c
  end.

Definition run (evs : list event) (c : t) : t :=
  foldl (λ c ev, step ev c) c evs.
End WebSocketClient.

(** ** [DataStreamManager] *)

Module DataStreamManager.
(** An entry of [active_streams]. *)
Record stream := {
  stream_exchange : string;
  stream_symbol : string;
  stream_callback : callback;
  started_at : datetime
}.

Record t := {
  websocket_client : WebSocketClient.t;
  active_streams : gmap string stream
}.

Definition init : t :=
  {| websocket_client := WebSocketClient.init None None;
     active_streams := ∅ |}.

Definition start (reachable : bool) (m : t) : t :=
  {| websocket_client :=
       WebSocketClient.start
         (WebSocketClient.connect reachable (websocket_client m)).2;
     active_streams := active_streams m |}.

Definition subscribe_to_market_data (exchange symbol : string)
    (cb : callback) (utcnow : datetime) (m : t) : t :=
  let stream_key := WebSocketClient.subscription_key exchange symbol in
  {| websocket_client :=
       WebSocketClient.subscribe exchange symbol cb (websocket_client m);
     active_streams :=
       <[stream_key := {| stream_exchange := exchange;
                          stream_symbol := symbol;
                          stream_callback := cb;
                          started_at := utcnow |}]> (active_streams m) |}.

Definition unsubscribe_from_market_data (exchange symbol : string) (m : t)
    : t :=
  let stream_key := WebSocketClient.subscription_key exchange symbol in
  {| websocket_client :=
       WebSocketClient.unsubscribe exchange symbol (websocket_client m);
     active_streams := delete stream_key (active_streams m) |}.
End DataStreamManager.

(** ** [MonitoringConfig] *)

Module MonitoringConfig.
Record t := make_raw {
  chat_id : Z;
  symbols : list string;
  exchanges : list string;
  threshold_percentage : Q;
  is_active : bool;
  update_interval : Z;
  created_at : datetime;
  last_update : option datetime
}.

Definition post_init (c : t) : result t :=
  match symbols c, exchanges c with
  | [], _ => Raise (ValueError "At least one symbol must be specified")
  | _, [] => Raise (ValueError "At least one exchange must be specified")
  | _, _ =>
      if Qleb (threshold_percentage c) 0 then
        Raise (ValueError "Threshold percentage must be positive")
      else if bool_decide (update_interval c ≤ 0)%Z then
        Raise (ValueError "Update interval must be positive")
      else Ok c
  end.
End MonitoringConfig.

(** ** [ArbitrageService] *)

Module ArbitrageService.
(** The task [asyncio.create_task(self._monitoring_loop(chat_id,
    monitoring_config))]: the loop keeps the arguments it was started
    with. *)
Record task := {
  loop_chat_id : Z;
  loop_config : MonitoringConfig.t
}.

Record t := {
  data_stream_manager : DataStreamManager.t;
  monitoring_sessions : gmap Z MonitoringConfig.t;
  active_monitoring_tasks : gmap Z task;
  market_data_cache : gmap string market_dict;
  opportunity_history : list ArbitrageOpportunity.t;
  alert_cooldowns : gmap string datetime;
  alert_cooldown_minutes : Z;
  notification_callbacks : list nat;
  (** effects, oldest first: which notification callback was called with
      which chat and opportunity *)
  notified : list (nat * Z * ArbitrageOpportunity.t)
}.

Definition init (manager : DataStreamManager.t) : t :=
  {| data_stream_manager := manager; monitoring_sessions := ∅;
     active_monitoring_tasks := ∅; market_data_cache := ∅;
     opportunity_history := []; alert_cooldowns := ∅;
     alert_cooldown_minutes := 1; notification_callbacks := [];
     notified := [] |}.

Definition with_sessions (m : DataStreamManager.t)
    (sessions : gmap Z MonitoringConfig.t) (tasks : gmap Z task) (s : t) :=
  {| data_stream_manager := m; monitoring_sessions := sessions;
     active_monitoring_tasks := tasks;
     market_data_cache := market_data_cache s;
     opportunity_history := opportunity_history s;
     alert_cooldowns := alert_cooldowns s;
     alert_cooldown_minutes := alert_cooldown_minutes s;
     notification_callbacks := notification_callbacks s;
     notified := notified s |}.

Definition with_alerts (history : list ArbitrageOpportunity.t)
    (cooldowns : gmap string datetime)
    (sent : list (nat * Z * ArbitrageOpportunity.t)) (s : t) :=
  {| data_stream_manager := data_stream_manager s;
     monitoring_sessions := monitoring_sessions s;
     active_monitoring_tasks := active_monitoring_tasks s;
     market_data_cache := market_data_cache s;
     opportunity_history := history;
     alert_cooldowns := cooldowns;
     alert_cooldown_minutes := alert_cooldown_minutes s;
     notification_callbacks := notification_callbacks s;
     notified := sent |}.

Definition with_cache (cache : gmap string market_dict) (s : t) :=
  {| data_stream_manager := data_stream_manager s;
     monitoring_sessions := monitoring_sessions s;
     active_monitoring_tasks := active_monitoring_tasks s;
     market_data_cache := cache;
     opportunity_history := opportunity_history s;
     alert_cooldowns := alert_cooldowns s;
     alert_cooldown_minutes := alert_cooldown_minutes s;
     notification_callbacks := notification_callbacks s;
     notified := notified s |}.

(** [_subscribe_to_symbols]: every symbol with every exchange, always
    with the service's own [_market_data_callback]. *)
Definition _subscribe_to_symbols (config : MonitoringConfig.t)
    (utcnow : datetime) (m : DataStreamManager.t) : DataStreamManager.t :=
  foldl (λ m symbol,
    foldl (λ m exchange,
      DataStreamManager.subscribe_to_market_data exchange symbol
        ArbitrageCallback utcnow m)
      m (MonitoringConfig.exchanges config))
    m (MonitoringConfig.symbols config).

Definition _unsubscribe_from_symbols (config : MonitoringConfig.t)
    (m : DataStreamManager.t) : DataStreamManager.t :=
  foldl (λ m symbol,
    foldl (λ m exchange,
      DataStreamManager.unsubscribe_from_market_data exchange symbol m)
      m (MonitoringConfig.exchanges config))
    m (MonitoringConfig.symbols config).

Definition start_monitoring (monitoring_config : MonitoringConfig.t)
    (utcnow : datetime) (s : t) : t :=
  let chat_id := MonitoringConfig.chat_id monitoring_config in
  match monitoring_sessions s !! chat_id with
  | Some _ =>
      (* Update existing session *)
      with_sessions (data_stream_manager s)
        (<[chat_id := monitoring_config]> (monitoring_sessions s))
        (active_monitoring_tasks s) s
  | None =>
      with_sessions
        (_subscribe_to_symbols monitoring_config utcnow
           (data_stream_manager s))
        (<[chat_id := monitoring_config]> (monitoring_sessions s))
        (<[chat_id := {| loop_chat_id := chat_id;
                         loop_config := monitoring_config |}]>
           (active_monitoring_tasks s))
        s
  end.

Definition stop_monitoring (chat_id : Z) (s : t) : t :=
  match monitoring_sessions s !! chat_id with
  | None => s
  | Some monitoring_config =>
      with_sessions
        (_unsubscribe_from_symbols monitoring_config
           (data_stream_manager s))
        (delete chat_id (monitoring_sessions s))
        (delete chat_id (active_monitoring_tasks s))
        s
  end.

Definition _market_data_callback (market_data : MarketData.t) (s : t) : t :=
  let symbol := MarketData.symbol market_data in
  let by_exchange := default [] (market_data_cache s !! symbol) in
  with_cache
    (<[symbol := dict_set by_exchange (MarketData.exchange market_data)
                   market_data]> (market_data_cache s)) s.

Section Check.
(** The rounding [fl] and the clock reading [utcnow_at] are those of
    [find_arbitrage_opportunities]; [utcnow_fresh symbol exchange] is the
    reading inside [is_fresh]. *)
Variable fl : Q → Q.
Variable utcnow_fresh : string → string → datetime.
Variable utcnow_at : string → string → datetime.

(** One turn of the loop over [monitoring_config.symbols] in
    [_check_arbitrage_opportunities]: what the symbol adds to
    [opportunities].  An exception is logged and adds nothing. *)
Definition check_symbol (monitoring_config : MonitoringConfig.t)
    (symbol : string) (s : t) : list ArbitrageOpportunity.t :=
  let symbol_data := default [] (market_data_cache s !! symbol) in
  let filtered_data :=
    filter (λ kv, kv.1 ∈ MonitoringConfig.exchanges monitoring_config)
      symbol_data in
  if bool_decide (length filtered_data < 2)%nat then []
  else
    let fresh_data :=
      filter (λ kv, MarketData.is_fresh kv.2 (utcnow_fresh symbol kv.1) 60)
        filtered_data in
    if bool_decide (length fresh_data < 2)%nat then []
    else
      match find_arbitrage_opportunities fl utcnow_at fresh_data
              (MonitoringConfig.threshold_percentage monitoring_config)
      with
      | Ok symbol_opportunities => symbol_opportunities
      | Raise _ => []
      end.

Definition _check_arbitrage_opportunities
    (monitoring_config : MonitoringConfig.t) (s : t)
    : list ArbitrageOpportunity.t :=
  foldl (λ opportunities symbol,
           opportunities ++ check_symbol monitoring_config symbol s)
    [] (MonitoringConfig.symbols monitoring_config).
End Check.

(** [utcnow] is the reading taken by the comparison. *)
Definition _is_alert_cooldown_active (opportunity_key : string)
    (utcnow : datetime) (s : t) : bool :=
  match alert_cooldowns s !! opportunity_key with
  | None => false
  | Some last_alert_time =>
      let cooldown_end :=
        (last_alert_time + timedelta_minutes (alert_cooldown_minutes s))%Z in
      bool_decide (utcnow < cooldown_end)%Z
  end.

(** [_send_opportunity_alert]: every notification callback, in order. *)
Definition _send_opportunity_alert (chat_id : Z)
    (opportunity : ArbitrageOpportunity.t) (s : t) : t :=
  with_alerts (opportunity_history s) (alert_cooldowns s)
    (notified s
     ++ ((λ cb, (cb, chat_id, opportunity)) <$> notification_callbacks s))
    s.

Definition opportunity_key (opportunity : ArbitrageOpportunity.t) : string :=
  ArbitrageOpportunity.symbol opportunity +:+ ":"
  +:+ ArbitrageOpportunity.buy_exchange opportunity +:+ ":"
  +:+ ArbitrageOpportunity.sell_exchange opportunity.

(** [_process_opportunity].  The clock is read twice: [checked_at] by
    the cooldown test, [fired_at] when the firing time is stored. *)
Definition _process_opportunity (chat_id : Z)
    (opportunity : ArbitrageOpportunity.t) (checked_at fired_at : datetime)
    (s : t) : t :=
  let key := opportunity_key opportunity in
  if _is_alert_cooldown_active key checked_at s then s
  else
    let s := with_alerts (opportunity_history s ++ [opportunity])
               (alert_cooldowns s) (notified s) s in
    let s := with_alerts (opportunity_history s)
               (<[key := fired_at]> (alert_cooldowns s)) (notified s) s in
    _send_opportunity_alert chat_id opportunity s.
Definition add_notification_callback (cb : nat) (s : t) : t :=
  {| data_stream_manager := data_stream_manager s;
     monitoring_sessions := monitoring_sessions s;
     active_monitoring_tasks := active_monitoring_tasks s;
     market_data_cache := market_data_cache s;
     opportunity_history := opportunity_history s;
     alert_cooldowns := alert_cooldowns s;
     alert_cooldown_minutes := alert_cooldown_minutes s;
     notification_callbacks := notification_callbacks s ++ [cb];
     notified := notified s |}.

(** [get_opportunity_history]; the filter on [chat_id] is a [pass]. *)
Definition get_opportunity_history (chat_id : option Z)
    (symbol : option string) (hours : Z) (utcnow : datetime) (s : t)
    : list ArbitrageOpportunity.t :=
  let cutoff_time := (utcnow - timedelta_hours hours)%Z in
  let filtered_opportunities :=
    filter (λ opp, (cutoff_time ≤ ArbitrageOpportunity.timestamp opp)%Z)
      (opportunity_history s) in
  match symbol with
  | Some symbol =>
      filter (λ opp, ArbitrageOpportunity.symbol opp = symbol)
        filtered_opportunities
  | None => filtered_opportunities
  end.

(** [cleanup_expired_data]; [current_time] is the reading taken at the
    start, [utcnow_fresh symbol exchange] the one inside [is_fresh]. *)
Definition cleanup_expired_data (current_time : datetime)
    (utcnow_fresh : string → string → datetime) (s : t) : t :=
  let cutoff_time := (current_time - timedelta_hours 24)%Z in
  {| data_stream_manager := data_stream_manager s;
     monitoring_sessions := monitoring_sessions s;
     active_monitoring_tasks := active_monitoring_tasks s;
     market_data_cache :=
       map_imap
         (λ symbol exchange_data,
            Some (filter
                    (λ kv, MarketData.is_fresh kv.2
                             (utcnow_fresh symbol kv.1) 300 = true)
                    exchange_data))
         (market_data_cache s);
     opportunity_history :=
       filter (λ opp, (cutoff_time ≤ ArbitrageOpportunity.timestamp opp)%Z)
         (opportunity_history s);
     alert_cooldowns :=
       filter (λ kv, ¬ (current_time - kv.2 > timedelta_hours 1)%Z)
         (alert_cooldowns s);
     alert_cooldown_minutes := alert_cooldown_minutes s;
     notification_callbacks := notification_callbacks s;
     notified := notified s |}.
End ArbitrageService.

(** ** [MarketViewService]: where quotes are computed *)

Module MarketViewService.
Record session := {
  chat_id : Z;
  symbol : string;
  exchanges : list string;
  update_interval : Z
}.

(** The first half of one turn of [_market_view_loop]: the snapshots
    that are fresh and, with at least two of them, the quote.  [None]
    when the turn computes no quote. *)
Definition loop_quote (s : session) (market_data_cache : gmap string market_dict)
    (utcnow_fresh : string → datetime) (utcnow : datetime)
    : option (result ConsolidatedBBO.t) :=
  let symbol_data := default [] (market_data_cache !! symbol s) in
  let filtered_data := filter (λ kv, kv.1 ∈ exchanges s) symbol_data in
  let fresh_data :=
    filter (λ kv, MarketData.is_fresh kv.2 (utcnow_fresh kv.1)
                    (update_interval s * 2))
      filtered_data in
  if bool_decide (2 ≤ length fresh_data)%nat
  then Some (consolidate_bbo (symbol s) fresh_data utcnow)
  else None.

(** The loop of [get_current_cbbo] over [exchanges]; [get_ticker] is the
    client's answer per exchange, a failure of which skips the
    exchange. *)
Definition fetch_all (get_ticker : string → result MarketData.t)
    (exchanges : list string) : market_dict :=
  foldl (λ market_data exchange,
           match get_ticker exchange with
           | Ok ticker_data => dict_set market_data exchange ticker_data
           | Raise _ => market_data
           end)
    [] exchanges.

(** [get_current_cbbo]: every exception leaves as a [GoMarketAPIError]. *)
Definition get_current_cbbo (get_ticker : string → result MarketData.t)
    (symbol : string) (exchanges : list string) (utcnow : datetime)
    : result ConsolidatedBBO.t :=
  let market_data := fetch_all get_ticker exchanges in
  let outcome :=
    match market_data with
    | [] => Raise (GoMarketAPIError
                     ("No market data available for " +:+ symbol))
    | _ => consolidate_bbo symbol market_data utcnow
    end in
  match outcome with
  | Ok cbbo => Ok cbbo
  | Raise e =>
      Raise (GoMarketAPIError
               ("Failed to calculate CBBO: " +:+ GoMarketClient.exn_str e))
  end.

(** [_should_send_update]; of the session only [last_cbbo] is read. *)
Definition _should_send_update (last_cbbo : option ConsolidatedBBO.t)
    (cbbo : ConsolidatedBBO.t) : result bool :=
  match last_cbbo with
  | None => Ok true
  | Some last_cbbo =>
      let venue_changed :=
        negb (bool_decide (ConsolidatedBBO.best_bid_exchange cbbo
                           = ConsolidatedBBO.best_bid_exchange last_cbbo))
        || negb (bool_decide (ConsolidatedBBO.best_ask_exchange cbbo
                              = ConsolidatedBBO.best_ask_exchange last_cbbo))
      in
      let price_change_threshold := 0.001%Q in
      bid_change ←
        py_div (Qabs (ConsolidatedBBO.best_bid_price cbbo
                      - ConsolidatedBBO.best_bid_price last_cbbo))
          (ConsolidatedBBO.best_bid_price last_cbbo);
      ask_change ←
        py_div (Qabs (ConsolidatedBBO.best_ask_price cbbo
                      - ConsolidatedBBO.best_ask_price last_cbbo))
          (ConsolidatedBBO.best_ask_price last_cbbo);
      let price_changed :=
        Qltb price_change_threshold bid_change
        || Qltb price_change_threshold ask_change in
      let spread_change_threshold := 0.05%Q in
      spread_change ←
        py_div (Qabs (ConsolidatedBBO.spread_percentage cbbo
                      - ConsolidatedBBO.spread_percentage last_cbbo))
          (ConsolidatedBBO.spread_percentage last_cbbo);
      let spread_changed := Qltb spread_change_threshold spread_change in
      Ok (venue_changed || price_changed || spread_changed)
  end.
End MarketViewService.

(** ** Vocabulary of the statements *)

(** [exchange] is the first entry, in iteration order, whose bid is the
    largest of the dictionary, and [price] is that bid. *)
Definition first_max_bid (market_data : market_dict) (exchange : string)
    (price : Q) : Prop :=
  ∃ (i : nat) (data : MarketData.t),
    market_data !! i = Some (exchange, data)
    ∧ MarketData.bid_price data = price
    ∧ (∀ kv, kv ∈ market_data → (MarketData.bid_price kv.2 <= price)%Q)
    ∧ (∀ (j : nat) kv, (j < i)%nat → market_data !! j = Some kv →
         (MarketData.bid_price kv.2 < price)%Q).

(** Likewise for the smallest ask. *)
Definition first_min_ask (market_data : market_dict) (exchange : string)
    (price : Q) : Prop :=
  ∃ (i : nat) (data : MarketData.t),
    market_data !! i = Some (exchange, data)
    ∧ MarketData.ask_price data = price
    ∧ (∀ kv, kv ∈ market_data → (price <= MarketData.ask_price kv.2)%Q)
    ∧ (∀ (j : nat) kv, (j < i)%nat → market_data !! j = Some kv →
         (price < MarketData.ask_price kv.2)%Q).

(** The percentage of the scan for a selling bid and a buying ask, as
    it is computed: a difference, a quotient and a product, each
    rounded. *)
Definition rounded_percentage (fl : Q → Q) (bid ask : Q) : Q :=
  fl (fl (fl (bid - ask) / ask) * 100)%Q.

(** The pairs the scan is specified to report.  [crossed] is the test on
    an earlier snapshot [di] and a later one [dj]; [signal_for] the signal
    for them; [crossed_signals] runs over every entry and every later
    entry, in order.  [accepted] is the test of the constructor on the
    percentage of a signal. *)
Definition crossed (fl : Q → Q) (threshold_percentage : Q)
    (di dj : MarketData.t) : Prop :=
  (MarketData.ask_price dj < MarketData.bid_price di)%Q
  ∧ (threshold_percentage
     <= rounded_percentage fl (MarketData.bid_price di)
          (MarketData.ask_price dj))%Q.

#[global] Instance crossed_dec fl th di dj : Decision (crossed fl th di dj).
Proof.
  unfold crossed.
  destruct (Qlt_le_dec (MarketData.ask_price dj) (MarketData.bid_price di));
    [|right; intros [H _]; exact (Qlt_not_le _ _ H q)].
  destruct (Qlt_le_dec
              (rounded_percentage fl (MarketData.bid_price di)
                 (MarketData.ask_price dj)) th);
    [right; intros [_ H]; exact (Qlt_not_le _ _ q0 H)|].
  by left.
Defined.

Definition signal_for (fl : Q → Q) (utcnow_at : string → string → datetime)
    (ei : string) (di : MarketData.t) (ej : string) (dj : MarketData.t)
    : ArbitrageOpportunity.t :=
  {| ArbitrageOpportunity.symbol := MarketData.symbol di;
     ArbitrageOpportunity.buy_exchange := ej;
     ArbitrageOpportunity.sell_exchange := ei;
     ArbitrageOpportunity.buy_price := MarketData.ask_price dj;
     ArbitrageOpportunity.sell_price := MarketData.bid_price di;
     ArbitrageOpportunity.spread_percentage :=
       rounded_percentage fl (MarketData.bid_price di)
         (MarketData.ask_price dj);
     ArbitrageOpportunity.spread_absolute :=
       fl (MarketData.bid_price di - MarketData.ask_price dj)%Q;
     ArbitrageOpportunity.timestamp := utcnow_at ei ej |}.

Definition crossed_with (fl : Q → Q)
    (utcnow_at : string → string → datetime)
    (threshold_percentage : Q) (ei : string) (di : MarketData.t)
    (later : market_dict) : list ArbitrageOpportunity.t :=
  later ≫= λ '(ej, dj),
    if decide (crossed fl threshold_percentage di dj)
    then [signal_for fl utcnow_at ei di ej dj] else [].

Fixpoint crossed_signals (fl : Q → Q)
    (utcnow_at : string → string → datetime)
    (threshold_percentage : Q) (market_data : market_dict)
    : list ArbitrageOpportunity.t :=
  match market_data with
  | [] => []
  | (ei, di) :: later =>
      crossed_with fl utcnow_at threshold_percentage ei di later
      ++ crossed_signals fl utcnow_at threshold_percentage later
  end.

Definition accepted (o : ArbitrageOpportunity.t) : bool :=
  negb (Qleb (ArbitrageOpportunity.spread_percentage o) 0).

(** The roundings for which [is_still_valid] is compared with the scan:
    a larger exact result does not round to a smaller float, and zero is
    not rounded below zero. *)
Definition monotone (fl : Q → Q) : Prop :=
  (∀ x y : Q, (x <= y)%Q → (fl x <= fl y)%Q) ∧ (0 <= fl 0)%Q.

(** The snapshots of [symbol] in a cache that come from the given
    exchanges and are at most [max_age_seconds] old; [utcnow_fresh] is the
    clock reading per exchange. *)
Definition fresh_snapshots (market_data_cache : gmap string market_dict)
    (symbol : string) (exchanges : list string)
    (utcnow_fresh : string → datetime) (max_age_seconds : Z) : market_dict :=
  filter (λ kv, MarketData.is_fresh kv.2 (utcnow_fresh kv.1) max_age_seconds)
    (filter (λ kv, kv.1 ∈ exchanges) (default [] (market_data_cache !! symbol))).

(** An entry of a dictionary, found again under its key, with a positive
    ask. *)
Definition stored (market_data : market_dict) (kv : string * MarketData.t)
    : Prop :=
  dict_get market_data kv.1 = Ok kv.2 ∧ (0 < MarketData.ask_price kv.2)%Q.

(** How many requests a list of effects holds. *)
Fixpoint count_requests (es : list GoMarketClient.effect) : nat :=
  match es with
  | [] => 0
  | GoMarketClient.Request _ _ _ :: es' => S (count_requests es')
  | GoMarketClient.Sleep _ :: es' => count_requests es'
  end.

Definition request_count (c : GoMarketClient.t) : nat :=
  count_requests (GoMarketClient.effects c).

(** The character [c] occurs in [s]; [c] is a lower-case ASCII letter. *)
Definition has_char (c : ascii) (s : string) : Prop :=
  c ∈ String.list_ascii_of_string s.

Definition lower_case (c : ascii) : Prop :=
  (97 ≤ nat_of_ascii c ≤ 122)%nat.

(** The strings on which [upper] is [str.upper]. *)
Definition ascii_only (s : string) : Prop :=
  Forall (λ c, (nat_of_ascii c < 128)%nat) (String.list_ascii_of_string s).

(** The callbacks registered under a key, none for a missing key. *)
Definition callbacks_of (key : string) (c : WebSocketClient.t)
    : list callback :=
  match dict_get (WebSocketClient.subscriptions c) key with
  | Ok callbacks => callbacks
  | Raise _ => []
  end.

(** The subscribe message for a pair, and a text without colon. *)
Definition subscribe_message (pair : string * string)
    : WebSocketClient.message :=
  {| WebSocketClient.action := "subscribe";
     WebSocketClient.msg_exchange := pair.1;
     WebSocketClient.msg_symbol := pair.2;
     WebSocketClient.type := "ticker" |}.

Definition no_colon (text : string) : Prop := ¬ has_char ":" text.

(** The three names an alert key is made of; signals none of whose names
    holds a colon; and a run of calls of [_process_opportunity], each with
    its chat, its signal and its two clock readings. *)
Definition key_triple (o : ArbitrageOpportunity.t)
    : string * string * string :=
  (ArbitrageOpportunity.symbol o, ArbitrageOpportunity.buy_exchange o,
   ArbitrageOpportunity.sell_exchange o).

Definition plain_names (o : ArbitrageOpportunity.t) : Prop :=
  no_colon (ArbitrageOpportunity.symbol o)
  ∧ no_colon (ArbitrageOpportunity.buy_exchange o)
  ∧ no_colon (ArbitrageOpportunity.sell_exchange o).

Definition process_all
    (calls : list (Z * ArbitrageOpportunity.t * datetime * datetime))
    (s : ArbitrageService.t) : ArbitrageService.t :=
  foldl (λ s '(chat_id, o, checked_at, fired_at),
           ArbitrageService._process_opportunity chat_id o checked_at
             fired_at s)
    s calls.

(** What the cache of a service holds for a symbol and an exchange. *)
Definition cached (symbol exchange : string) (s : ArbitrageService.t)
    : result MarketData.t :=
  dict_get (default [] (ArbitrageService.market_data_cache s !! symbol))
    exchange.

(** The client behind a service. *)
Definition client_of (s : ArbitrageService.t) : WebSocketClient.t :=
  DataStreamManager.websocket_client (ArbitrageService.data_stream_manager s).

(** A key that is neither subscribed nor listed as a stream. *)
Definition released (key : string) (m : DataStreamManager.t) : Prop :=
  dict_mem (WebSocketClient.subscriptions (DataStreamManager.websocket_client m))
    key = false
  ∧ DataStreamManager.active_streams m !! key = None.

(** ** Sample data *)

(** A snapshot of BTC/USDT with unit sizes, observed at time 0. *)
Definition snapshot (exchange : string) (bid ask : Q) : MarketData.t :=
  MarketData.make_raw "BTC/USDT" exchange bid 1 ask 1 ((bid + ask) / 2)%Q
    0%Z.

(** The rounding that leaves every result as it is, for samples that are
    computed without rounding. *)
Definition exactly : Q → Q := λ q, q.

(** Two books with whole prices whose percentage is 29 before rounding:
    sell binance at 129, buy okx at 100. *)
Definition whole_books : market_dict :=
  [("binance", snapshot "binance" 129 130); ("okx", snapshot "okx" 99 100)].

(** And two whose percentage is 7 before rounding. *)
Definition seven_books : market_dict :=
  [("binance", snapshot "binance" 107 108); ("okx", snapshot "okx" 99 100)].

(** The dictionary of [test_find_arbitrage_opportunities]. *)
Definition crossed_books : market_dict :=
  [("binance", snapshot "binance" 50000 50001);
   ("okx", snapshot "okx" 50050 50051)].

(** The dictionary of [test_consolidate_bbo]. *)
Definition close_books : market_dict :=
  [("binance", snapshot "binance" 50000 50001);
   ("okx", snapshot "okx" 49999 50000.5)].

(** The signal the test expects for [crossed_books]: buy binance at
    50001, sell okx at 50050. *)
Definition crossed_signal : ArbitrageOpportunity.t :=
  signal_for exactly (λ _ _, 0%Z) "okx" (snapshot "okx" 50050 50051)
    "binance" (snapshot "binance" 50000 50001).

(** A signal of another triple: buy kraken, sell okx. *)
Definition other_signal : ArbitrageOpportunity.t :=
  signal_for exactly (λ _ _, 0%Z) "okx" (snapshot "okx" 50050 50051)
    "kraken" (snapshot "kraken" 50000 50001).

(** A fresh service with one notification callback. *)
Definition fresh_service : ArbitrageService.t :=
  ArbitrageService.add_notification_callback 0
    (ArbitrageService.init DataStreamManager.init).

(** A monitoring configuration on BTC/USDT, checked every 5 seconds. *)
Definition config_of (chat_id : Z) (exchanges : list string)
    (threshold_percentage : Q) : MonitoringConfig.t :=
  MonitoringConfig.make_raw chat_id ["BTC/USDT"] exchanges
    threshold_percentage true 5 0%Z None.

(** A client in polling mode with two subscribers of binance:BTCUSDT. *)
Definition two_subscribers : WebSocketClient.t :=
  WebSocketClient.subscribe "binance" "BTCUSDT" (UserCallback 2)
    (WebSocketClient.subscribe "binance" "BTCUSDT" (UserCallback 1)
       (WebSocketClient.start
          (WebSocketClient.connect false (WebSocketClient.init None None)).2)).

(** A client allowed one reconnection attempt, connected and receiving,
    with one subscriber of binance:BTCUSDT; and the same client after the
    connection was closed and the attempt to reconnect failed. *)
Definition streaming_client : WebSocketClient.t :=
  WebSocketClient.subscribe "binance" "BTCUSDT" (UserCallback 1)
    (WebSocketClient.start
       (WebSocketClient.connect true
          (WebSocketClient.init (Some 5%Z) (Some 1%Z))).2).

Definition degraded_client : WebSocketClient.t :=
  WebSocketClient.on_connection_closed false streaming_client.

(** A server that answers every request with 429 and [Retry-After: 7]. *)
Definition rate_limited : nat → GoMarketClient.outcome :=
  λ _, GoMarketClient.Responded
         {| GoMarketClient.status := 429;
            GoMarketClient.retry_after := GoMarketClient.IntHeader 7;
            GoMarketClient.payload := GoMarketClient.Json "{}" |}.

(** An order book with three bid and two ask levels. *)
Definition sample_book : OrderBook.t :=
  OrderBook.make_raw "BTC/USDT" "binance"
    [OrderBookLevel.make_raw 50000 1; OrderBookLevel.make_raw 49999 2;
     OrderBookLevel.make_raw 49999 3]
    [OrderBookLevel.make_raw 50001 1; OrderBookLevel.make_raw 50003 5]
    0%Z.

(** The exchanges of a list whose ticker request answers, each with its
    snapshot, in the order of the list. *)
Definition answered (get_ticker : string → result MarketData.t)
    (exchanges : list string) : market_dict :=
  omap (λ exchange,
          match get_ticker exchange with
          | Ok ticker_data => Some (exchange, ticker_data)
          | Raise _ => None
          end)
    exchanges.

(** A client at which only binance and okx answer. *)
Definition two_answer (exchange : string) : result MarketData.t :=
  if bool_decide (exchange = "binance") then Ok (snapshot "binance" 50000 50001)
  else if bool_decide (exchange = "okx") then Ok (snapshot "okx" 49999 50002)
  else Raise (GoMarketAPIError "Failed to get ticker: timeout").

(** Two books whose consolidated quote is locked: the best bid, from
    binance, equals the best ask, from okx. *)
Definition locked_books : market_dict :=
  [("binance", snapshot "binance" 50000 50001);
   ("okx", snapshot "okx" 49999 50000)].

(** * Properties *)

(** ** Comparisons *)

Lemma Qltb_lt (x y : Q) : Qltb x y = true ↔ (x < y)%Q.
Proof.
  unfold Qltb. rewrite Qlt_alt. destruct (x ?= y)%Q; split; congruence.
Qed.

Lemma Qltb_ge (x y : Q) : Qltb x y = false ↔ (y <= x)%Q.
Proof.
  split.
  - intros H. apply Qnot_lt_le. intros Hlt. apply Qltb_lt in Hlt. congruence.
  - intros H. destruct (Qltb x y) eqn:E; [|done].
    apply Qltb_lt in E. exfalso. exact (Qlt_not_le _ _ E H).
Qed.

Lemma Qleb_le (x y : Q) : Qleb x y = true ↔ (x <= y)%Q.
Proof. apply Qle_bool_iff. Qed.

Lemma Qleb_gt (x y : Q) : Qleb x y = false ↔ (y < x)%Q.
Proof.
  split.
  - intros H. apply Qnot_le_lt. intros Hle. apply Qleb_le in Hle. congruence.
  - intros H. destruct (Qleb x y) eqn:E; [|done].
    apply Qleb_le in E. exfalso. exact (Qlt_not_le _ _ H E).
Qed.

Lemma py_div_nonzero (x y : Q) : ¬ (y == 0)%Q → py_div x y = Ok (x / y)%Q.
Proof.
  intros H. unfold py_div. destruct (Qeq_bool y 0) eqn:E; [|done].
  apply Qeq_bool_iff in E. contradiction.
Qed.

(** ** The loop of [consolidate_bbo] *)

Lemma bbo_loop_snoc (l : market_dict) (item : string * MarketData.t) :
  bbo_loop (l ++ [item]) = bbo_body (bbo_loop l) item.
Proof. unfold bbo_loop. by rewrite fold_left_app. Qed.

Lemma first_max_bid_single (e : string) (d : MarketData.t) :
  first_max_bid [(e, d)] e (MarketData.bid_price d).
Proof.
  exists 0%nat, d. split_and!; [done|done| |].
  - intros kv ->%list_elem_of_singleton. apply Qle_refl.
  - intros j kv Hj. lia.
Qed.

Lemma first_min_ask_single (e : string) (d : MarketData.t) :
  first_min_ask [(e, d)] e (MarketData.ask_price d).
Proof.
  exists 0%nat, d. split_and!; [done|done| |].
  - intros kv ->%list_elem_of_singleton. apply Qle_refl.
  - intros j kv Hj. lia.
Qed.

(** A later entry that is not larger leaves the first maximum alone. *)
Lemma first_max_bid_keep (l : market_dict) e p e' d' :
  first_max_bid l e p → (MarketData.bid_price d' <= p)%Q →
  first_max_bid (l ++ [(e', d')]) e p.
Proof.
  intros (i & d & Hi & Hp & Hall & Hbefore) Hle.
  exists i, d. split_and!; [|done| |].
  - by apply lookup_app_l_Some.
  - intros kv [Hin | ->%list_elem_of_singleton]%elem_of_app; [by apply Hall|done].
  - intros j kv Hj Hlook. apply (Hbefore j kv Hj).
    rewrite lookup_app_l in Hlook; [done|].
    apply lookup_lt_Some in Hi. lia.
Qed.

(** A later entry that is strictly larger becomes the first maximum. *)
Lemma first_max_bid_take (l : market_dict) e p e' d' :
  first_max_bid l e p → (p < MarketData.bid_price d')%Q →
  first_max_bid (l ++ [(e', d')]) e' (MarketData.bid_price d').
Proof.
  intros (i & d & Hi & Hp & Hall & Hbefore) Hlt.
  exists (length l), d'. split_and!; [|done| |].
  - by rewrite list_lookup_middle.
  - intros kv [Hin | ->%list_elem_of_singleton]%elem_of_app.
    + apply Qlt_le_weak. eapply Qle_lt_trans; [by apply Hall|done].
    + apply Qle_refl.
  - intros j kv Hj Hlook. rewrite lookup_app_l in Hlook; [|done].
    eapply Qle_lt_trans; [|done]. apply Hall.
    by eapply list_elem_of_lookup_2.
Qed.

Lemma first_min_ask_keep (l : market_dict) e p e' d' :
  first_min_ask l e p → (p <= MarketData.ask_price d')%Q →
  first_min_ask (l ++ [(e', d')]) e p.
Proof.
  intros (i & d & Hi & Hp & Hall & Hbefore) Hle.
  exists i, d. split_and!; [|done| |].
  - by apply lookup_app_l_Some.
  - intros kv [Hin | ->%list_elem_of_singleton]%elem_of_app; [by apply Hall|done].
  - intros j kv Hj Hlook. apply (Hbefore j kv Hj).
    rewrite lookup_app_l in Hlook; [done|].
    apply lookup_lt_Some in Hi. lia.
Qed.

Lemma first_min_ask_take (l : market_dict) e p e' d' :
  first_min_ask l e p → (MarketData.ask_price d' < p)%Q →
  first_min_ask (l ++ [(e', d')]) e' (MarketData.ask_price d').
Proof.
  intros (i & d & Hi & Hp & Hall & Hbefore) Hlt.
  exists (length l), d'. split_and!; [|done| |].
  - by rewrite list_lookup_middle.
  - intros kv [Hin | ->%list_elem_of_singleton]%elem_of_app.
    + apply Qlt_le_weak. eapply Qlt_le_trans; [done|by apply Hall].
    + apply Qle_refl.
  - intros j kv Hj Hlook. rewrite lookup_app_l in Hlook; [|done].
    eapply Qlt_le_trans; [done|]. apply Hall.
    by eapply list_elem_of_lookup_2.
Qed.

(** The invariant of the loop after a non-empty prefix of snapshots with
    positive bids. *)
Lemma bbo_loop_invariant (l : market_dict) :
  l ≠ [] →
  Forall (λ kv, (0 < MarketData.bid_price kv.2)%Q) l →
  first_max_bid l (best_bid_exchange (bbo_loop l)) (best_bid_price (bbo_loop l))
  ∧ ∃ ask, best_ask_price (bbo_loop l) = Finite ask
           ∧ first_min_ask l (best_ask_exchange (bbo_loop l)) ask.
Proof.
  induction l as [|[e d] l IH] using rev_ind; [done|].
  intros _ Hpos. apply Forall_app in Hpos as [Hl Hd].
  apply Forall_inv in Hd. simpl in Hd.
  rewrite bbo_loop_snoc. destruct (decide (l = [])) as [->|Hne].
  - simpl. apply Qltb_lt in Hd. rewrite Hd. split.
    + apply first_max_bid_single.
    + eexists. split; [done|]. apply first_min_ask_single.
  - destruct IH as [Hbid (ask & Hask & Hmin)]; [done|done|].
    set (v := bbo_loop l) in *. unfold bbo_body. simpl. split.
    + destruct (Qltb (best_bid_price v) (MarketData.bid_price d)) eqn:E.
      * apply Qltb_lt in E. by eapply first_max_bid_take.
      * apply Qltb_ge in E. by apply first_max_bid_keep.
    + rewrite Hask. simpl.
      destruct (Qltb (MarketData.ask_price d) ask) eqn:E.
      * apply Qltb_lt in E. eexists. split; [done|].
        by eapply first_min_ask_take.
      * apply Qltb_ge in E. exists ask. split; [done|].
        by apply first_min_ask_keep.
Qed.

(** After the guard, the sentinel is gone. *)
Lemma bbo_loop_ask_finite (l : market_dict) :
  l ≠ [] → ∃ ask, best_ask_price (bbo_loop l) = Finite ask.
Proof.
  induction l as [|[e d] l IH] using rev_ind; [done|]. intros _.
  rewrite bbo_loop_snoc. destruct (decide (l = [])) as [->|Hne].
  - simpl. eauto.
  - destruct (IH Hne) as [ask Hask]. simpl. rewrite Hask.
    destruct (below _ _); eauto.
Qed.

(** C1: on a non-empty dictionary of snapshots with [0 < bid < ask],
    [consolidate_bbo] returns a quote whose best bid is the largest bid, at
    the first exchange in iteration order that has it, whose best ask is
    the smallest ask with the same tie-break, and whose derived fields are
    mid = (bid + ask) / 2, spread = ask - bid and
    percentage = spread / bid * 100. *)
Theorem consolidate_bbo_best (symbol : string) (market_data : market_dict)
    (utcnow : datetime) :
  market_data ≠ [] →
  Forall (λ kv, (0 < MarketData.bid_price kv.2)%Q
                ∧ (MarketData.bid_price kv.2 < MarketData.ask_price kv.2)%Q)
    market_data →
  ∃ q, consolidate_bbo symbol market_data utcnow = Ok q
    ∧ first_max_bid market_data (ConsolidatedBBO.best_bid_exchange q)
        (ConsolidatedBBO.best_bid_price q)
    ∧ first_min_ask market_data (ConsolidatedBBO.best_ask_exchange q)
        (ConsolidatedBBO.best_ask_price q)
    ∧ ConsolidatedBBO.mid_price q
      = ((ConsolidatedBBO.best_bid_price q + ConsolidatedBBO.best_ask_price q)
         / 2)%Q
    ∧ ConsolidatedBBO.spread_absolute q
      = (ConsolidatedBBO.best_ask_price q - ConsolidatedBBO.best_bid_price q)%Q
    ∧ ConsolidatedBBO.spread_percentage q
      = (ConsolidatedBBO.spread_absolute q / ConsolidatedBBO.best_bid_price q
         * 100)%Q.
Proof.
  intros Hne Hvalid.
  assert (Hpos : Forall (λ kv, (0 < MarketData.bid_price kv.2)%Q) market_data).
  { eapply Forall_impl; [done|]. by intros kv [? _]. }
  destruct (bbo_loop_invariant market_data Hne Hpos)
    as [Hbid (ask & Hask & Hmin)].
  assert (Hbest : (0 < best_bid_price (bbo_loop market_data))%Q).
  { destruct Hbid as (i & d & Hi & <- & _).
    apply list_elem_of_lookup_2 in Hi.
    rewrite Forall_forall in Hpos. apply (Hpos _ Hi). }
  unfold consolidate_bbo. destruct market_data as [|x l]; [done|].
  rewrite Hask. unfold ConsolidatedBBO.make.
  rewrite py_div_nonzero.
  2:{ intros Hz. rewrite Hz in Hbest. by apply Qlt_irrefl in Hbest. }
  eexists. split; [done|]. simpl. by split_and!.
Qed.


Lemma consolidate_bbo_best_witness :
  ∃ q, consolidate_bbo "BTC/USDT" close_books 0%Z = Ok q
    ∧ first_max_bid close_books (ConsolidatedBBO.best_bid_exchange q)
        (ConsolidatedBBO.best_bid_price q)
    ∧ first_min_ask close_books (ConsolidatedBBO.best_ask_exchange q)
        (ConsolidatedBBO.best_ask_price q)
    ∧ ConsolidatedBBO.mid_price q
      = ((ConsolidatedBBO.best_bid_price q + ConsolidatedBBO.best_ask_price q)
         / 2)%Q
    ∧ ConsolidatedBBO.spread_absolute q
      = (ConsolidatedBBO.best_ask_price q - ConsolidatedBBO.best_bid_price q)%Q
    ∧ ConsolidatedBBO.spread_percentage q
      = (ConsolidatedBBO.spread_absolute q / ConsolidatedBBO.best_bid_price q
         * 100)%Q.
Proof.
  apply (consolidate_bbo_best "BTC/USDT" close_books 0%Z).
  - discriminate.
  - repeat constructor.
Defined.

(** The quote of the sample: bid 50000 at binance, ask 50000.5 at okx. *)
Example consolidate_bbo_close_books :
  ∃ q, consolidate_bbo "BTC/USDT" close_books 0%Z = Ok q
    ∧ ConsolidatedBBO.best_bid_exchange q = "binance"
    ∧ (ConsolidatedBBO.best_bid_price q == 50000)%Q
    ∧ ConsolidatedBBO.best_ask_exchange q = "okx"
    ∧ (ConsolidatedBBO.best_ask_price q == 50000.5)%Q
    ∧ (ConsolidatedBBO.mid_price q == 50000.25)%Q
    ∧ (ConsolidatedBBO.spread_absolute q == 0.5)%Q.
Proof. eexists. split; [vm_compute; reflexivity|]. by vm_compute. Qed.

(** ** The arbitrage scan *)

(** C3: on the dictionary {binance: 50000/50001, okx: 50050/50051}, read
    in that order, with threshold 0.05 the scan returns no signal at all:
    the only pair it looks at is (binance, okx), and there it only asks
    whether okx's ask 50051 is below binance's bid 50000. *)
Theorem find_arbitrage_crossed_books (fl : Q → Q)
    (utcnow_at : string → string → datetime) :
  find_arbitrage_opportunities fl utcnow_at crossed_books 0.05 = Ok [].
Proof. reflexivity. Qed.

(** The same two books inserted in the other order do give the signal of
    the test: buy binance at 50001, sell okx at 50050, spread 49, about
    0.098 percent. *)
Example reversed_books_give_the_signal
    (utcnow_at : string → string → datetime) :
  ∃ o, find_arbitrage_opportunities exactly utcnow_at (reverse crossed_books)
         0.05
       = Ok [o]
    ∧ ArbitrageOpportunity.buy_exchange o = "binance"
    ∧ ArbitrageOpportunity.buy_price o = 50001%Q
    ∧ ArbitrageOpportunity.sell_exchange o = "okx"
    ∧ ArbitrageOpportunity.sell_price o = 50050%Q
    ∧ (ArbitrageOpportunity.spread_absolute o == 49)%Q
    ∧ (0.0979 < ArbitrageOpportunity.spread_percentage o < 0.0981)%Q.
Proof. eexists. split; [vm_compute; reflexivity|]. by vm_compute. Qed.

(** The threshold test is made on the rounded percentage.  For the bid
    129 and the ask 100 the floats give 29 / 100 * 100 =
    28.999999999999996, so that with the threshold 29 there is no signal,
    where the arithmetic without rounding reaches the threshold.  For the
    bid 107 and the threshold 7.000000000000001 it is the other way
    round: the floats give 7.000000000000001. *)
Example scan_rounds_before_the_threshold
    (utcnow_at : string → string → datetime) :
  find_arbitrage_opportunities binary64 utcnow_at whole_books 29 = Ok []
  ∧ (∃ o, find_arbitrage_opportunities exactly utcnow_at whole_books 29
          = Ok [o])
  ∧ (∃ o, find_arbitrage_opportunities binary64 utcnow_at seven_books
            (binary64 7.000000000000001)
          = Ok [o])
  ∧ find_arbitrage_opportunities exactly utcnow_at seven_books
      (binary64 7.000000000000001)
    = Ok [].
Proof.
  split_and!.
  - by vm_compute.
  - eexists. by vm_compute.
  - eexists. by vm_compute.
  - by vm_compute.
Qed.

Lemma dict_get_elem {V} (d : list (string * V)) (k : string) (v : V) :
  NoDup (dict_keys d) → (k, v) ∈ d → dict_get d k = Ok v.
Proof.
  unfold dict_keys. induction d as [|[k' v'] d IH]; intros Hnd Hin.
  - by apply elem_of_nil in Hin.
  - simpl in *. apply NoDup_cons in Hnd as [Hfresh Hnd].
    apply elem_of_cons in Hin as [[= -> ->]|Hin].
    + by rewrite bool_decide_eq_true_2.
    + rewrite bool_decide_eq_false_2; [by apply IH|].
      intros ->. apply Hfresh. apply list_elem_of_fmap. by exists (k, v).
Qed.

Lemma spread_percentage_positive (bid ask : Q) :
  (0 < ask)%Q → (ask < bid)%Q → (0 < (bid - ask) / ask * 100)%Q.
Proof.
  intros Hask Hlt. apply Qmult_lt_0_compat; [|done].
  apply Qlt_shift_div_l; [done|]. rewrite Qmult_0_l.
  by apply Qlt_minus_iff in Hlt.
Qed.

(** The constructor tests the rounded percentage of a signal built from
    a crossed pair, and nothing else. *)
Lemma opportunity_make_crossed (fl : Q → Q)
    (utcnow_at : string → string → datetime) ei di ej dj :
  (0 < MarketData.ask_price dj)%Q →
  (MarketData.ask_price dj < MarketData.bid_price di)%Q →
  ArbitrageOpportunity.make (MarketData.symbol di) ej ei
    (MarketData.ask_price dj) (MarketData.bid_price di)
    (rounded_percentage fl (MarketData.bid_price di) (MarketData.ask_price dj))
    (fl (MarketData.bid_price di - MarketData.ask_price dj)%Q)
    (utcnow_at ei ej)
  = if accepted (signal_for fl utcnow_at ei di ej dj)
    then Ok (signal_for fl utcnow_at ei di ej dj)
    else Raise (ValueError "Spread percentage must be positive").
Proof.
  intros Hask Hlt.
  unfold ArbitrageOpportunity.make, ArbitrageOpportunity.post_init, accepted.
  simpl.
  rewrite (proj2 (Qleb_gt _ _) Hask).
  rewrite (proj2 (Qleb_gt _ _) (Qlt_trans _ _ _ Hask Hlt)). simpl.
  by destruct (Qleb _ 0).
Qed.

Lemma bind_Ok {A B} (a : A) (k : A → result B) : Ok a ≫= k = k a.
Proof. reflexivity. Qed.

Lemma bind_Raise {A B} (e : exn) (k : A → result B) :
  (Raise e : result A) ≫= k = Raise e.
Proof. reflexivity. Qed.

Lemma accepted_positive (o : ArbitrageOpportunity.t) :
  accepted o = true ↔ (0 < ArbitrageOpportunity.spread_percentage o)%Q.
Proof.
  unfold accepted. rewrite negb_true_iff. apply Qleb_gt.
Qed.

Section ScanFacts.
Variable fl : Q → Q.
Variable utcnow_at : string → string → datetime.
Variable market_data : market_dict.
Variable th : Q.

Lemma scan_pair_spec ei di ej dj opportunities :
  stored market_data (ei, di) → stored market_data (ej, dj) →
  scan_pair fl utcnow_at market_data th ei ej opportunities
  = if decide (crossed fl th di dj)
    then if accepted (signal_for fl utcnow_at ei di ej dj)
         then Ok (opportunities ++ [signal_for fl utcnow_at ei di ej dj])
         else Raise (ValueError "Spread percentage must be positive")
    else Ok opportunities.
Proof.
  intros [Hi _] [Hj Hask]. simpl in *. unfold scan_pair.
  rewrite Hi, Hj. cbv beta iota zeta delta [mbind result_bind].
  destruct (Qltb (MarketData.ask_price dj) (MarketData.bid_price di)) eqn:E.
  - apply Qltb_lt in E.
    rewrite py_div_nonzero by (intros Hz; rewrite Hz in Hask;
                               by apply Qlt_irrefl in Hask).
    cbv beta iota zeta.
    fold (rounded_percentage fl (MarketData.bid_price di)
            (MarketData.ask_price dj)).
    destruct (Qleb th _) eqn:Eth.
    + apply Qleb_le in Eth. rewrite opportunity_make_crossed by done.
      rewrite decide_True by done.
      by destruct (accepted _).
    + apply Qleb_gt in Eth. rewrite decide_False; [done|].
      intros [_ Hle]. exact (Qlt_not_le _ _ Eth Hle).
  - apply Qltb_ge in E. rewrite decide_False; [done|].
    intros [Hlt _]. exact (Qlt_not_le _ _ Hlt E).
Qed.

Lemma scan_inner_spec ei di (later : market_dict) opportunities :
  stored market_data (ei, di) → Forall (stored market_data) later →
  scan_inner fl utcnow_at market_data th ei (dict_keys later) opportunities
  = if forallb accepted (crossed_with fl utcnow_at th ei di later)
    then Ok (opportunities ++ crossed_with fl utcnow_at th ei di later)
    else Raise (ValueError "Spread percentage must be positive").
Proof.
  intros Hi Hlater. revert opportunities.
  induction Hlater as [|[ej dj] later Hj Hlater IH]; intros opportunities.
  - simpl. by rewrite app_nil_r.
  - cbn [dict_keys fmap list_fmap fst scan_inner].
    rewrite (scan_pair_spec ei di ej dj) by done.
    unfold crossed_with. cbn [mbind list_bind]. fold (crossed_with fl utcnow_at th ei di later).
    rewrite forallb_app.
    destruct (decide (crossed fl th di dj)) as [Hc|Hc].
    + cbn [forallb]. destruct (accepted _); [|done]. rewrite bind_Ok.
      cbn [andb]. fold (dict_keys later). rewrite IH.
      destruct (forallb _ _); [|done]. by rewrite <- app_assoc.
    + rewrite bind_Ok. cbn [forallb andb app]. fold (dict_keys later).
      by rewrite IH.
Qed.

Lemma scan_outer_spec (rest : market_dict) opportunities :
  Forall (stored market_data) rest →
  scan_outer fl utcnow_at market_data th (dict_keys rest) opportunities
  = if forallb accepted (crossed_signals fl utcnow_at th rest)
    then Ok (opportunities ++ crossed_signals fl utcnow_at th rest)
    else Raise (ValueError "Spread percentage must be positive").
Proof.
  intros Hrest. revert opportunities.
  induction Hrest as [|[ei di] rest Hi Hrest IH]; intros opportunities.
  - simpl. by rewrite app_nil_r.
  - cbn [dict_keys fmap list_fmap fst scan_outer crossed_signals].
    fold (dict_keys rest).
    rewrite (scan_inner_spec ei di rest) by done. rewrite forallb_app.
    destruct (forallb accepted (crossed_with _ _ _ _ _ _)); [|done].
    rewrite bind_Ok. cbn [andb]. rewrite IH.
    destruct (forallb _ _); [|done]. by rewrite <- app_assoc.
Qed.
End ScanFacts.

(** The scan on a dictionary of snapshots with positive asks: the
    signals of the crossed pairs, unless the constructor rejects one of
    them. *)
Lemma find_arbitrage_opportunities_spec (fl : Q → Q)
    (utcnow_at : string → string → datetime) (market_data : market_dict)
    (th : Q) :
  NoDup (dict_keys market_data) →
  Forall (λ kv, (0 < MarketData.ask_price kv.2)%Q) market_data →
  find_arbitrage_opportunities fl utcnow_at market_data th
  = if forallb accepted (crossed_signals fl utcnow_at th market_data)
    then Ok (crossed_signals fl utcnow_at th market_data)
    else Raise (ValueError "Spread percentage must be positive").
Proof.
  intros Hnd Hask. unfold find_arbitrage_opportunities.
  rewrite (scan_outer_spec fl utcnow_at market_data th market_data []);
    [done|].
  apply Forall_forall. intros [k v] Hin. split; simpl.
  - by apply dict_get_elem.
  - rewrite Forall_forall in Hask. apply (Hask _ Hin).
Qed.

Lemma find_arbitrage_opportunities_Ok (fl : Q → Q)
    (utcnow_at : string → string → datetime) (market_data : market_dict)
    (th : Q) out :
  NoDup (dict_keys market_data) →
  Forall (λ kv, (0 < MarketData.ask_price kv.2)%Q) market_data →
  find_arbitrage_opportunities fl utcnow_at market_data th = Ok out →
  out = crossed_signals fl utcnow_at th market_data
  ∧ ∀ o, o ∈ out → (0 < ArbitrageOpportunity.spread_percentage o)%Q.
Proof.
  intros Hnd Hask. rewrite find_arbitrage_opportunities_spec by done.
  destruct (forallb _ _) eqn:Hall; [|done]. intros [= <-]. split; [done|].
  intros o Ho. apply accepted_positive.
  rewrite forallb_forall in Hall. apply Hall. by apply list_elem_of_In.
Qed.

Lemma valid_asks (market_data : market_dict) :
  Forall (λ kv, MarketData.valid kv.2) market_data →
  Forall (λ kv, (0 < MarketData.ask_price kv.2)%Q) market_data.
Proof.
  intros Hvalid. eapply Forall_impl; [done|]. by intros kv (_ & ? & _).
Qed.

(** Membership in [crossed_signals], by positions. *)
Lemma elem_of_crossed_signals fl utcnow_at th (market_data : market_dict) o :
  o ∈ crossed_signals fl utcnow_at th market_data ↔
  ∃ (i j : nat) ei di ej dj,
    (i < j)%nat ∧ market_data !! i = Some (ei, di)
    ∧ market_data !! j = Some (ej, dj)
    ∧ crossed fl th di dj ∧ o = signal_for fl utcnow_at ei di ej dj.
Proof.
  induction market_data as [|[e d] rest IH]; simpl.
  - split; [by intros ?%elem_of_nil|]. by intros (i & j & ? & ? & ? & ? & _ & ? & _).
  - rewrite elem_of_app, IH. unfold crossed_with. rewrite list_elem_of_bind.
    split.
    + intros [([ej dj] & Ho & (j & Hj)%list_elem_of_lookup_1)
             |(i & j & ei & di & ej & dj & Hij & Hi & Hj & Hc & ->)].
      * destruct (decide (crossed fl th d dj)) as [Hc|];
          [|by apply elem_of_nil in Ho].
        apply list_elem_of_singleton in Ho as ->.
        exists 0%nat, (S j), e, d, ej, dj. split_and!; [lia|done..].
      * exists (S i), (S j), ei, di, ej, dj. split_and!; [lia|done..].
    + intros (i & j & ei & di & ej & dj & Hij & Hi & Hj & Hc & ->).
      destruct j as [|j]; [lia|]. simpl in Hj. destruct i as [|i].
      * simpl in Hi. injection Hi as -> ->. left. exists (ej, dj). split.
        -- rewrite decide_True by done. by apply list_elem_of_singleton.
        -- by eapply list_elem_of_lookup_2.
      * right. exists i, j, ei, di, ej, dj. split_and!; [lia|done..].
Qed.

(** With a positive threshold the constructor rejects no signal of a
    crossed pair. *)
Lemma positive_threshold_accepted fl utcnow_at th (market_data : market_dict) :
  (0 < th)%Q →
  ∀ o, o ∈ crossed_signals fl utcnow_at th market_data →
    (0 < ArbitrageOpportunity.spread_percentage o)%Q.
Proof.
  intros Hth o (i & j & ei & di & ej & dj & _ & _ & _ & [_ Hc] & ->)
    %elem_of_crossed_signals.
  simpl. by apply Qlt_le_trans with th.
Qed.

(** C4: on a dictionary of valid snapshots the scan returns exactly the
    signals of the pairs (i, j), i before j in iteration order, with
    ask_j < bid_i and (bid_i - ask_j) / ask_j * 100 >= threshold, in the
    order of the two loops; each signal buys at exchange j for j's ask,
    sells at exchange i for i's bid, with spread bid_i - ask_j and
    percentage spread / ask_j * 100.  The difference, the quotient and the
    product are the floats the code computes: each is rounded by [fl], and
    the statement holds for every rounding.  The third hypothesis is the
    test of the constructor on the percentage; it holds whenever the
    threshold is positive (lemma [positive_threshold_accepted]). *)
Theorem find_arbitrage_opportunities_exact (fl : Q → Q)
    (utcnow_at : string → string → datetime) (market_data : market_dict)
    (threshold_percentage : Q) :
  NoDup (dict_keys market_data) →
  Forall (λ kv, MarketData.valid kv.2) market_data →
  (∀ o, o ∈ crossed_signals fl utcnow_at threshold_percentage market_data →
     (0 < ArbitrageOpportunity.spread_percentage o)%Q) →
  ∃ out,
    find_arbitrage_opportunities fl utcnow_at market_data threshold_percentage
    = Ok out
    ∧ out = crossed_signals fl utcnow_at threshold_percentage market_data
    ∧ ∀ o, o ∈ out ↔
        ∃ (i j : nat) ei di ej dj,
          (i < j)%nat ∧ market_data !! i = Some (ei, di)
          ∧ market_data !! j = Some (ej, dj)
          ∧ (MarketData.ask_price dj < MarketData.bid_price di)%Q
          ∧ (threshold_percentage
             <= fl (fl (fl (MarketData.bid_price di - MarketData.ask_price dj)
                        / MarketData.ask_price dj) * 100))%Q
          ∧ o = {| ArbitrageOpportunity.symbol := MarketData.symbol di;
                   ArbitrageOpportunity.buy_exchange := ej;
                   ArbitrageOpportunity.sell_exchange := ei;
                   ArbitrageOpportunity.buy_price := MarketData.ask_price dj;
                   ArbitrageOpportunity.sell_price := MarketData.bid_price di;
                   ArbitrageOpportunity.spread_percentage :=
                     fl (fl (fl (MarketData.bid_price di
                                 - MarketData.ask_price dj)
                             / MarketData.ask_price dj) * 100)%Q;
                   ArbitrageOpportunity.spread_absolute :=
                     fl (MarketData.bid_price di - MarketData.ask_price dj)%Q;
                   ArbitrageOpportunity.timestamp := utcnow_at ei ej |}.
Proof.
  intros Hnd Hvalid Hpos. eexists. split_and!; [|done|].
  - rewrite find_arbitrage_opportunities_spec; [|done|by apply valid_asks].
    replace (forallb accepted _) with true; [done|].
    symmetry. apply forallb_forall. intros o Ho%list_elem_of_In.
    by apply accepted_positive, Hpos.
  - intros o. rewrite elem_of_crossed_signals.
    unfold crossed, signal_for, rounded_percentage.
    split; intros (i & j & ei & di & ej & dj & H);
      exists i, j, ei, di, ej, dj; tauto.
Qed.

Lemma find_arbitrage_opportunities_exact_witness :
  ∃ out,
    find_arbitrage_opportunities binary64 (λ _ _, 0%Z) (reverse crossed_books)
      0.05
    = Ok out
    ∧ out = crossed_signals binary64 (λ _ _, 0%Z) 0.05 (reverse crossed_books)
    ∧ ∀ o, o ∈ out ↔
        ∃ (i j : nat) ei di ej dj,
          (i < j)%nat ∧ reverse crossed_books !! i = Some (ei, di)
          ∧ reverse crossed_books !! j = Some (ej, dj)
          ∧ (MarketData.ask_price dj < MarketData.bid_price di)%Q
          ∧ (0.05
             <= binary64
                  (binary64
                     (binary64 (MarketData.bid_price di
                               - MarketData.ask_price dj)
                      / MarketData.ask_price dj) * 100))%Q
          ∧ o = {| ArbitrageOpportunity.symbol := MarketData.symbol di;
                   ArbitrageOpportunity.buy_exchange := ej;
                   ArbitrageOpportunity.sell_exchange := ei;
                   ArbitrageOpportunity.buy_price := MarketData.ask_price dj;
                   ArbitrageOpportunity.sell_price := MarketData.bid_price di;
                   ArbitrageOpportunity.spread_percentage :=
                     binary64
                       (binary64
                          (binary64 (MarketData.bid_price di
                                    - MarketData.ask_price dj)
                           / MarketData.ask_price dj) * 100)%Q;
                   ArbitrageOpportunity.spread_absolute :=
                     binary64 (MarketData.bid_price di
                              - MarketData.ask_price dj)%Q;
                   ArbitrageOpportunity.timestamp := 0%Z |}.
Proof.
  apply (find_arbitrage_opportunities_exact binary64 (λ _ _, 0%Z)
           (reverse crossed_books) 0.05).
  - apply (bool_decide_unpack _). by vm_compute.
  - repeat constructor.
  - apply positive_threshold_accepted. reflexivity.
Defined.

(** ** Alert cooldown *)

(** ** Strings *)

Lemma append_cons (a : ascii) (s t : string) :
  String a s +:+ t = String a (s +:+ t).
Proof. reflexivity. Qed.

Lemma append_nil_r (s : string) : s +:+ "" = s.
Proof.
  induction s as [|a s IH]; [done|]. by rewrite append_cons, IH.
Qed.

Lemma append_snoc (s t : string) (a : ascii) :
  (s +:+ String a "") +:+ t = s +:+ String a t.
Proof.
  induction s as [|b s IH]; [done|]. by rewrite !append_cons, IH.
Qed.

Lemma no_colon_cons (a : ascii) (t : string) :
  no_colon (String a t) ↔ a ≠ ":"%char ∧ no_colon t.
Proof.
  unfold no_colon, has_char. simpl. rewrite not_elem_of_cons.
  split; intros [? ?]; split; congruence.
Qed.

(** A text without a colon is found again in front of the first colon. *)
Lemma append_colon_inj (a a' r r' : string) :
  no_colon a' →
  a +:+ ":" +:+ r = a' +:+ ":" +:+ r' →
  (a = a' ∧ r = r') ∨ ∃ x, a = a' +:+ ":" +:+ x ∧ r' = x +:+ ":" +:+ r.
Proof.
  revert a. induction a' as [|c' a' IH]; intros a Hno Heq.
  - destruct a as [|c a].
    + left. split; [done|]. by injection Heq.
    + right. rewrite append_cons in Heq. injection Heq as -> Heq.
      exists a. by split.
  - apply no_colon_cons in Hno as [Hc Hno]. destruct a as [|c a].
    + rewrite append_cons in Heq. injection Heq as Heq _. congruence.
    + rewrite !append_cons in Heq. injection Heq as -> Heq.
      destruct (IH a Hno Heq) as [[-> ->]|(x & -> & ->)].
      * by left.
      * right. exists x. by rewrite append_cons.
Qed.

Lemma colon_inside (x y : string) : ¬ no_colon (x +:+ ":" +:+ y).
Proof.
  induction x as [|c x IH]; intros Hno.
  - by apply no_colon_cons in Hno as [? _].
  - rewrite append_cons in Hno. apply no_colon_cons in Hno as [_ Hno]. auto.
Qed.

Section Cooldown.
Import ArbitrageService.

(** Two signals with the same symbol, buying and selling exchange have the
    same key. *)
Lemma opportunity_key_same (o o' : ArbitrageOpportunity.t) :
  ArbitrageOpportunity.symbol o = ArbitrageOpportunity.symbol o' →
  ArbitrageOpportunity.buy_exchange o = ArbitrageOpportunity.buy_exchange o' →
  ArbitrageOpportunity.sell_exchange o = ArbitrageOpportunity.sell_exchange o' →
  opportunity_key o = opportunity_key o'.
Proof. unfold opportunity_key. by intros -> -> ->. Qed.

Lemma sixty_seconds : timedelta_minutes 1 = timedelta_seconds 60.
Proof. reflexivity. Qed.

(** Inside the window nothing at all changes. *)
Lemma process_suppressed chat_id o checked_at fired_at fired (s : ArbitrageService.t) :
  alert_cooldown_minutes s = 1%Z →
  alert_cooldowns s !! opportunity_key o = Some fired →
  (checked_at < fired + timedelta_seconds 60)%Z →
  _process_opportunity chat_id o checked_at fired_at s = s.
Proof.
  intros Hmin Hkey Hlt. unfold _process_opportunity, _is_alert_cooldown_active.
  rewrite Hkey, Hmin, sixty_seconds. by rewrite bool_decide_eq_true_2.
Qed.

(** Outside the window, and for a key that never fired, the signal goes
    to the history, the clock reading is stored under the key and every
    notification callback is called. *)
Lemma process_accepted chat_id o checked_at fired_at (s : ArbitrageService.t) :
  _is_alert_cooldown_active (opportunity_key o) checked_at s = false →
  _process_opportunity chat_id o checked_at fired_at s
  = with_alerts (opportunity_history s ++ [o])
      (<[opportunity_key o := fired_at]> (alert_cooldowns s))
      (notified s ++ ((λ cb, (cb, chat_id, o)) <$> notification_callbacks s))
      s.
Proof. intros Hfree. unfold _process_opportunity. by rewrite Hfree. Qed.

Lemma cooldown_over key checked_at fired (s : ArbitrageService.t) :
  alert_cooldown_minutes s = 1%Z →
  alert_cooldowns s !! key = Some fired →
  (fired + timedelta_seconds 60 ≤ checked_at)%Z →
  _is_alert_cooldown_active key checked_at s = false.
Proof.
  intros Hmin Hkey Hle. unfold _is_alert_cooldown_active.
  rewrite Hkey, Hmin, sixty_seconds. apply bool_decide_eq_false_2. lia.
Qed.

(** Signals with plain names have the same key only if they agree in
    symbol, buying exchange and selling exchange. *)
Lemma opportunity_key_inj (o b : ArbitrageOpportunity.t) :
  plain_names b → opportunity_key o = opportunity_key b →
  key_triple o = key_triple b.
Proof.
  intros (Hs & Hb & He). unfold opportunity_key, key_triple.
  destruct o as [s1 b1 e1 ? ? ? ? ?], b as [s2 b2 e2 ? ? ? ? ?].
  cbn [ArbitrageOpportunity.symbol ArbitrageOpportunity.buy_exchange
       ArbitrageOpportunity.sell_exchange] in *.
  intros Heq.
  destruct (append_colon_inj _ _ _ _ Hs Heq) as [[-> Heq']|(x & -> & Heq')].
  - destruct (append_colon_inj _ _ _ _ Hb Heq') as [[-> ->]|(x & -> & ->)];
      [done|]. by apply colon_inside in He.
  - symmetry in Heq'.
    destruct (append_colon_inj _ _ _ _ Hb Heq') as [[_ <-]|(y & _ & ->)];
      by apply colon_inside in He.
Qed.

Lemma process_keeps_minutes chat_id o checked_at fired_at
    (s : ArbitrageService.t) :
  alert_cooldown_minutes (_process_opportunity chat_id o checked_at fired_at s)
  = alert_cooldown_minutes s.
Proof.
  unfold _process_opportunity. by destruct (_is_alert_cooldown_active _ _ _).
Qed.

(** A call for another key leaves the stored time of a key alone. *)
Lemma process_other_key chat_id b checked_at fired_at key
    (s : ArbitrageService.t) :
  opportunity_key b ≠ key →
  alert_cooldowns (_process_opportunity chat_id b checked_at fired_at s) !! key
  = alert_cooldowns s !! key.
Proof.
  intros Hne. unfold _process_opportunity.
  destruct (_is_alert_cooldown_active _ _ _); [done|]. simpl.
  by apply lookup_insert_ne.
Qed.

Lemma process_all_other_keys calls o (s : ArbitrageService.t) :
  Forall (λ call, plain_names call.1.1.2
                  ∧ key_triple call.1.1.2 ≠ key_triple o) calls →
  alert_cooldowns (process_all calls s) !! opportunity_key o
  = alert_cooldowns s !! opportunity_key o
  ∧ alert_cooldown_minutes (process_all calls s) = alert_cooldown_minutes s.
Proof.
  intros Hcalls. revert s. unfold process_all.
  induction Hcalls as [|[[[chat b] ca] fa] calls [Hplain Hne] _ IH]; intros s.
  - done.
  - cbn [foldl]. destruct (IH (_process_opportunity chat b ca fa s))
      as [-> ->].
    rewrite process_keeps_minutes. split; [|done].
    apply process_other_key. intros Hkey. apply Hne. simpl.
    symmetry. by apply opportunity_key_inj.
Qed.

(** C5: the alert key stands for the triple (symbol, buying exchange,
    selling exchange).  Accepting a signal stores the clock reading
    [fired] under its key.  While [fired] is stored, a signal with the same
    triple processed at a reading before [fired] plus 60 seconds changes
    nothing: no callback is called, the history and the stored time stay
    as they are.  Processed at or after [fired] plus 60 seconds it is
    appended to the history, sent to every notification callback, and the
    stored time becomes the new reading.  Signals of other triples do not
    take part: after the acceptance of [o] and any run of calls for
    signals of other triples, with plain names, the stored time of [o] is
    still [fired], so that a signal of the triple of [o] is suppressed or
    accepted by [fired] alone; and the acceptance of [o] changes the
    cooldown of none of them. *)
Theorem cooldown_sixty_seconds (s : ArbitrageService.t) (o o' : ArbitrageOpportunity.t)
    (chat_id chat_id' : Z) (checked_at fired checked_at' fired' : datetime)
    (others : list (Z * ArbitrageOpportunity.t * datetime * datetime)) :
  alert_cooldown_minutes s = 1%Z →
  ArbitrageOpportunity.symbol o = ArbitrageOpportunity.symbol o' →
  ArbitrageOpportunity.buy_exchange o = ArbitrageOpportunity.buy_exchange o' →
  ArbitrageOpportunity.sell_exchange o = ArbitrageOpportunity.sell_exchange o' →
  Forall (λ call, plain_names call.1.1.2
                  ∧ key_triple call.1.1.2 ≠ key_triple o) others →
  (_is_alert_cooldown_active (opportunity_key o) checked_at s = false →
   alert_cooldowns (_process_opportunity chat_id o checked_at fired s)
     !! opportunity_key o = Some fired)
  ∧ (alert_cooldowns s !! opportunity_key o = Some fired →
     (checked_at' < fired + timedelta_seconds 60)%Z →
     _process_opportunity chat_id' o' checked_at' fired' s = s)
  ∧ (alert_cooldowns s !! opportunity_key o = Some fired →
     (fired + timedelta_seconds 60 ≤ checked_at')%Z →
     let s' := _process_opportunity chat_id' o' checked_at' fired' s in
     notified s'
     = notified s ++ ((λ cb, (cb, chat_id', o')) <$> notification_callbacks s)
     ∧ opportunity_history s' = opportunity_history s ++ [o']
     ∧ alert_cooldowns s' !! opportunity_key o = Some fired')
  ∧ (_is_alert_cooldown_active (opportunity_key o) checked_at s = false →
     let s1 := _process_opportunity chat_id o checked_at fired s in
     let s2 := process_all others s1 in
     let s3 := _process_opportunity chat_id' o' checked_at' fired' s2 in
     opportunity_history s1 = opportunity_history s ++ [o]
     ∧ alert_cooldowns s2 !! opportunity_key o = Some fired
     ∧ ((checked_at' < fired + timedelta_seconds 60)%Z → s3 = s2)
     ∧ ((fired + timedelta_seconds 60 ≤ checked_at')%Z →
        notified s3
        = notified s2
          ++ ((λ cb, (cb, chat_id', o')) <$> notification_callbacks s2)
        ∧ opportunity_history s3 = opportunity_history s2 ++ [o']
        ∧ alert_cooldowns s3 !! opportunity_key o = Some fired')
     ∧ ∀ call t, call ∈ others →
         _is_alert_cooldown_active (opportunity_key call.1.1.2) t s1
         = _is_alert_cooldown_active (opportunity_key call.1.1.2) t s).
Proof.
  intros Hmin Hsym Hbuy Hsell Hothers.
  pose proof (opportunity_key_same o o' Hsym Hbuy Hsell) as Hkey.
  assert (Hin : ∀ s0 t, alert_cooldown_minutes s0 = 1%Z →
            alert_cooldowns s0 !! opportunity_key o = Some t →
            (checked_at' < t + timedelta_seconds 60)%Z →
            _process_opportunity chat_id' o' checked_at' fired' s0 = s0).
  { intros s0 t Hm Hstored Hlt.
    apply (process_suppressed _ _ _ _ t); [done| |done]. by rewrite <- Hkey. }
  assert (Hout : ∀ s0 t, alert_cooldown_minutes s0 = 1%Z →
            alert_cooldowns s0 !! opportunity_key o = Some t →
            (t + timedelta_seconds 60 ≤ checked_at')%Z →
            let s' := _process_opportunity chat_id' o' checked_at' fired' s0 in
            notified s'
            = notified s0
              ++ ((λ cb, (cb, chat_id', o')) <$> notification_callbacks s0)
            ∧ opportunity_history s' = opportunity_history s0 ++ [o']
            ∧ alert_cooldowns s' !! opportunity_key o = Some fired').
  { intros s0 t Hm Hstored Hle. simpl. rewrite process_accepted.
    - simpl. split_and!; [done|done|]. rewrite Hkey. apply lookup_insert_eq.
    - rewrite <- Hkey. by apply (cooldown_over _ _ t). }
  split_and!.
  - intros Hfree. rewrite process_accepted by done. simpl.
    apply lookup_insert_eq.
  - intros Hstored Hlt. by apply (Hin s fired).
  - intros Hstored Hle. by apply (Hout s fired).
  - intros Hfree s1 s2 s3.
    assert (Hs1 : alert_cooldowns s1 !! opportunity_key o = Some fired).
    { unfold s1. rewrite process_accepted by done. simpl.
      apply lookup_insert_eq. }
    destruct (process_all_other_keys others o s1 Hothers) as [Hs2 Hm2].
    fold s2 in Hs2, Hm2. rewrite Hs1 in Hs2.
    assert (Hm : alert_cooldown_minutes s2 = 1%Z).
    { rewrite Hm2. unfold s1. by rewrite process_keeps_minutes. }
    split_and!.
    + unfold s1. by rewrite process_accepted.
    + done.
    + intros Hlt. by apply (Hin s2 fired).
    + intros Hle. by apply (Hout s2 fired).
    + intros call t Hcall. rewrite Forall_forall in Hothers.
      destruct (Hothers _ Hcall) as [Hplain Hne].
      unfold _is_alert_cooldown_active, s1.
      rewrite process_keeps_minutes, process_other_key; [done|].
      intros Hk. apply Hne. symmetry. by apply opportunity_key_inj.
Qed.

(** C9: the key names no owner.  Once a signal was accepted for one chat
    at reading [fired], a signal with the same key processed for any other
    chat before [fired] plus 60 seconds leaves the service as it is: nothing
    is sent to that chat and nothing is appended to the history. *)
Theorem cooldown_shared_between_owners (s : ArbitrageService.t)
    (o o' : ArbitrageOpportunity.t) (chat_id chat_id' : Z)
    (checked_at fired checked_at' fired' : datetime) :
  alert_cooldown_minutes s = 1%Z →
  ArbitrageOpportunity.symbol o = ArbitrageOpportunity.symbol o' →
  ArbitrageOpportunity.buy_exchange o = ArbitrageOpportunity.buy_exchange o' →
  ArbitrageOpportunity.sell_exchange o = ArbitrageOpportunity.sell_exchange o' →
  _is_alert_cooldown_active (opportunity_key o) checked_at s = false →
  (checked_at' < fired + timedelta_seconds 60)%Z →
  let s1 := _process_opportunity chat_id o checked_at fired s in
  let s2 := _process_opportunity chat_id' o' checked_at' fired' s1 in
  s2 = s1
  ∧ notified s2
    = notified s ++ ((λ cb, (cb, chat_id, o)) <$> notification_callbacks s)
  ∧ opportunity_history s2 = opportunity_history s ++ [o].
Proof.
  intros Hmin Hsym Hbuy Hsell Hfree Hlt s1 s2.
  assert (Hs1 : s2 = s1).
  { apply (process_suppressed _ _ _ _ fired); [| |done].
    - unfold s1. by rewrite process_accepted.
    - unfold s1. rewrite process_accepted by done. simpl.
      rewrite <- (opportunity_key_same o o') by done. apply lookup_insert_eq. }
  rewrite Hs1. unfold s1. by rewrite process_accepted.
Qed.
End Cooldown.


Lemma cooldown_sixty_seconds_witness :
  let first :=
    ArbitrageService._process_opportunity 1 crossed_signal 0 5 fresh_service in
  let second :=
    process_all [(1%Z, other_signal, 61000000%Z, 61000001%Z)] first in
  let early :=
    ArbitrageService._process_opportunity 1 crossed_signal 59000000 59000001
      second in
  let late :=
    ArbitrageService._process_opportunity 1 crossed_signal 62000000 62000001
      second in
  ArbitrageService.opportunity_history first = [crossed_signal]
  ∧ ArbitrageService.opportunity_history second
    = [crossed_signal; other_signal]
  ∧ ArbitrageService.alert_cooldowns second
      !! ArbitrageService.opportunity_key crossed_signal = Some 5%Z
  ∧ early = second
  ∧ ArbitrageService.opportunity_history late
    = [crossed_signal; other_signal; crossed_signal]
  ∧ ArbitrageService.alert_cooldowns late
      !! ArbitrageService.opportunity_key crossed_signal = Some 62000001%Z.
Proof.
  intros first second early late.
  assert (Hothers :
            Forall (λ call, plain_names call.1.1.2
                            ∧ key_triple call.1.1.2 ≠ key_triple crossed_signal)
              [(1%Z, other_signal, 61000000%Z, 61000001%Z)]).
  { apply Forall_singleton. split; [|by vm_compute].
    unfold plain_names, no_colon, has_char.
    split_and!; apply (bool_decide_unpack _); by vm_compute. }
  destruct (cooldown_sixty_seconds fresh_service crossed_signal crossed_signal
              1 1 0 5 59000000 59000001
              [(1%Z, other_signal, 61000000%Z, 61000001%Z)])
    as (_ & _ & _ & Hearly); [reflexivity..|exact Hothers|].
  destruct (cooldown_sixty_seconds fresh_service crossed_signal crossed_signal
              1 1 0 5 62000000 62000001
              [(1%Z, other_signal, 61000000%Z, 61000001%Z)])
    as (_ & _ & _ & Hlate); [reflexivity..|exact Hothers|].
  destruct Hearly as (Hfirst & Hstored & Hin & _); [reflexivity|].
  destruct Hlate as (_ & _ & _ & Hout & _); [reflexivity|].
  destruct Hout as (_ & Hhist & Htime); [vm_compute; discriminate|].
  split_and!.
  - exact Hfirst.
  - reflexivity.
  - exact Hstored.
  - apply Hin. reflexivity.
  - exact (eq_trans Hhist eq_refl).
  - exact Htime.
Defined.

Lemma cooldown_shared_between_owners_witness :
  let s1 :=
    ArbitrageService._process_opportunity 1 crossed_signal 0 5 fresh_service in
  let s2 :=
    ArbitrageService._process_opportunity 2 crossed_signal 30000000 30000001
      s1 in
  s2 = s1
  ∧ ArbitrageService.notified s2 = [(0%nat, 1%Z, crossed_signal)]
  ∧ ArbitrageService.opportunity_history s2 = [crossed_signal].
Proof.
  apply (cooldown_shared_between_owners fresh_service crossed_signal
           crossed_signal 1 2 0 5 30000000 30000001); reflexivity.
Defined.

(** ** Sessions *)

(** C10: [start_monitoring] for a chat that already has a session stores
    the new configuration under that chat and changes nothing else: the
    tasks, the stream manager with its subscriptions, the sessions of all
    other chats, the cache, the history and the cooldowns stay as they
    are. *)
Theorem start_monitoring_existing (config : MonitoringConfig.t)
    (utcnow : datetime) (s : ArbitrageService.t) :
  is_Some (ArbitrageService.monitoring_sessions s
             !! MonitoringConfig.chat_id config) →
  let s' := ArbitrageService.start_monitoring config utcnow s in
  ArbitrageService.monitoring_sessions s'
  = <[MonitoringConfig.chat_id config := config]>
      (ArbitrageService.monitoring_sessions s)
  ∧ (∀ other, other ≠ MonitoringConfig.chat_id config →
       ArbitrageService.monitoring_sessions s' !! other
       = ArbitrageService.monitoring_sessions s !! other)
  ∧ ArbitrageService.active_monitoring_tasks s'
    = ArbitrageService.active_monitoring_tasks s
  ∧ ArbitrageService.data_stream_manager s'
    = ArbitrageService.data_stream_manager s
  ∧ ArbitrageService.market_data_cache s'
    = ArbitrageService.market_data_cache s
  ∧ ArbitrageService.opportunity_history s'
    = ArbitrageService.opportunity_history s
  ∧ ArbitrageService.alert_cooldowns s' = ArbitrageService.alert_cooldowns s
  ∧ ArbitrageService.notification_callbacks s'
    = ArbitrageService.notification_callbacks s
  ∧ ArbitrageService.notified s' = ArbitrageService.notified s.
Proof.
  intros [old Hold] s'. unfold s', ArbitrageService.start_monitoring.
  rewrite Hold. simpl. split_and!; try done.
  intros other Hother. by rewrite lookup_insert_ne.
Qed.

Lemma start_monitoring_existing_witness :
  let s := ArbitrageService.start_monitoring
             (config_of 2 ["binance"; "okx"] 0.05) 0
             (ArbitrageService.start_monitoring
                (config_of 1 ["binance"; "okx"] 0.05) 0 fresh_service) in
  let config := config_of 1 ["bybit"; "deribit"] 0.2 in
  let s' := ArbitrageService.start_monitoring config 9 s in
  ArbitrageService.monitoring_sessions s'
  = <[1%Z := config]> (ArbitrageService.monitoring_sessions s)
  ∧ (∀ other, other ≠ 1%Z →
       ArbitrageService.monitoring_sessions s' !! other
       = ArbitrageService.monitoring_sessions s !! other)
  ∧ ArbitrageService.active_monitoring_tasks s'
    = ArbitrageService.active_monitoring_tasks s
  ∧ ArbitrageService.data_stream_manager s'
    = ArbitrageService.data_stream_manager s
  ∧ ArbitrageService.market_data_cache s'
    = ArbitrageService.market_data_cache s
  ∧ ArbitrageService.opportunity_history s'
    = ArbitrageService.opportunity_history s
  ∧ ArbitrageService.alert_cooldowns s' = ArbitrageService.alert_cooldowns s
  ∧ ArbitrageService.notification_callbacks s'
    = ArbitrageService.notification_callbacks s
  ∧ ArbitrageService.notified s' = ArbitrageService.notified s.
Proof.
  intros s config.
  apply (start_monitoring_existing config 9 s).
  exists (config_of 1 ["binance"; "okx"] 0.05). reflexivity.
Defined.

(** In the sample the task of chat 1 still runs with the exchanges it was
    started with, and no subscription exists for the new ones. *)
Example existing_session_sample :
  let s := ArbitrageService.start_monitoring
             (config_of 1 ["binance"; "okx"] 0.05) 0 fresh_service in
  let s' := ArbitrageService.start_monitoring
              (config_of 1 ["bybit"; "deribit"] 0.2) 9 s in
  ArbitrageService.loop_config
    <$> ArbitrageService.active_monitoring_tasks s' !! 1%Z
  = Some (config_of 1 ["binance"; "okx"] 0.05)
  ∧ dict_keys
      (WebSocketClient.subscriptions
         (DataStreamManager.websocket_client
            (ArbitrageService.data_stream_manager s')))
    = ["binance:BTC/USDT"; "okx:BTC/USDT"].
Proof. split; reflexivity. Qed.

(** ** Subscriptions *)

Lemma dict_get_del_eq {V} (d : list (string * V)) (k : string) :
  dict_get (dict_del d k) k = Raise (KeyError k).
Proof.
  unfold dict_del. induction d as [|[k' v] d IH]; [done|].
  rewrite filter_cons. simpl. case_decide as Hk; [|done].
  simpl. by rewrite bool_decide_eq_false_2.
Qed.

Lemma dict_get_del_ne {V} (d : list (string * V)) (k k' : string) :
  k ≠ k' → dict_get (dict_del d k) k' = dict_get d k'.
Proof.
  intros Hne. unfold dict_del. induction d as [|[k0 v] d IH]; [done|].
  rewrite filter_cons. simpl. case_decide as Hk; simpl.
  - by rewrite IH.
  - simpl in Hk. subst k0. by rewrite bool_decide_eq_false_2.
Qed.

Lemma dict_mem_del {V} (d : list (string * V)) (k : string) :
  dict_mem (dict_del d k) k = false.
Proof.
  apply bool_decide_eq_false_2. unfold dict_keys, dict_del.
  intros ([k' v] & -> & Hin)%list_elem_of_fmap.
  by apply list_elem_of_filter in Hin as [Hne _].
Qed.

Lemma dict_get_absent {V} (d : list (string * V)) (k : string) :
  dict_mem d k = false → dict_get d k = Raise (KeyError k).
Proof.
  unfold dict_mem, dict_keys. intros Hk%bool_decide_eq_false_1.
  induction d as [|[k' v] d IH]; [done|]. simpl in *.
  apply not_elem_of_cons in Hk as [Hne Hk].
  rewrite bool_decide_eq_false_2 by done. by apply IH.
Qed.

Lemma dict_del_absent {V} (d : list (string * V)) (k : string) :
  dict_mem d k = false → dict_del d k = d.
Proof.
  unfold dict_mem, dict_keys, dict_del. intros Hk%bool_decide_eq_false_1.
  induction d as [|[k' v] d IH]; [done|]. simpl in *.
  apply not_elem_of_cons in Hk as [Hne Hk].
  rewrite filter_cons_True by (simpl; congruence). by rewrite IH.
Qed.

Section Unsubscribe.
Import WebSocketClient.

(** What [unsubscribe] leaves of the subscriptions and of the tasks. *)
Lemma unsubscribe_subscriptions exchange symbol (c : WebSocketClient.t) :
  subscriptions (unsubscribe exchange symbol c)
  = dict_del (subscriptions c) (subscription_key exchange symbol).
Proof.
  unfold unsubscribe. destruct (dict_mem _ _) eqn:Hmem.
  - simpl. by destruct (polling_tasks c !! _).
  - by rewrite dict_del_absent.
Qed.

Lemma unsubscribe_polling_tasks exchange symbol (c : WebSocketClient.t) :
  polling_tasks (unsubscribe exchange symbol c)
  = if dict_mem (subscriptions c) (subscription_key exchange symbol)
    then delete (subscription_key exchange symbol) (polling_tasks c)
    else polling_tasks c.
Proof.
  unfold unsubscribe. destruct (dict_mem _ _); [|done]. simpl.
  destruct (polling_tasks c !! _) eqn:Htask; simpl; [done|].
  symmetry. by apply delete_id.
Qed.

Lemma unsubscribe_effects exchange symbol (c : WebSocketClient.t) :
  sent (unsubscribe exchange symbol c) = sent c
  ∧ delivered (unsubscribe exchange symbol c) = delivered c
  ∧ slept (unsubscribe exchange symbol c) = slept c.
Proof.
  unfold unsubscribe. destruct (dict_mem _ _); [|done]. simpl.
  by destruct (polling_tasks c !! _).
Qed.

(** With no callbacks under the key, a turn of its worker calls nobody. *)
Lemma poll_worker_unsubscribed key ticker (c : WebSocketClient.t) :
  dict_mem (subscriptions c) key = false →
  delivered (poll_worker key ticker c) = delivered c.
Proof.
  intros Hmem. unfold poll_worker.
  destruct (polling_tasks c !! key) as [task|]; [|done].
  destruct (finished task); [done|]. rewrite Hmem, andb_false_r. done.
Qed.

Lemma notify_unsubscribed key data (c : WebSocketClient.t) :
  dict_mem (subscriptions c) key = false → _notify_callbacks key data c = c.
Proof.
  intros Hmem. unfold _notify_callbacks. by rewrite dict_get_absent.
Qed.

(** C2, as the code has it: one [unsubscribe] for a key removes every
    callback registered under it, however many there are, and with them
    the polling task of the key; no message is sent on the socket.  From
    then on an update for the key, from the socket or from a worker, calls
    no callback.  Subscriptions and tasks under other keys stay. *)
Theorem unsubscribe_removes_every_subscriber (exchange symbol : string)
    (c : WebSocketClient.t) :
  let key := subscription_key exchange symbol in
  let c' := unsubscribe exchange symbol c in
  callback_count exchange symbol c' = 0%nat
  ∧ (dict_mem (subscriptions c) key = true → polling_tasks c' !! key = None)
  ∧ (∀ data, delivered (_notify_callbacks key data c') = delivered c')
  ∧ (∀ ticker, delivered (poll_worker key ticker c') = delivered c')
  ∧ sent c' = sent c
  ∧ (∀ k, k ≠ key →
       dict_get (subscriptions c') k = dict_get (subscriptions c) k
       ∧ polling_tasks c' !! k = polling_tasks c !! k).
Proof.
  intros key c'.
  assert (Hgone : dict_mem (subscriptions c') key = false).
  { unfold c'. rewrite unsubscribe_subscriptions. apply dict_mem_del. }
  split_and!.
  - unfold callback_count. fold key. by rewrite dict_get_absent.
  - intros Hmem. unfold c'. rewrite unsubscribe_polling_tasks. fold key.
    rewrite Hmem. apply lookup_delete_eq.
  - intros data. by rewrite notify_unsubscribed.
  - intros ticker. by apply poll_worker_unsubscribed.
  - apply unsubscribe_effects.
  - intros k Hk. unfold c'.
    rewrite unsubscribe_subscriptions, unsubscribe_polling_tasks. fold key.
    split; [by apply dict_get_del_ne|].
    destruct (dict_mem (subscriptions c) key); [by apply lookup_delete_ne|done].
Qed.

(** With two callbacks under binance:BTCUSDT a worker's turn reaches both;
    after one [unsubscribe] the count is 0, not 1, the task is gone and a
    turn reaches nobody. *)
Lemma unsubscribe_one_of_two :
  let data := snapshot "binance" 50000 50001 in
  callback_count "binance" "BTCUSDT" two_subscribers = 2%nat
  ∧ delivered (poll_worker "binance:BTCUSDT" (Ok data) two_subscribers)
    = [(UserCallback 1, data); (UserCallback 2, data)]
  ∧ ¬ (1 ≤ callback_count "binance" "BTCUSDT"
             (unsubscribe "binance" "BTCUSDT" two_subscribers))%nat
  ∧ polling_tasks (unsubscribe "binance" "BTCUSDT" two_subscribers)
      !! "binance:BTCUSDT" = None
  ∧ delivered
      (poll_worker "binance:BTCUSDT" (Ok data)
         (unsubscribe "binance" "BTCUSDT" two_subscribers))
    = [].
Proof. vm_compute. split_and!; try reflexivity. lia. Qed.
End Unsubscribe.

(** ** Reconnection *)

Section Reconnect.
Import WebSocketClient.

(** Resubscribing sends messages at most: flags, subscriptions and tasks
    stay. *)
Lemma resubscribe_frame keys (c : WebSocketClient.t) :
  let c' := (resubscribe keys c).2 in
  polling_tasks c' = polling_tasks c ∧ use_polling c' = use_polling c
  ∧ subscriptions c' = subscriptions c ∧ delivered c' = delivered c
  ∧ receiving c' = receiving c ∧ reconnect_count c' = reconnect_count c.
Proof.
  revert c. induction keys as [|key keys IH]; intros c; simpl; [done|].
  destruct (split_colon key) as [|exchange [|symbol [|? ?]]]; try done.
  destruct (IH (_send_subscription_message exchange symbol c))
    as (-> & -> & -> & -> & -> & ->).
  unfold _send_subscription_message. by destruct (websocket c) as [[]|].
Qed.

(** [_reconnect] starts no worker, on either branch and whatever
    [connect] meets. *)
Lemma reconnect_polling_tasks reachable (c : WebSocketClient.t) :
  polling_tasks (_reconnect reachable c).2 = polling_tasks c
  ∧ subscriptions (_reconnect reachable c).2 = subscriptions c.
Proof.
  unfold _reconnect. case_bool_decide; [done|].
  destruct reachable; simpl.
  - match goal with |- context [resubscribe ?k ?c0] =>
      destruct (resubscribe_frame k c0) as (-> & _ & -> & _) end. done.
  - match goal with |- context [resubscribe ?k ?c0] =>
      destruct (resubscribe_frame k c0) as (-> & _ & -> & _) end. done.
Qed.

(** Once the attempts are used up, [_reconnect] sets the two flags and
    returns. *)
Lemma reconnect_exhausted reachable (c : WebSocketClient.t) :
  (max_reconnect_attempts c ≤ Z.of_nat (reconnect_count c))%Z →
  _reconnect reachable c
  = (Ok (), with_connection (websocket c) (is_connected c) true true
              (receiving c) (reconnect_count c) c).
Proof. intros H. unfold _reconnect. by rewrite bool_decide_eq_true_2. Qed.

(** A client whose receive loop has ended and that has no worker does
    nothing on its own: no callback is called, no reconnection is tried,
    the mode does not change. *)
Lemma idle_step ev (c : WebSocketClient.t) :
  receiving c = false → polling_tasks c = ∅ → step ev c = c.
Proof.
  intros Hrecv Htasks. destruct ev as [parsed|reachable|key ticker]; simpl.
  - unfold on_message. by rewrite Hrecv.
  - unfold on_connection_closed. by rewrite Hrecv.
  - unfold poll_worker. by rewrite Htasks, lookup_empty.
Qed.

Lemma idle_run evs (c : WebSocketClient.t) :
  receiving c = false → polling_tasks c = ∅ → run evs c = c.
Proof.
  intros Hrecv Htasks. unfold run.
  induction evs as [|ev evs IH]; [done|]. simpl. by rewrite idle_step.
Qed.

(** In polling mode with the receive loop ended, nothing that happens
    without a call from the owner leaves polling mode or reconnects. *)
Lemma polling_stays ev (c : WebSocketClient.t) :
  use_polling c = true → receiving c = false →
  use_polling (step ev c) = true ∧ receiving (step ev c) = false
  ∧ slept (step ev c) = slept c
  ∧ reconnect_count (step ev c) = reconnect_count c.
Proof.
  intros Hpoll Hrecv. destruct ev as [parsed|reachable|key ticker]; simpl.
  - unfold on_message. by rewrite Hrecv.
  - unfold on_connection_closed. by rewrite Hrecv.
  - unfold poll_worker. destruct (polling_tasks c !! key) as [task|]; [|done].
    destruct (finished task); [done|].
    destruct (is_running c && dict_mem (subscriptions c) key); [|done].
    destruct ticker as [data|]; [|done].
    unfold _notify_callbacks. by destruct (dict_get _ _).
Qed.

(** C8 on the sample client, which is allowed one reconnection attempt and
    has one subscriber of binance:BTCUSDT made while streaming.  After
    the one failed attempt the client is in polling mode with the
    subscription still registered, but no worker was started for it and
    the receive loop has ended: whatever happens next without a call from
    the owner, the client stays as it is, so the callback is never called
    again.  A further failure, which takes the branch for used-up
    attempts, starts no worker either.  Only a new [subscribe] does. *)
Theorem reconnect_degrade_starts_no_polling :
  let data := snapshot "binance" 50000 50001 in
  max_reconnect_attempts streaming_client = 1%Z
  ∧ delivered (on_message (Some (MarketData.make_raw "BTCUSDT" "binance"
                                   50000 1 50001 1 50000.5 0))
                 streaming_client)
    = [(UserCallback 1,
        MarketData.make_raw "BTCUSDT" "binance" 50000 1 50001 1 50000.5 0)]
  ∧ use_polling degraded_client = true
  ∧ reconnect_count degraded_client = 1%nat
  ∧ callback_count "binance" "BTCUSDT" degraded_client = 1%nat
  ∧ polling_tasks degraded_client = ∅
  ∧ receiving degraded_client = false
  ∧ (∀ evs, run evs degraded_client = degraded_client)
  ∧ (∀ reachable,
       polling_tasks (_reconnect reachable degraded_client).2 = ∅
       ∧ use_polling (_reconnect reachable degraded_client).2 = true)
  ∧ delivered
      (poll_worker "binance:BTCUSDT" (Ok data)
         (subscribe "binance" "BTCUSDT" (UserCallback 2) degraded_client))
    = [(UserCallback 1, data); (UserCallback 2, data)].
Proof.
  intros data. split_and!; try reflexivity.
  - intros evs. by apply idle_run.
  - intros reachable. by rewrite reconnect_exhausted.
Qed.
End Reconnect.


(** ** Too few exchanges *)

(** A dictionary with the single exchange binance gets a quote, and
    binance supplies both sides of it; so does [get_current_cbbo] when
    asked for binance alone. *)
Lemma consolidate_bbo_single_exchange :
  let market_data := [("binance", snapshot "binance" 50000 50001)] in
  (length market_data < 2)%nat
  ∧ (∃ q, consolidate_bbo "BTC/USDT" market_data 0 = Ok q
       ∧ ConsolidatedBBO.best_bid_exchange q = "binance"
       ∧ ConsolidatedBBO.best_ask_exchange q = "binance")
  ∧ (∃ q, MarketViewService.get_current_cbbo
            (λ exchange, Ok (snapshot exchange 50000 50001))
            "BTC/USDT" ["binance"] 0
          = Ok q
       ∧ ConsolidatedBBO.best_bid_exchange q = "binance"
       ∧ ConsolidatedBBO.best_ask_exchange q = "binance").
Proof.
  split_and!; [simpl; lia| |]; eexists; (split; [vm_compute; reflexivity|]);
    by vm_compute.
Qed.

(** C6, as the code has it: [consolidate_bbo] raises on the empty
    dictionary only; one valid snapshot gives a quote with that exchange
    on both sides.  The turn of the market view computes no quote, and the
    arbitrage check adds no signal for the symbol, when fewer than two of
    the cached snapshots are fresh. *)
Theorem fewer_than_two_exchanges (symbol : string) (utcnow : datetime) :
  consolidate_bbo symbol [] utcnow
  = Raise (ValueError "Market data cannot be empty")
  ∧ (∀ exchange data,
       MarketData.valid data →
       ∃ q, consolidate_bbo symbol [(exchange, data)] utcnow = Ok q
         ∧ ConsolidatedBBO.best_bid_exchange q = exchange
         ∧ ConsolidatedBBO.best_ask_exchange q = exchange
         ∧ ConsolidatedBBO.best_bid_price q = MarketData.bid_price data
         ∧ ConsolidatedBBO.best_ask_price q = MarketData.ask_price data)
  ∧ (∀ (session : MarketViewService.session) cache utcnow_fresh,
       (length (fresh_snapshots cache (MarketViewService.symbol session)
                  (MarketViewService.exchanges session) utcnow_fresh
                  (MarketViewService.update_interval session * 2)) < 2)%nat →
       MarketViewService.loop_quote session cache utcnow_fresh utcnow = None)
  ∧ (∀ fl config (s : ArbitrageService.t) utcnow_fresh utcnow_at,
       (length (fresh_snapshots (ArbitrageService.market_data_cache s) symbol
                  (MonitoringConfig.exchanges config) (utcnow_fresh symbol)
                  60) < 2)%nat →
       ArbitrageService.check_symbol fl utcnow_fresh utcnow_at config symbol s
       = []).
Proof.
  split_and!.
  - reflexivity.
  - intros exchange data (Hbid & Hask & _ & _ & Hlt).
    unfold consolidate_bbo, bbo_loop. simpl.
    rewrite (proj2 (Qltb_lt _ _) Hbid). unfold ConsolidatedBBO.make.
    rewrite py_div_nonzero.
    2:{ intros Hz. rewrite Hz in Hbid. by apply Qlt_irrefl in Hbid. }
    eexists. by split_and!.
  - intros session cache utcnow_fresh Hfew.
    unfold MarketViewService.loop_quote. unfold fresh_snapshots in Hfew.
    rewrite bool_decide_eq_false_2; [done|lia].
  - intros fl config s utcnow_fresh utcnow_at Hfew.
    unfold ArbitrageService.check_symbol. unfold fresh_snapshots in Hfew.
    case_bool_decide; [done|]. by rewrite bool_decide_eq_true_2.
Qed.

Lemma fewer_than_two_exchanges_witness :
  let binance := snapshot "binance" 50000 50001 in
  let cache : gmap string market_dict :=
    {[ "BTC/USDT" := [("binance", binance)] ]} in
  (∃ q, consolidate_bbo "BTC/USDT" [("binance", binance)] 0 = Ok q
     ∧ ConsolidatedBBO.best_bid_exchange q = "binance"
     ∧ ConsolidatedBBO.best_ask_exchange q = "binance"
     ∧ ConsolidatedBBO.best_bid_price q = 50000%Q
     ∧ ConsolidatedBBO.best_ask_price q = 50001%Q)
  ∧ MarketViewService.loop_quote
      {| MarketViewService.chat_id := 1;
         MarketViewService.symbol := "BTC/USDT";
         MarketViewService.exchanges := ["binance"; "okx"];
         MarketViewService.update_interval := 5 |}
      cache (λ _, 0%Z) 0
    = None
  ∧ ArbitrageService.check_symbol exactly (λ _ _, 0%Z) (λ _ _, 0%Z)
      (config_of 1 ["binance"; "okx"] 0.05) "BTC/USDT"
      (ArbitrageService._market_data_callback binance fresh_service)
    = [].
Proof.
  intros binance cache.
  destruct (fewer_than_two_exchanges "BTC/USDT" 0) as (_ & Hone & Hview & Hscan).
  split_and!.
  - apply (Hone "binance" binance). unfold MarketData.valid. simpl.
    by split_and!.
  - apply Hview. vm_compute. lia.
  - apply Hscan. vm_compute. lia.
Defined.

(** ** Rate limiting *)

(** C7 on the sample server: the request answered with 429 and
    [Retry-After: 7] is made once and followed by a sleep of 7 seconds,
    and what the caller gets is a plain [GoMarketAPIError] whose text is
    "Unexpected error: Rate limit exceeded": the [RateLimitError] raised
    inside the [try] block is caught by the handler for [Exception]. *)
Theorem make_request_429 :
  ∃ c, GoMarketClient._make_request rate_limited "GET"
         "/api/ticker/binance/BTCUSDT" 0 (GoMarketClient.init 10)
       = Some (Raise (GoMarketAPIError "Unexpected error: Rate limit exceeded"),
               c)
    ∧ GoMarketClient.effects c
      = [GoMarketClient.Request "GET" "/api/ticker/binance/BTCUSDT" 1;
         GoMarketClient.Sleep 7].
Proof. eexists. split; [vm_compute; reflexivity|reflexivity]. Qed.

(** No call of [_make_request] ever ends in a [RateLimitError]: whatever
    it raises is a [GoMarketAPIError]. *)
Lemma make_request_raises_api_error fuel network method endpoint retry_count
    (c c' : GoMarketClient.t) e :
  GoMarketClient._make_request_fuel fuel network method endpoint retry_count c
  = Some (Raise e, c') →
  ∃ msg, e = GoMarketAPIError msg.
Proof.
  revert retry_count c. induction fuel as [|fuel IH]; intros retry_count c;
    [done|].
  simpl.
  destruct (GoMarketClient.attempt _ _ _ _ _) as [[data|[error|e0|error]] c1].
  - done.
  - case_bool_decide; [apply IH|]. intros [= <- _]. eauto.
  - intros [= <- _]. eauto.
  - intros [= <- _]. eauto.
Qed.

(** [_make_request] always returns: the fuel it takes is enough. *)
Lemma make_request_total network method endpoint retry_count
    (c : GoMarketClient.t) :
  is_Some (GoMarketClient._make_request network method endpoint retry_count c).
Proof.
  unfold GoMarketClient._make_request.
  assert (Hkeep : ∀ c0, GoMarketClient.retry_attempts
                          (GoMarketClient._rate_limit c0)
                        = GoMarketClient.retry_attempts c0).
  { intros c0. unfold GoMarketClient._rate_limit.
    by destruct (Qltb _ _). }
  remember (GoMarketClient.retry_attempts c - retry_count)%nat as n eqn:Hn.
  revert retry_count c Hn.
  induction n as [|n IH]; intros retry_count c Hn; simpl.
  - destruct (GoMarketClient.attempt _ _ _ _ _)
      as [[data|[error|e0|error]] c1] eqn:Hatt; try done.
    rewrite bool_decide_eq_false_2; [done|].
    assert (GoMarketClient.retry_attempts c1 = GoMarketClient.retry_attempts c)
      as ->; [|lia].
    rewrite <- (Hkeep c).
    unfold GoMarketClient.attempt in Hatt.
    repeat (case_match; simplify_eq); done.
  - destruct (GoMarketClient.attempt _ _ _ _ _)
      as [[data|[error|e0|error]] c1] eqn:Hatt; try done.
    assert (GoMarketClient.retry_attempts c1 = GoMarketClient.retry_attempts c)
      as Hc1.
    { rewrite <- (Hkeep c). unfold GoMarketClient.attempt in Hatt.
      repeat (case_match; simplify_eq); done. }
    case_bool_decide; [|done].
    apply (IH (retry_count + 1)%nat). simpl. lia.
Qed.

(** The same for every client and every answer 429 whose [Retry-After] is
    an integer [n]: one request, then a sleep of [n] seconds, then the
    plain [GoMarketAPIError]; no second request is made. *)
Lemma rate_limit_surfaces_as_api_error network method endpoint retry_count
    (c : GoMarketClient.t) r n :
  network retry_count = GoMarketClient.Responded r →
  GoMarketClient.status r = 429%Z →
  GoMarketClient.retry_after r = GoMarketClient.IntHeader n →
  ∃ c', GoMarketClient._make_request network method endpoint retry_count c
        = Some (Raise (GoMarketAPIError "Unexpected error: Rate limit exceeded"),
                c')
    ∧ GoMarketClient.effects c'
      = GoMarketClient.effects (GoMarketClient._rate_limit c)
        ++ [GoMarketClient.Request method endpoint (retry_count + 1);
            GoMarketClient.Sleep (inject_Z n)].
Proof.
  intros Hnet Hstatus Hheader. unfold GoMarketClient._make_request. simpl.
  rewrite Hnet. unfold GoMarketClient.attempt.
  rewrite Hstatus, Hheader. simpl. eexists. split; [done|]. simpl.
  by rewrite <- app_assoc.
Qed.

(** ** Two sessions on one pair *)

(** Chats 1 and 2 both watch BTC/USDT on binance and okx.  Stopping
    chat 1 leaves chat 2 registered with its task, but removes both
    subscriptions: nothing is delivered for chat 2 any more. *)
Example stop_monitoring_other_session :
  let both :=
    ArbitrageService.start_monitoring (config_of 2 ["binance"; "okx"] 0.05) 0
      (ArbitrageService.start_monitoring
         (config_of 1 ["binance"; "okx"] 0.05) 0 fresh_service) in
  let after := ArbitrageService.stop_monitoring 1 both in
  let client s :=
    DataStreamManager.websocket_client (ArbitrageService.data_stream_manager s)
  in
  WebSocketClient.callback_count "binance" "BTC/USDT" (client both) = 2%nat
  ∧ is_Some (ArbitrageService.monitoring_sessions after !! 2%Z)
  ∧ is_Some (ArbitrageService.active_monitoring_tasks after !! 2%Z)
  ∧ WebSocketClient.subscriptions (client after) = [].
Proof. vm_compute. split_and!; eauto. Qed.


(** ** The configured number of attempts *)

(** With the configured 10 attempts the first failed reconnection already
    puts the client in polling mode, through the fallback of [connect]:
    one attempt was counted, no worker runs, the receive loop has ended,
    and the client does nothing more on its own. *)
Example default_client_degrades_at_first_failure :
  let streaming :=
    WebSocketClient.subscribe "binance" "BTCUSDT" (UserCallback 1)
      (WebSocketClient.start
         (WebSocketClient.connect true (WebSocketClient.init None None)).2) in
  let degraded := WebSocketClient.on_connection_closed false streaming in
  WebSocketClient.max_reconnect_attempts degraded = 10%Z
  ∧ WebSocketClient.reconnect_count degraded = 1%nat
  ∧ WebSocketClient.slept degraded = [5%Z]
  ∧ WebSocketClient.use_polling degraded = true
  ∧ WebSocketClient.polling_tasks degraded = ∅
  ∧ ∀ evs, WebSocketClient.run evs degraded = degraded.
Proof.
  intros streaming degraded. split_and!; try reflexivity.
  intros evs. by apply idle_run.
Qed.


(** * Further properties of the code *)

(** ** Snapshots and order books *)

Lemma Qhalf (x : Q) : (x / 2 == x * (1 # 2))%Q.
Proof. reflexivity. Qed.

Lemma market_data_post_init_cases (d : MarketData.t) :
  (MarketData.post_init d = Ok d ∧ MarketData.valid d)
  ∨ (∃ msg, MarketData.post_init d = Raise (ValueError msg))
    ∧ ¬ MarketData.valid d.
Proof.
  unfold MarketData.post_init, MarketData.valid.
  destruct (Qleb (MarketData.bid_price d) 0) eqn:E1.
  { apply Qleb_le in E1. right. split; [simpl; eauto|].
    intros (? & _). lra. }
  destruct (Qleb (MarketData.ask_price d) 0) eqn:E2.
  { apply Qleb_le in E2. right. split; [simpl; eauto|].
    intros (_ & ? & _). lra. }
  destruct (Qleb (MarketData.bid_size d) 0) eqn:E3.
  { apply Qleb_le in E3. right. split; [simpl; eauto|].
    intros (_ & _ & ? & _). lra. }
  destruct (Qleb (MarketData.ask_size d) 0) eqn:E4.
  { apply Qleb_le in E4. right. split; [simpl; eauto|].
    intros (_ & _ & _ & ? & _). lra. }
  destruct (Qleb (MarketData.ask_price d) (MarketData.bid_price d)) eqn:E5.
  { apply Qleb_le in E5. right. split; [simpl; eauto|].
    intros (_ & _ & _ & _ & ?). lra. }
  apply Qleb_gt in E1, E2, E3, E4, E5. left. simpl. by split_and!.
Qed.

Lemma market_data_post_init_raises (d : MarketData.t) (e : exn) :
  MarketData.post_init d = Raise e →
  (e = ValueError "Prices must be positive"
   ∧ ((MarketData.bid_price d <= 0)%Q ∨ (MarketData.ask_price d <= 0)%Q))
  ∨ (e = ValueError "Sizes must be positive"
     ∧ ((MarketData.bid_size d <= 0)%Q ∨ (MarketData.ask_size d <= 0)%Q))
  ∨ (e = ValueError "Bid price must be less than ask price"
     ∧ (MarketData.ask_price d <= MarketData.bid_price d)%Q).
Proof.
  unfold MarketData.post_init.
  destruct (Qleb (MarketData.bid_price d) 0) eqn:E1.
  { apply Qleb_le in E1. intros [= <-]. left. by split; [|left]. }
  destruct (Qleb (MarketData.ask_price d) 0) eqn:E2.
  { apply Qleb_le in E2. intros [= <-]. left. by split; [|right]. }
  destruct (Qleb (MarketData.bid_size d) 0) eqn:E3.
  { apply Qleb_le in E3. intros [= <-]. right. left. by split; [|left]. }
  destruct (Qleb (MarketData.ask_size d) 0) eqn:E4.
  { apply Qleb_le in E4. intros [= <-]. right. left. by split; [|right]. }
  destruct (Qleb (MarketData.ask_price d) (MarketData.bid_price d)) eqn:E5.
  { apply Qleb_le in E5. intros [= <-]. right. right. by split. }
  done.
Qed.

(** The constructor of [MarketData] accepts every record that satisfies
    the invariant and returns it as it is.  It rejects a record only with
    one of its three [ValueError]s, each for the test that names it, and a
    rejected record does not satisfy the invariant. *)
Theorem market_data_make_accepts (symbol exchange : string)
    (bid_price bid_size ask_price ask_size last_price : Q)
    (timestamp : datetime) :
  let d := MarketData.make_raw symbol exchange bid_price bid_size ask_price
             ask_size last_price timestamp in
  let made := MarketData.make symbol exchange bid_price bid_size ask_price
                ask_size last_price timestamp in
  (MarketData.valid d → made = Ok d)
  ∧ (∀ d', made = Ok d' → d' = d)
  ∧ (∀ e, made = Raise e →
       ¬ MarketData.valid d
       ∧ ((e = ValueError "Prices must be positive"
           ∧ ((bid_price <= 0)%Q ∨ (ask_price <= 0)%Q))
          ∨ (e = ValueError "Sizes must be positive"
             ∧ ((bid_size <= 0)%Q ∨ (ask_size <= 0)%Q))
          ∨ (e = ValueError "Bid price must be less than ask price"
             ∧ (ask_price <= bid_price)%Q))).
Proof.
  intros d made. unfold made, MarketData.make. fold d. split_and!.
  - intros Hv.
    destruct (market_data_post_init_cases d) as [[-> _]|[_ Hn]]; done.
  - intros d'.
    destruct (market_data_post_init_cases d) as [[-> _]|[[msg ->] _]];
      congruence.
  - intros e He. split.
    + destruct (market_data_post_init_cases d) as [[Hok _]|[_ Hn]];
        [congruence|done].
    + by apply (market_data_post_init_raises d).
Qed.

(** On a valid snapshot the absolute spread is positive,
    [spread_percentage] returns a positive number without raising, and
    [calculate_spread_percentage] on its bid and ask returns the same. *)
Theorem market_data_spreads (d : MarketData.t) :
  MarketData.valid d →
  (0 < MarketData.spread_absolute d)%Q
  ∧ ∃ p, MarketData.spread_percentage d = Ok p ∧ (0 < p)%Q
       ∧ calculate_spread_percentage (MarketData.bid_price d)
           (MarketData.ask_price d) = Ok p.
Proof.
  intros (Hbid & Hask & _ & _ & Hlt).
  unfold MarketData.spread_percentage, calculate_spread_percentage.
  unfold MarketData.spread_absolute.
  rewrite (proj2 (Qleb_gt _ _) Hbid).
  rewrite py_div_nonzero by lra. simpl. split.
  - lra.
  - eexists. split_and!; [reflexivity| |reflexivity].
    by apply spread_percentage_positive.
Qed.

Lemma market_data_spreads_witness :
  let d := snapshot "binance" 50000 50001 in
  (0 < MarketData.spread_absolute d)%Q
  ∧ ∃ p, MarketData.spread_percentage d = Ok p ∧ (0 < p)%Q
       ∧ calculate_spread_percentage (MarketData.bid_price d)
           (MarketData.ask_price d) = Ok p.
Proof.
  apply (market_data_spreads (snapshot "binance" 50000 50001)).
  unfold MarketData.valid. simpl. by split_and!.
Defined.


Lemma out_of_order_false wrong (levels : list OrderBookLevel.t) (i : nat) a b :
  OrderBook.out_of_order wrong levels = false →
  levels !! i = Some a → levels !! (i + 1)%nat = Some b →
  wrong (OrderBookLevel.price a) (OrderBookLevel.price b) = false.
Proof.
  intros Hno Ha Hb. destruct (wrong _ _) eqn:Hw; [|done].
  rewrite <- Hno. symmetry. apply existsb_exists. exists i. split.
  - apply in_seq. apply lookup_lt_Some in Hb. lia.
  - by rewrite Ha, Hb.
Qed.

(** In a list whose neighbours are never in the wrong order, no level is
    in the wrong order with the first one. *)
Lemma first_level_extreme (le : Q → Q → Prop) wrong
    (levels : list OrderBookLevel.t) :
  (∀ x, le x x) → (∀ x y z, le x y → le y z → le x z) →
  (∀ x y, wrong x y = false → le y x) →
  OrderBook.out_of_order wrong levels = false →
  ∀ (j : nat) level top,
    levels !! 0%nat = Some top → levels !! j = Some level →
    le (OrderBookLevel.price level) (OrderBookLevel.price top).
Proof.
  intros Hrefl Htrans Hwrong Hno j. induction j as [|j IH]; intros level top H0 Hj.
  - rewrite H0 in Hj. injection Hj as ->. apply Hrefl.
  - destruct (levels !! j) as [prev|] eqn:Hprev.
    + apply Htrans with (OrderBookLevel.price prev); [|by apply IH].
      apply Hwrong. apply (out_of_order_false wrong levels j); [done..|].
      by replace (j + 1)%nat with (S j) by lia.
    + apply lookup_ge_None in Hprev. apply lookup_lt_Some in Hj. lia.
Qed.

Lemma order_book_best_levels_aux (b : OrderBook.t) :
  OrderBook.post_init b = Ok b →
  ∃ top_bid top_ask,
    OrderBook.best_bid b = Some top_bid ∧ OrderBook.best_ask b = Some top_ask.
Proof.
  unfold OrderBook.post_init, OrderBook.best_bid, OrderBook.best_ask.
  destruct (OrderBook.bids b) as [|top_bid bids]; [done|].
  destruct (OrderBook.asks b) as [|top_ask asks]; [done|]. eauto.
Qed.

(** An order book of valid levels that the constructor accepts has both
    sides, and its first bid is the highest bid, its first ask the lowest
    ask. *)
Theorem order_book_best_levels (b b' : OrderBook.t) :
  Forall OrderBookLevel.valid (OrderBook.bids b) →
  Forall OrderBookLevel.valid (OrderBook.asks b) →
  OrderBook.post_init b = Ok b' →
  b' = b
  ∧ ∃ top_bid top_ask,
      OrderBook.best_bid b = Some top_bid
      ∧ OrderBook.best_ask b = Some top_ask
      ∧ (∀ level, level ∈ OrderBook.bids b →
           (OrderBookLevel.price level <= OrderBookLevel.price top_bid)%Q)
      ∧ (∀ level, level ∈ OrderBook.asks b →
           (OrderBookLevel.price top_ask <= OrderBookLevel.price level)%Q).
Proof.
  intros _ _.
  unfold OrderBook.post_init, OrderBook.best_bid, OrderBook.best_ask.
  destruct (OrderBook.bids b) as [|top_bid bids] eqn:Hbids; [done|].
  destruct (OrderBook.asks b) as [|top_ask asks] eqn:Hasks; [done|].
  destruct (OrderBook.out_of_order Qltb _) eqn:Hb; [done|].
  destruct (OrderBook.out_of_order _ (top_ask :: asks)) eqn:Ha; [done|].
  intros [= <-]. split; [done|]. exists top_bid, top_ask.
  split_and!; [done|done| |].
  - intros level [j Hj]%list_elem_of_lookup_1.
    apply (first_level_extreme Qle Qltb (top_bid :: bids)) with j;
      try done.
    + apply Qle_refl.
    + apply Qle_trans.
    + intros x y. apply Qltb_ge.
  - intros level [j Hj]%list_elem_of_lookup_1.
    apply (first_level_extreme (λ x y, (y <= x)%Q) (λ x y, Qltb y x)
             (top_ask :: asks)) with j; try done.
    + apply Qle_refl.
    + intros x y z ? ?. by apply Qle_trans with y.
    + intros x y. apply Qltb_ge.
Qed.

Lemma order_book_best_levels_witness :
  ∃ top_bid top_ask,
    OrderBook.best_bid sample_book = Some top_bid
    ∧ OrderBook.best_ask sample_book = Some top_ask
    ∧ (∀ level, level ∈ OrderBook.bids sample_book →
         (OrderBookLevel.price level <= OrderBookLevel.price top_bid)%Q)
    ∧ (∀ level, level ∈ OrderBook.asks sample_book →
         (OrderBookLevel.price top_ask <= OrderBookLevel.price level)%Q).
Proof.
  apply (order_book_best_levels sample_book sample_book).
  - unfold OrderBookLevel.valid. simpl. repeat constructor.
  - unfold OrderBookLevel.valid. simpl. repeat constructor.
  - reflexivity.
Defined.

(** The snapshot of an accepted order book with valid levels exists
    exactly when the best bid is below the best ask; it is then a valid
    snapshot carrying the two top levels, with the mid price as last
    price.  A locked or crossed book has no snapshot: [market_data] raises
    the [ValueError] of [MarketData]. *)
Theorem order_book_market_data (b : OrderBook.t) :
  OrderBook.post_init b = Ok b →
  Forall OrderBookLevel.valid (OrderBook.bids b) →
  Forall OrderBookLevel.valid (OrderBook.asks b) →
  ∃ top_bid top_ask,
    OrderBook.best_bid b = Some top_bid
    ∧ OrderBook.best_ask b = Some top_ask
    ∧ ((OrderBookLevel.price top_bid < OrderBookLevel.price top_ask)%Q →
       ∃ d, OrderBook.market_data b = Some (Ok d)
         ∧ MarketData.valid d
         ∧ MarketData.bid_price d = OrderBookLevel.price top_bid
         ∧ MarketData.bid_size d = OrderBookLevel.size top_bid
         ∧ MarketData.ask_price d = OrderBookLevel.price top_ask
         ∧ MarketData.ask_size d = OrderBookLevel.size top_ask
         ∧ MarketData.last_price d = MarketData.mid_price d)
    ∧ ((OrderBookLevel.price top_ask <= OrderBookLevel.price top_bid)%Q →
       OrderBook.market_data b
       = Some (Raise (ValueError "Bid price must be less than ask price"))).
Proof.
  intros Hok Hbids Hasks.
  destruct (order_book_best_levels_aux b) as (top_bid & top_ask & Hb & Ha);
    [done|].
  exists top_bid, top_ask. split_and!; [done|done| |].
  all: unfold OrderBook.best_bid, OrderBook.best_ask in *.
  all: assert (Hvb : OrderBookLevel.valid top_bid)
         by (rewrite Forall_forall in Hbids; apply Hbids;
             by eapply list_elem_of_lookup_2).
  all: assert (Hva : OrderBookLevel.valid top_ask)
         by (rewrite Forall_forall in Hasks; apply Hasks;
             by eapply list_elem_of_lookup_2).
  all: destruct Hvb as [Hbp Hbs], Hva as [Hap Has].
  all: unfold OrderBook.market_data, OrderBook.best_bid, OrderBook.best_ask.
  all: rewrite Hb, Ha; simpl.
  all: unfold MarketData.make, MarketData.post_init; simpl.
  all: rewrite (proj2 (Qleb_gt _ _) Hbp), (proj2 (Qleb_gt _ _) Hap),
         (proj2 (Qleb_gt _ _) Hbs), (proj2 (Qleb_gt _ _) Has); simpl.
  - intros Hlt. rewrite (proj2 (Qleb_gt _ _) Hlt).
    eexists. split; [done|]. unfold MarketData.valid. simpl. by split_and!.
  - intros Hle. by rewrite (proj2 (Qleb_le _ _) Hle).
Qed.

Lemma order_book_market_data_witness :
  ∃ top_bid top_ask,
    OrderBook.best_bid sample_book = Some top_bid
    ∧ OrderBook.best_ask sample_book = Some top_ask
    ∧ ((OrderBookLevel.price top_bid < OrderBookLevel.price top_ask)%Q →
       ∃ d, OrderBook.market_data sample_book = Some (Ok d)
         ∧ MarketData.valid d
         ∧ MarketData.bid_price d = OrderBookLevel.price top_bid
         ∧ MarketData.bid_size d = OrderBookLevel.size top_bid
         ∧ MarketData.ask_price d = OrderBookLevel.price top_ask
         ∧ MarketData.ask_size d = OrderBookLevel.size top_ask
         ∧ MarketData.last_price d = MarketData.mid_price d)
    ∧ ((OrderBookLevel.price top_ask <= OrderBookLevel.price top_bid)%Q →
       OrderBook.market_data sample_book
       = Some (Raise (ValueError "Bid price must be less than ask price"))).
Proof.
  apply (order_book_market_data sample_book).
  - reflexivity.
  - unfold OrderBookLevel.valid. simpl. repeat constructor.
  - unfold OrderBookLevel.valid. simpl. repeat constructor.
Defined.

(** ** The consolidated quote *)

Lemma bbo_loop_all_exchanges (l : market_dict) :
  all_exchanges (bbo_loop l) = dict_keys l.
Proof.
  unfold dict_keys. induction l as [|[e d] l IH] using rev_ind; [done|].
  rewrite bbo_loop_snoc. simpl. by rewrite IH, fmap_app.
Qed.

(** On snapshots with positive bids the consolidated spread is at most the
    spread of every single exchange, and the quote lists the exchanges of
    the dictionary in iteration order. *)
Theorem consolidated_spread_narrowest (symbol : string)
    (market_data : market_dict) (utcnow : datetime) :
  market_data ≠ [] →
  Forall (λ kv, (0 < MarketData.bid_price kv.2)%Q) market_data →
  ∃ q, consolidate_bbo symbol market_data utcnow = Ok q
    ∧ ConsolidatedBBO.all_exchanges q = dict_keys market_data
    ∧ ConsolidatedBBO.symbol q = symbol
    ∧ ConsolidatedBBO.timestamp q = utcnow
    ∧ ∀ kv, kv ∈ market_data →
        (ConsolidatedBBO.spread_absolute q
         <= MarketData.spread_absolute kv.2)%Q.
Proof.
  intros Hne Hpos.
  destruct (bbo_loop_invariant market_data Hne Hpos)
    as [Hbid (ask & Hask & Hmin)].
  assert (Hbest : (0 < best_bid_price (bbo_loop market_data))%Q).
  { destruct Hbid as (i & d & Hi & <- & _).
    apply list_elem_of_lookup_2 in Hi.
    rewrite Forall_forall in Hpos. apply (Hpos _ Hi). }
  unfold consolidate_bbo. destruct market_data as [|x l]; [done|].
  rewrite Hask. unfold ConsolidatedBBO.make.
  rewrite py_div_nonzero by lra.
  eexists. split; [done|]. simpl. split_and!; try done.
  - apply bbo_loop_all_exchanges.
  - intros kv Hin. unfold MarketData.spread_absolute.
    destruct Hbid as (_ & _ & _ & _ & Hmax & _).
    destruct Hmin as (_ & _ & _ & _ & Hlow & _).
    specialize (Hmax kv Hin). specialize (Hlow kv Hin). lra.
Qed.

Lemma consolidated_spread_narrowest_witness :
  ∃ q, consolidate_bbo "BTC/USDT" close_books 7 = Ok q
    ∧ ConsolidatedBBO.all_exchanges q = dict_keys close_books
    ∧ ConsolidatedBBO.symbol q = "BTC/USDT"
    ∧ ConsolidatedBBO.timestamp q = 7%Z
    ∧ ∀ kv, kv ∈ close_books →
        (ConsolidatedBBO.spread_absolute q
         <= MarketData.spread_absolute kv.2)%Q.
Proof.
  apply (consolidated_spread_narrowest "BTC/USDT" close_books 7).
  - discriminate.
  - repeat constructor.
Defined.

(** ** Signals *)

(** Every signal of the scan on a dictionary of valid snapshots buys
    below its selling price, at two different exchanges of the
    dictionary; its percentage is positive and at least the threshold, and
    its absolute spread is selling price minus buying price, as the code
    computes the difference. *)
Theorem scan_signals_profitable (fl : Q → Q)
    (utcnow_at : string → string → datetime)
    (market_data : market_dict) (threshold_percentage : Q)
    (out : list ArbitrageOpportunity.t) :
  NoDup (dict_keys market_data) →
  Forall (λ kv, MarketData.valid kv.2) market_data →
  find_arbitrage_opportunities fl utcnow_at market_data threshold_percentage
  = Ok out →
  ∀ o, o ∈ out →
    (0 < ArbitrageOpportunity.buy_price o)%Q
    ∧ (ArbitrageOpportunity.buy_price o < ArbitrageOpportunity.sell_price o)%Q
    ∧ (0 < ArbitrageOpportunity.spread_percentage o)%Q
    ∧ (threshold_percentage <= ArbitrageOpportunity.spread_percentage o)%Q
    ∧ ArbitrageOpportunity.spread_absolute o
      = fl (ArbitrageOpportunity.sell_price o
            - ArbitrageOpportunity.buy_price o)%Q
    ∧ ArbitrageOpportunity.buy_exchange o ∈ dict_keys market_data
    ∧ ArbitrageOpportunity.sell_exchange o ∈ dict_keys market_data
    ∧ ArbitrageOpportunity.buy_exchange o
      ≠ ArbitrageOpportunity.sell_exchange o.
Proof.
  intros Hnd Hvalid Hscan o Ho.
  apply find_arbitrage_opportunities_Ok in Hscan as [-> Hpos];
    [|done|by apply valid_asks].
  pose proof (Hpos o Ho) as Hpct.
  apply elem_of_crossed_signals in Ho
    as (i & j & ei & di & ej & dj & Hij & Hi & Hj & [Hlt Hth] & ->).
  rewrite Forall_forall in Hvalid.
  destruct (Hvalid (ej, dj)) as (_ & Hask & _);
    [by eapply list_elem_of_lookup_2|]. simpl in *.
  split_and!; try done.
  - unfold dict_keys. apply list_elem_of_fmap. exists (ej, dj).
    split; [done|]. by eapply list_elem_of_lookup_2.
  - unfold dict_keys. apply list_elem_of_fmap. exists (ei, di).
    split; [done|]. by eapply list_elem_of_lookup_2.
  - intros ->. unfold dict_keys in Hnd.
    assert (i = j); [|lia].
    eapply NoDup_lookup; [exact Hnd| |];
      rewrite list_lookup_fmap; [by rewrite Hi|by rewrite Hj].
Qed.

Lemma scan_signals_profitable_witness :
  let o := crossed_signal in
    (0 < ArbitrageOpportunity.buy_price o)%Q
    ∧ (ArbitrageOpportunity.buy_price o < ArbitrageOpportunity.sell_price o)%Q
    ∧ (0 < ArbitrageOpportunity.spread_percentage o)%Q
    ∧ (0.05 <= ArbitrageOpportunity.spread_percentage o)%Q
    ∧ ArbitrageOpportunity.spread_absolute o
      = exactly (ArbitrageOpportunity.sell_price o
                 - ArbitrageOpportunity.buy_price o)%Q
    ∧ ArbitrageOpportunity.buy_exchange o ∈ dict_keys (reverse crossed_books)
    ∧ ArbitrageOpportunity.sell_exchange o ∈ dict_keys (reverse crossed_books)
    ∧ ArbitrageOpportunity.buy_exchange o
      ≠ ArbitrageOpportunity.sell_exchange o.
Proof.
  apply (scan_signals_profitable exactly (λ _ _, 0%Z) (reverse crossed_books)
           0.05 [crossed_signal]).
  - apply (bool_decide_unpack _). by vm_compute.
  - repeat constructor.
  - reflexivity.
  - apply list_elem_of_singleton. reflexivity.
Defined.

(** The percentage [is_still_valid] computes for a crossed pair is not
    below the one the scan computed: its difference is larger and its
    divisor smaller. *)
Lemma still_valid_spread (fl : Q → Q) (bid_i ask_i bid_j ask_j th : Q) :
  monotone fl →
  (0 < bid_j)%Q → (bid_j < ask_j)%Q → (bid_i < ask_i)%Q →
  (ask_j < bid_i)%Q →
  (th <= fl (fl (fl (bid_i - ask_j) / ask_j) * 100))%Q →
  (th <= fl (fl (fl (ask_i - bid_j) / bid_j) * 100))%Q.
Proof.
  intros [Hmono Hzero] Hbj Hj Hi Hcross Hth.
  set (A := fl (bid_i - ask_j)%Q) in *. set (B := fl (ask_i - bid_j)%Q).
  assert (HAB : (A <= B)%Q) by (apply Hmono; lra).
  assert (HB : (0 <= B)%Q).
  { apply Qle_trans with (fl 0%Q); [done|]. apply Hmono. lra. }
  assert (Hd : (A / ask_j <= B / bid_j)%Q).
  { apply Qle_shift_div_l; [done|].
    assert (He : (A / ask_j * ask_j == A)%Q) by (field; lra).
    destruct (Qlt_le_dec 0 (A / ask_j)) as [Hpos|Hneg].
    - assert (Hm : (A / ask_j * bid_j <= A / ask_j * ask_j)%Q)
        by (apply Qmult_le_l; [done|lra]).
      lra.
    - assert (Hm : (A / ask_j * bid_j <= 0)%Q).
      { rewrite <- (Qmult_0_l bid_j). apply Qmult_le_compat_r; lra. }
      lra. }
  apply Qle_trans with (fl (fl (A / ask_j) * 100)%Q); [done|].
  apply Hmono. apply Qmult_le_compat_r; [|done]. by apply Hmono.
Qed.

(** A signal the scan has just produced is still valid on the same
    dictionary with the same threshold, for a rounding that is
    monotone. *)
Theorem scan_signals_still_valid (fl : Q → Q)
    (utcnow_at : string → string → datetime)
    (market_data : market_dict) (threshold_percentage : Q)
    (out : list ArbitrageOpportunity.t) :
  monotone fl →
  NoDup (dict_keys market_data) →
  Forall (λ kv, MarketData.valid kv.2) market_data →
  find_arbitrage_opportunities fl utcnow_at market_data threshold_percentage
  = Ok out →
  ∀ o, o ∈ out →
    is_still_valid fl o market_data threshold_percentage = Ok true.
Proof.
  intros Hfl Hnd Hvalid Hscan o Ho.
  apply find_arbitrage_opportunities_Ok in Hscan as [-> _];
    [|done|by apply valid_asks].
  apply elem_of_crossed_signals in Ho
    as (i & j & ei & di & ej & dj & Hij & Hi & Hj & [Hlt Hth] & ->).
  apply list_elem_of_lookup_2 in Hi, Hj.
  rewrite Forall_forall in Hvalid.
  destruct (Hvalid _ Hi) as (Hbi & _ & _ & _ & Hai).
  destruct (Hvalid _ Hj) as (Hbj & _ & _ & _ & Haj). simpl in *.
  assert (Hbuy : ej ∈ dict_keys market_data).
  { unfold dict_keys. apply list_elem_of_fmap. by exists (ej, dj). }
  assert (Hsell : ei ∈ dict_keys market_data).
  { unfold dict_keys. apply list_elem_of_fmap. by exists (ei, di). }
  unfold is_still_valid. simpl.
  rewrite (bool_decide_eq_true_2 _ Hbuy), (bool_decide_eq_true_2 _ Hsell).
  simpl. rewrite (dict_get_elem _ _ _ Hnd Hj), (dict_get_elem _ _ _ Hnd Hi).
  rewrite !bind_Ok. rewrite py_div_nonzero by lra. rewrite bind_Ok. f_equal.
  apply Qleb_le.
  by apply (still_valid_spread fl (MarketData.bid_price di) _ _
              (MarketData.ask_price dj)).
Qed.

Lemma scan_signals_still_valid_witness :
  is_still_valid exactly crossed_signal (reverse crossed_books) 0.05 = Ok true.
Proof.
  apply (scan_signals_still_valid exactly (λ _ _, 0%Z) (reverse crossed_books)
           0.05 [crossed_signal]).
  - split; [by intros x y|done].
  - apply (bool_decide_unpack _). by vm_compute.
  - repeat constructor.
  - reflexivity.
  - apply list_elem_of_singleton. reflexivity.
Defined.

(** A signal whose buying or selling exchange has no entry in the current
    data is not valid any more, whatever the threshold. *)
Theorem is_still_valid_missing (fl : Q → Q) (o : ArbitrageOpportunity.t)
    (current_data : market_dict) (threshold : Q) :
  ArbitrageOpportunity.buy_exchange o ∉ dict_keys current_data
  ∨ ArbitrageOpportunity.sell_exchange o ∉ dict_keys current_data →
  is_still_valid fl o current_data threshold = Ok false.
Proof.
  intros [H|H]; unfold is_still_valid.
  - by rewrite (bool_decide_eq_false_2 _ H).
  - rewrite (bool_decide_eq_false_2 _ H). by rewrite orb_true_r.
Qed.

Lemma is_still_valid_missing_witness :
  is_still_valid exactly crossed_signal
    [("okx", snapshot "okx" 50050 50051)] 0.05
  = Ok false.
Proof.
  apply is_still_valid_missing. left. apply (bool_decide_unpack _).
  by vm_compute.
Defined.


(** ** Pacing and retries of [_make_request] *)

Section Requests.
Import GoMarketClient.

Lemma count_requests_app es es' :
  count_requests (es ++ es') = (count_requests es + count_requests es')%nat.
Proof.
  induction es as [|[d|m e n] es IH]; simpl; [done|done|]. by rewrite IH.
Qed.

Lemma sleep_facts d (c : GoMarketClient.t) :
  retry_attempts (sleep d c) = retry_attempts c
  ∧ request_count (sleep d c) = request_count c
  ∧ (clock c <= clock (sleep d c))%Q
  ∧ ((0 <= d)%Q → (clock (sleep d c) == clock c + d)%Q).
Proof.
  unfold sleep, request_count. simpl. rewrite count_requests_app. simpl.
  split_and!; [done|lia| |].
  - destruct (Qltb 0 d) eqn:E; [apply Qltb_lt in E|]; lra.
  - intros Hd. destruct (Qltb 0 d) eqn:E; [lra|]. apply Qltb_ge in E. lra.
Qed.

Lemma perform_request_count method endpoint n (c : GoMarketClient.t) :
  request_count (perform (Request method endpoint n) c)
  = S (request_count c).
Proof.
  unfold request_count, perform. simpl. rewrite count_requests_app. simpl.
  lia.
Qed.

(** [_rate_limit] leaves at least [rate_limit_delay] seconds between the
    previous request time and the moment it returns, and stores that
    moment as the new request time; it sleeps at most once and makes no
    request. *)
Theorem rate_limit_paces (c : GoMarketClient.t) :
  let c' := _rate_limit c in
  last_request_time c' = clock c'
  ∧ (rate_limit_delay c <= clock c' - last_request_time c)%Q
  ∧ (clock c <= clock c')%Q
  ∧ request_count c' = request_count c
  ∧ (effects c' = effects c
     ∨ ∃ d, (0 < d)%Q ∧ effects c' = effects c ++ [Sleep d]).
Proof.
  unfold _rate_limit. simpl.
  destruct (Qltb (clock c - last_request_time c) (rate_limit_delay c)) eqn:E.
  - apply Qltb_lt in E.
    set (d := (rate_limit_delay c - (clock c - last_request_time c))%Q).
    assert (Hd : (0 < d)%Q) by (unfold d; lra).
    destruct (sleep_facts d c) as (_ & Hreq & Hmono & Hclock).
    specialize (Hclock (Qlt_le_weak _ _ Hd)).
    split_and!; [done| |done|done|right; by exists d].
    subst d. lra.
  - apply Qltb_ge in E. split_and!; [done|lra|lra|done|by left].
Qed.

Lemma rate_limit_facts (c : GoMarketClient.t) :
  retry_attempts (_rate_limit c) = retry_attempts c
  ∧ request_count (_rate_limit c) = request_count c
  ∧ (clock c <= clock (_rate_limit c))%Q.
Proof.
  destruct (rate_limit_paces c) as (_ & _ & ? & ? & _). split_and!; try done.
  unfold _rate_limit. by destruct (Qltb _ _).
Qed.

(** What one failed attempt leaves: the request is counted and the next
    attempt, if any is left, starts after a sleep of [2 ^ retry_count]
    seconds. *)
Lemma make_request_client_error fuel network method endpoint retry_count
    (c : GoMarketClient.t) err :
  network retry_count = ClientError err →
  let c1 := perform (Request method endpoint (retry_count + 1))
              (_rate_limit c) in
  _make_request_fuel (S fuel) network method endpoint retry_count c
  = if bool_decide (retry_count < retry_attempts c)%nat then
      _make_request_fuel fuel network method endpoint (retry_count + 1)
        (sleep (inject_Z (2 ^ Z.of_nat retry_count)) c1)
    else
      Some (Raise (GoMarketAPIError
              ("Network error after " +:+ pretty (retry_attempts c)
               +:+ " retries: " +:+ err)), c1).
Proof.
  intros Hnet. simpl. rewrite Hnet. simpl. by destruct (Qltb _ _).
Qed.

Lemma pow2_step (k : nat) :
  (inject_Z (2 ^ Z.of_nat (k + 1)) == 2 * inject_Z (2 ^ Z.of_nat k))%Q.
Proof.
  rewrite Nat2Z.inj_add, Z.pow_add_r by lia.
  change (2 ^ Z.of_nat 1)%Z with 2%Z. rewrite inject_Z_mult.
  apply Qmult_comm.
Qed.

Lemma gives_up_from (m : nat) network method endpoint retry_count
    (c : GoMarketClient.t) :
  (retry_count + m = retry_attempts c)%nat →
  (∀ n, (n ≤ retry_attempts c)%nat → ∃ err, network n = ClientError err) →
  ∃ c' err,
    network (retry_attempts c) = ClientError err
    ∧ _make_request_fuel (S m) network method endpoint retry_count c
      = Some (Raise (GoMarketAPIError
                ("Network error after " +:+ pretty (retry_attempts c)
                 +:+ " retries: " +:+ err)), c')
    ∧ request_count c' = (request_count c + m + 1)%nat
    ∧ (clock c + inject_Z (2 ^ Z.of_nat (retry_attempts c))
       - inject_Z (2 ^ Z.of_nat retry_count) <= clock c')%Q.
Proof.
  revert retry_count c. induction m as [|m IH]; intros retry_count c Hm Hnet.
  - destruct (Hnet retry_count) as [err Herr]; [lia|].
    rewrite (make_request_client_error _ _ _ _ _ _ err) by done.
    rewrite bool_decide_eq_false_2 by lia.
    replace (retry_attempts c) with retry_count in * by lia.
    eexists _, err. split_and!; [done|done| |].
    + rewrite perform_request_count.
      destruct (rate_limit_facts c) as (_ & -> & _). lia.
    + change (clock (perform _ ?c0)) with (clock c0).
      destruct (rate_limit_facts c) as (_ & _ & Hmono). lra.
  - destruct (Hnet retry_count) as [err Herr]; [lia|].
    rewrite (make_request_client_error _ _ _ _ _ _ err) by done.
    rewrite bool_decide_eq_true_2 by lia.
    set (c1 := perform _ _).
    set (c2 := sleep _ c1).
    assert (Hr1 : retry_attempts c1 = retry_attempts c)
      by (unfold c1; simpl; apply rate_limit_facts).
    assert (Hq1 : request_count c1 = S (request_count c)).
    { unfold c1. rewrite perform_request_count.
      by destruct (rate_limit_facts c) as (_ & -> & _). }
    assert (Hc1 : (clock c <= clock c1)%Q)
      by (unfold c1; simpl; apply rate_limit_facts).
    assert (Hpos : (0 <= inject_Z (2 ^ Z.of_nat retry_count))%Q).
    { replace 0%Q with (inject_Z 0) by done. rewrite <- Zle_Qle. lia. }
    destruct (sleep_facts (inject_Z (2 ^ Z.of_nat retry_count)) c1)
      as (Hr2 & Hq2 & _ & Hc2). specialize (Hc2 Hpos). fold c2 in Hr2, Hq2, Hc2.
    destruct (IH (retry_count + 1)%nat c2) as (c' & err' & Hlast & Hres & Hq & Hc).
    { rewrite Hr2, Hr1. lia. }
    { intros n Hn. apply Hnet. rewrite Hr2, Hr1 in Hn. lia. }
    rewrite Hr2, Hr1 in Hlast, Hres, Hc. exists c', err'.
    split_and!; [done|done|lia|].
    rewrite pow2_step in Hc. lra.
Qed.

(** When every attempt meets a [ClientError], [_make_request] makes
    [retry_attempts + 1] requests, waits for at least
    [2 ^ retry_attempts - 1] seconds in all, and raises the
    [GoMarketAPIError] that names the number of retries and the last
    error. *)
Theorem make_request_gives_up network method endpoint (c : GoMarketClient.t) :
  (∀ n, (n ≤ retry_attempts c)%nat → ∃ err, network n = ClientError err) →
  ∃ c' err,
    network (retry_attempts c) = ClientError err
    ∧ _make_request network method endpoint 0 c
      = Some (Raise (GoMarketAPIError
                ("Network error after " +:+ pretty (retry_attempts c)
                 +:+ " retries: " +:+ err)), c')
    ∧ request_count c' = (request_count c + retry_attempts c + 1)%nat
    ∧ (clock c + inject_Z (2 ^ Z.of_nat (retry_attempts c)) - 1
       <= clock c')%Q.
Proof.
  intros Hnet. unfold _make_request.
  replace (retry_attempts c - 0)%nat with (retry_attempts c) by lia.
  destruct (gives_up_from (retry_attempts c) network method endpoint 0 c)
    as (c' & err & ? & ? & ? & Hc); [lia|done|].
  exists c', err. by split_and!.
Qed.

Lemma make_request_gives_up_witness :
  ∃ c' err,
    (λ _ : nat, ClientError "timeout") 3%nat = ClientError err
    ∧ _make_request (λ _, ClientError "timeout") "GET" "/api/symbols" 0
        (init 10)
      = Some (Raise (GoMarketAPIError
                ("Network error after " +:+ pretty 3%nat
                 +:+ " retries: " +:+ err)), c')
    ∧ request_count c' = (request_count (init 10) + 3 + 1)%nat
    ∧ (clock (init 10) + inject_Z (2 ^ Z.of_nat 3) - 1 <= clock c')%Q.
Proof.
  apply (make_request_gives_up (λ _, ClientError "timeout") "GET"
           "/api/symbols" (init 10)).
  intros n _. by exists "timeout".
Defined.

(** A request that gets any response is not repeated: one request is
    made, a JSON body with a status below 400 is returned, and every
    other response ends in a [GoMarketAPIError]. *)
Theorem make_request_response_final network method endpoint retry_count
    (c : GoMarketClient.t) r :
  network retry_count = Responded r →
  ∃ res c',
    _make_request network method endpoint retry_count c = Some (res, c')
    ∧ request_count c' = S (request_count c)
    ∧ match payload r with
      | Json data =>
          (status r < 400)%Z → res = Ok data
      | NotJson _ _ => True
      end
    ∧ ((400 ≤ status r)%Z ∨ (∃ text error, payload r = NotJson text error) →
       ∃ msg, res = Raise (GoMarketAPIError msg)).
Proof.
  intros Hnet. unfold _make_request. simpl. rewrite Hnet.
  destruct (rate_limit_facts c) as (_ & Hreq & _).
  unfold attempt.
  assert (Hone : ∀ c0, request_count c0 = request_count c →
            request_count (perform (Request method endpoint (retry_count + 1))
                             c0) = S (request_count c)).
  { intros c0 H0. by rewrite perform_request_count, H0. }
  assert (Hsleep : ∀ d c0, request_count (sleep d c0) = request_count c0)
    by (intros; apply sleep_facts).
  case_bool_decide as H429.
  - destruct (retry_after r); simpl; eexists _, _;
      (split; [done|]); rewrite ?Hsleep, (Hone _ Hreq);
      (split; [done|]); (split; [destruct (payload r); [lia|done]|]); eauto.
  - case_bool_decide as H400.
    + destruct (payload r); simpl; eexists _, _;
        (split; [done|]); rewrite (Hone _ Hreq); split_and!; try done;
        try lia; eauto.
    + destruct (payload r) eqn:Hp; simpl; eexists _, _;
        (split; [done|]); rewrite (Hone _ Hreq); split_and!; try done.
      * intros [?|(? & ? & [=])]. lia.
      * intros _. eauto.
Qed.

Lemma make_request_response_final_witness :
  let ok := {| status := 200; retry_after := NoHeader;
               payload := Json "[1]" |} in
  ∃ res c',
    _make_request (λ _, Responded ok) "GET" "/api/symbols" 0 (init 10)
    = Some (res, c')
    ∧ request_count c' = S (request_count (init 10))
    ∧ ((200 < 400)%Z → res = Ok "[1]")
    ∧ ((400 ≤ 200)%Z ∨ (∃ text error, Json "[1]" = NotJson text error) →
       ∃ msg, res = Raise (GoMarketAPIError msg)).
Proof.
  intros ok.
  apply (make_request_response_final (λ _, Responded ok) "GET" "/api/symbols"
           0 (init 10) ok).
  reflexivity.
Defined.

(** Whatever [_make_request] raises is a [GoMarketAPIError]; no
    [RateLimitError] and no other exception leaves it. *)
Theorem make_request_only_api_errors network method endpoint retry_count
    (c c' : GoMarketClient.t) e :
  _make_request network method endpoint retry_count c = Some (Raise e, c') →
  ∃ msg, e = GoMarketAPIError msg.
Proof. apply make_request_raises_api_error. Qed.

Lemma make_request_only_api_errors_witness :
  ∃ msg, GoMarketAPIError "Unexpected error: Rate limit exceeded"
         = GoMarketAPIError msg.
Proof.
  apply (make_request_only_api_errors rate_limited "GET" "/api/ticker" 0
           (init 10)
           (sleep 7 (perform (Request "GET" "/api/ticker" 1)
                       (_rate_limit (init 10))))).
  reflexivity.
Defined.
End Requests.


(** ** Symbols and tickers *)

Section Tickers.
Import GoMarketClient.

Lemma remove_from_chars pat skip s c :
  has_char c (remove_from pat skip s) → has_char c s.
Proof.
  unfold has_char. revert skip. induction s as [|a s IH]; intros skip; [done|].
  destruct skip as [|k]; cbn [remove_from String.list_ascii_of_string].
  - destruct (String.prefix pat (String a s));
      cbn [String.list_ascii_of_string].
    + intros H. apply elem_of_cons. right. exact (IH _ H).
    + intros [->|H]%elem_of_cons; apply elem_of_cons; [by left|].
      right. exact (IH _ H).
  - intros H. apply elem_of_cons. right. exact (IH _ H).
Qed.

Lemma remove_from_length pat skip s :
  (String.length (remove_from pat skip s) ≤ String.length s)%nat.
Proof.
  revert skip. induction s as [|a s IH]; intros skip; [done|].
  destruct skip as [|k]; cbn [remove_from String.length].
  - destruct (String.prefix pat (String a s)); cbn [String.length].
    + specialize (IH (String.length pat - 1)%nat). lia.
    + specialize (IH 0%nat). lia.
  - specialize (IH k). lia.
Qed.

Lemma remove_single c s : ¬ has_char c (remove (String c EmptyString) s).
Proof.
  unfold has_char, remove. induction s as [|a s IH]; simpl.
  - apply not_elem_of_nil.
  - destruct (ascii_dec c a) as [->|Hne]; simpl.
    + by replace (String.prefix "" s) with true by (by destruct s).
    + apply not_elem_of_cons. split; [congruence|done].
Qed.

Lemma upper_char_not_lower c : ¬ lower_case (upper_char c).
Proof.
  unfold lower_case, upper_char. case_bool_decide as H; [|done].
  rewrite nat_ascii_embedding; [lia|].
  pose proof (nat_ascii_bounded c). lia.
Qed.

Lemma upper_chars s c : has_char c (upper s) → ¬ lower_case c.
Proof.
  unfold has_char. induction s as [|a s IH]; simpl.
  - by intros ?%elem_of_nil.
  - intros [->|H]%elem_of_cons; [apply upper_char_not_lower|by apply IH].
Qed.

Lemma upper_length s : String.length (upper s) = String.length s.
Proof. induction s as [|a s IH]; simpl; [done|by rewrite IH]. Qed.

(** The normal form of an ASCII symbol holds no slash, no hyphen, no
    blank and no lower-case letter, and is not longer than the symbol. *)
Theorem normalize_symbol_clean (symbol : string) :
  ascii_only symbol →
  let s := _normalize_symbol symbol in
  ¬ has_char "/" s ∧ ¬ has_char "-" s ∧ ¬ has_char " " s
  ∧ (∀ c, has_char c s → ¬ lower_case c)
  ∧ (String.length s ≤ String.length symbol)%nat.
Proof.
  intros _. unfold _normalize_symbol. destruct symbol as [|a symbol].
  { simpl. unfold has_char. simpl. split_and!; try apply not_elem_of_nil.
    - by intros c ?%elem_of_nil.
    - done. }
  set (u := upper (String a symbol)). simpl.
  split_and!.
  - intros H. do 3 apply remove_from_chars in H. by apply remove_single in H.
  - intros H. do 2 apply remove_from_chars in H. by apply remove_single in H.
  - intros H. apply remove_from_chars in H. by apply remove_single in H.
  - intros c H. do 4 apply remove_from_chars in H. by apply upper_chars in H.
  - unfold remove.
    pose proof (remove_from_length "%2F" 0
                  (remove_from " " 0 (remove_from "-" 0 (remove_from "/" 0 u)))).
    pose proof (remove_from_length " " 0
                  (remove_from "-" 0 (remove_from "/" 0 u))).
    pose proof (remove_from_length "-" 0 (remove_from "/" 0 u)).
    pose proof (remove_from_length "/" 0 u).
    pose proof (upper_length (String a symbol)). fold u in H3.
    simpl in *. lia.
Qed.

Lemma normalize_symbol_clean_witness :
  let s := _normalize_symbol "btc-usdt / perp" in
  ¬ has_char "/" s ∧ ¬ has_char "-" s ∧ ¬ has_char " " s
  ∧ (∀ c, has_char c s → ¬ lower_case c)
  ∧ (String.length s ≤ String.length "btc-usdt / perp")%nat.
Proof.
  apply (normalize_symbol_clean "btc-usdt / perp").
  unfold ascii_only. apply (bool_decide_unpack _). by vm_compute.
Defined.

(** The examples of the docstring, and a symbol whose normal form still
    holds the separator [%2F]. *)
Example normalize_symbol_samples :
  _normalize_symbol "BTC/USDT" = "BTCUSDT"
  ∧ _normalize_symbol "btc-usdt" = "BTCUSDT"
  ∧ _normalize_symbol "eth%2fusdt" = "ETHUSDT"
  ∧ _normalize_symbol "%%2f2f" = "%2F".
Proof. by vm_compute. Qed.

Section Parse.
Variable fromtimestamp : Q → option datetime.
Variable fromisoformat : string → option datetime.
Variable utcnow : datetime.


Lemma extract_value_raises data field_names e :
  extract_value data field_names = Raise e →
  e = OverflowError "int too large to convert to float".
Proof.
  induction field_names as [|field rest IH]; [done|]. cbn [extract_value].
  destruct (dict_get data field) as [[q|n|b|text [q|]| | |]|err];
    try done; congruence.
Qed.

(** What [_parse_ticker_data] returns is a valid snapshot with the asked
    symbol and exchange; what it raises is a [GoMarketAPIError]. *)
Theorem parse_ticker_valid_or_error data exchange symbol :
  match _parse_ticker_data fromtimestamp fromisoformat utcnow data exchange
          symbol with
  | Ok d =>
      MarketData.valid d ∧ MarketData.symbol d = symbol
      ∧ MarketData.exchange d = exchange
  | Raise e => ∃ msg, e = GoMarketAPIError msg
  end.
Proof.
  unfold _parse_ticker_data.
  destruct (extract_value data bid_fields); [|simpl; eauto].
  destruct (extract_value data ask_fields); [|simpl; eauto].
  destruct (extract_value data bid_size_fields); [|simpl; eauto].
  destruct (extract_value data ask_size_fields); [|simpl; eauto].
  destruct (extract_value data last_fields); [|simpl; eauto].
  cbv beta iota zeta delta [mbind result_bind]. unfold MarketData.make.
  match goal with |- context [MarketData.post_init ?raw] =>
    destruct (market_data_post_init_cases raw) as [[-> Hv]|[[msg ->] _]] end.
  - done.
  - eauto.
Qed.


(** A ticker with a positive bid below its ask keeps them, and gets the
    mid price as last price when it has none; sizes that are missing or
    not positive become 1.  A ticker whose positive bid is not below its
    positive ask is rejected. *)
Theorem parse_ticker_quoted data exchange symbol
    (bid ask bid_size ask_size last : Q) :
  extract_value data bid_fields = Ok bid →
  extract_value data ask_fields = Ok ask →
  extract_value data bid_size_fields = Ok bid_size →
  extract_value data ask_size_fields = Ok ask_size →
  extract_value data last_fields = Ok last →
  (0 < bid)%Q → (0 < ask)%Q →
  ((bid < ask)%Q →
   ∃ d, _parse_ticker_data fromtimestamp fromisoformat utcnow data exchange
          symbol = Ok d
     ∧ MarketData.bid_price d = bid ∧ MarketData.ask_price d = ask
     ∧ MarketData.last_price d
       = (if Qeq_bool last 0 then (bid + ask) / 2 else last)%Q
     ∧ MarketData.bid_size d = (if Qleb bid_size 0 then 1 else bid_size)%Q
     ∧ MarketData.ask_size d = (if Qleb ask_size 0 then 1 else ask_size)%Q)
  ∧ ((ask <= bid)%Q →
     _parse_ticker_data fromtimestamp fromisoformat utcnow data exchange
       symbol
     = Raise (GoMarketAPIError
         "Failed to parse ticker data: Bid price must be less than ask price")).
Proof.
  intros Hb Ha Hbs Has Hl Hbid Hask. unfold _parse_ticker_data.
  rewrite Hb, Ha, Hbs, Has, Hl.
  cbv beta iota zeta delta [mbind result_bind].
  rewrite (proj2 (Qltb_lt _ _) Hbid), (proj2 (Qltb_lt _ _) Hask).
  rewrite (proj2 (Qleb_gt _ _) Hbid), (proj2 (Qleb_gt _ _) Hask). simpl.
  unfold MarketData.make, MarketData.post_init. simpl.
  rewrite (proj2 (Qleb_gt _ _) Hbid), (proj2 (Qleb_gt _ _) Hask). simpl.
  assert (Hsize : ∀ x, Qleb (if Qleb x 0 then 1 else x) 0 = false).
  { intros x. destruct (Qleb x 0) eqn:E; [done|done]. }
  rewrite !Hsize. simpl. split.
  - intros Hlt. rewrite (proj2 (Qleb_gt _ _) Hlt).
    eexists. split; [done|]. simpl. by split_and!.
  - intros Hle. by rewrite (proj2 (Qleb_le _ _) Hle).
Qed.

(** The rejections of a ticker.  One with neither a positive last price
    nor both a positive bid and ask is rejected for its prices.  One in
    which a looked-up field holds an integer beyond the floats is rejected
    with the message of [float]. *)
Theorem parse_ticker_no_price data exchange symbol :
  (∀ bid ask bid_size ask_size last : Q,
     extract_value data bid_fields = Ok bid →
     extract_value data ask_fields = Ok ask →
     extract_value data bid_size_fields = Ok bid_size →
     extract_value data ask_size_fields = Ok ask_size →
     extract_value data last_fields = Ok last →
     (bid <= 0)%Q ∨ (ask <= 0)%Q →
     (last <= 0)%Q →
     _parse_ticker_data fromtimestamp fromisoformat utcnow data exchange
       symbol
     = Raise (GoMarketAPIError
         "Failed to parse ticker data: Prices must be positive"))
  ∧ (∀ field_names e,
       field_names ∈ [bid_fields; ask_fields; bid_size_fields;
                       ask_size_fields; last_fields] →
       extract_value data field_names = Raise e →
       _parse_ticker_data fromtimestamp fromisoformat utcnow data exchange
         symbol
       = Raise (GoMarketAPIError
           "Failed to parse ticker data: int too large to convert to float")).
Proof.
  split.
  - intros bid ask bid_size ask_size last Hb Ha Hbs Has Hl Hmissing Hlast.
    unfold _parse_ticker_data. rewrite Hb, Ha, Hbs, Has, Hl.
    cbv beta iota zeta delta [mbind result_bind].
    assert (Hba : Qltb 0 bid && Qltb 0 ask = false).
    { destruct Hmissing as [H|H]; apply Qltb_ge in H; rewrite H; [done|].
      by rewrite andb_false_r. }
    rewrite Hba.
    assert (Hlast' : (if Qeq_bool last 0 then last else last) = last)
      by (by destruct (Qeq_bool last 0)).
    rewrite Hlast'. rewrite (proj2 (Qltb_ge _ _) Hlast), andb_false_r.
    unfold MarketData.make, MarketData.post_init. simpl.
    assert (Hp : Qleb bid 0 || Qleb ask 0 = true).
    { destruct Hmissing as [H|H]; apply Qleb_le in H; rewrite H; [done|].
      by rewrite orb_true_r. }
    by rewrite Hp.
  - intros field_names e Hin He. unfold _parse_ticker_data.
    destruct (extract_value data bid_fields) eqn:Eb;
      [|by apply extract_value_raises in Eb as ->].
    destruct (extract_value data ask_fields) eqn:Ea;
      [|by apply extract_value_raises in Ea as ->].
    destruct (extract_value data bid_size_fields) eqn:Ebs;
      [|by apply extract_value_raises in Ebs as ->].
    destruct (extract_value data ask_size_fields) eqn:Eas;
      [|by apply extract_value_raises in Eas as ->].
    destruct (extract_value data last_fields) eqn:El;
      [|by apply extract_value_raises in El as ->].
    exfalso. repeat (apply elem_of_cons in Hin as [->|Hin]; [congruence|]).
    by apply elem_of_nil in Hin.
Qed.
End Parse.
End Tickers.


Lemma parse_ticker_quoted_witness :
  let data := [("bid", JString "50000" (Some 50000%Q));
               ("bestAsk", JNumber 50001)] in
  ∃ d, GoMarketClient._parse_ticker_data (λ _, None) (λ _, None) 0 data
         "binance" "BTC/USDT" = Ok d
    ∧ MarketData.bid_price d = 50000%Q ∧ MarketData.ask_price d = 50001%Q
    ∧ (MarketData.last_price d == 50000.5)%Q
    ∧ MarketData.bid_size d = 1%Q ∧ MarketData.ask_size d = 1%Q.
Proof.
  intros data.
  destruct (parse_ticker_quoted (λ _, None) (λ _, None) 0 data "binance"
              "BTC/USDT" 50000 50001 0 0 0) as [Hok _];
    [reflexivity..|by vm_compute|by vm_compute|].
  destruct Hok as (d & Hd & Hb & Ha & Hl & Hbs & Has); [by vm_compute|].
  exists d. split_and!; [done|done|done| |done|done].
  rewrite Hl. by vm_compute.
Defined.

Lemma parse_ticker_no_price_witness :
  GoMarketClient._parse_ticker_data (λ _, None) (λ _, None) 0
    [("bid", JNumber 50000); ("volume", JNumber 12)] "binance" "BTC/USDT"
  = Raise (GoMarketAPIError
      "Failed to parse ticker data: Prices must be positive")
  ∧ GoMarketClient._parse_ticker_data (λ _, None) (λ _, None) 0
      [("bid", JHuge (10 ^ 400)%Z); ("ask", JNumber 50001)] "binance" "BTC/USDT"
    = Raise (GoMarketAPIError
        "Failed to parse ticker data: int too large to convert to float").
Proof.
  split.
  - apply (proj1 (parse_ticker_no_price (λ _, None) (λ _, None) 0
                    [("bid", JNumber 50000); ("volume", JNumber 12)]
                    "binance" "BTC/USDT") 50000%Q 0%Q 0%Q 0%Q 0%Q);
      [reflexivity..|right; by vm_compute|by vm_compute].
  - apply (proj2 (parse_ticker_no_price (λ _, None) (λ _, None) 0
                    [("bid", JHuge (10 ^ 400)%Z); ("ask", JNumber 50001)]
                    "binance" "BTC/USDT") GoMarketClient.bid_fields
             (OverflowError "int too large to convert to float")).
    + apply elem_of_cons. by left.
    + reflexivity.
Defined.

(** ** Dictionaries in insertion order *)

Lemma dict_get_set_eq {V} (d : list (string * V)) (k : string) (v : V) :
  dict_get (dict_set d k v) k = Ok v.
Proof.
  induction d as [|[k' v'] d IH]; simpl.
  - by rewrite bool_decide_eq_true_2.
  - destruct (decide (k' = k)) as [->|Hk].
    + rewrite bool_decide_eq_true_2 by done. simpl.
      by rewrite bool_decide_eq_true_2.
    + rewrite bool_decide_eq_false_2 by done. simpl.
      by rewrite bool_decide_eq_false_2.
Qed.

Lemma dict_get_set_ne {V} (d : list (string * V)) (k k' : string) (v : V) :
  k ≠ k' → dict_get (dict_set d k v) k' = dict_get d k'.
Proof.
  intros Hne. induction d as [|[k0 v0] d IH]; simpl.
  - by rewrite bool_decide_eq_false_2.
  - destruct (decide (k0 = k)) as [->|Hk].
    + rewrite bool_decide_eq_true_2 by done. simpl.
      by rewrite !bool_decide_eq_false_2.
    + rewrite (bool_decide_eq_false_2 (k0 = k)) by done. simpl.
      by rewrite IH.
Qed.

Lemma dict_keys_set {V} (d : list (string * V)) (k : string) (v : V) :
  dict_keys (dict_set d k v)
  = if bool_decide (k ∈ dict_keys d) then dict_keys d else dict_keys d ++ [k].
Proof.
  unfold dict_keys. induction d as [|[k0 v0] d IH]; [done|].
  cbn [dict_set]. destruct (decide (k0 = k)) as [->|Hk].
  - rewrite bool_decide_eq_true_2 by done. rewrite !fmap_cons. cbn [fst].
    rewrite bool_decide_eq_true_2; [done|]. apply elem_of_cons. by left.
  - rewrite (bool_decide_eq_false_2 (k0 = k)) by done.
    rewrite !fmap_cons. cbn [fst]. rewrite IH.
    destruct (decide (k ∈ d.*1)) as [Hin|Hin].
    + rewrite !bool_decide_eq_true_2; [done| |done].
      apply elem_of_cons. by right.
    + rewrite !bool_decide_eq_false_2; [done| |done].
      intros [->|?]%elem_of_cons; done.
Qed.

Lemma dict_set_NoDup {V} (d : list (string * V)) (k : string) (v : V) :
  NoDup (dict_keys d) → NoDup (dict_keys (dict_set d k v)).
Proof.
  intros Hnd. rewrite dict_keys_set. case_bool_decide as Hin; [done|].
  apply NoDup_app. split_and!; [done| |apply NoDup_singleton].
  intros x Hx ->%list_elem_of_singleton. done.
Qed.

Lemma dict_get_Ok_elem {V} (d : list (string * V)) (k : string) (v : V) :
  dict_get d k = Ok v → (k, v) ∈ d.
Proof.
  induction d as [|[k' v'] d IH]; simpl; [done|].
  case_bool_decide as Hk.
  - intros [= ->]. subst k'. apply elem_of_cons. by left.
  - intros H. apply elem_of_cons. right. by apply IH.
Qed.

Lemma dict_mem_get {V} (d : list (string * V)) (k : string) :
  dict_mem d k = true → ∃ v, dict_get d k = Ok v.
Proof.
  unfold dict_mem, dict_keys. intros Hk%bool_decide_eq_true_1.
  induction d as [|[k' v'] d IH]; simpl in *.
  - by apply elem_of_nil in Hk.
  - case_bool_decide as Hkk; [eauto|].
    apply elem_of_cons in Hk as [->|Hk]; [done|by apply IH].
Qed.


(** ** Subscribing *)

Section Subscribe.
Import WebSocketClient.

Lemma dict_set_set {V} (d : list (string * V)) (k : string) (v v' : V) :
  dict_set (dict_set d k v) k v' = dict_set d k v'.
Proof.
  induction d as [|[k0 v0] d IH]; cbn [dict_set].
  - by rewrite bool_decide_eq_true_2.
  - destruct (decide (k0 = k)) as [->|Hk].
    + rewrite bool_decide_eq_true_2 by done. cbn [dict_set].
      by rewrite bool_decide_eq_true_2.
    + rewrite bool_decide_eq_false_2 by done. cbn [dict_set].
      rewrite bool_decide_eq_false_2 by done. by rewrite IH.
Qed.

Lemma subscribe_subscriptions exchange symbol cb (c : WebSocketClient.t) :
  let key := subscription_key exchange symbol in
  subscriptions (subscribe exchange symbol cb c)
  = dict_set (subscriptions c) key (callbacks_of key c ++ [cb]).
Proof.
  intros key. unfold subscribe, callbacks_of. fold key.
  assert (Hsubs : ∀ c0, subscriptions
            (if use_polling c0 then _start_polling exchange symbol c0
             else _send_subscription_message exchange symbol c0)
          = subscriptions c0).
  { intros c0. unfold _start_polling, _send_subscription_message.
    destruct (use_polling c0).
    - by destruct (polling_tasks c0 !! _).
    - by destruct (websocket c0) as [[]|]. }
  rewrite Hsubs. simpl.
  destruct (dict_mem (subscriptions c) key) eqn:Hmem.
  - destruct (dict_mem_get _ _ Hmem) as [old Hold]. by rewrite Hold.
  - rewrite dict_get_set_eq, (dict_get_absent _ _ Hmem). simpl.
    apply dict_set_set.
Qed.

Lemma subscribe_delivered exchange symbol cb (c : WebSocketClient.t) :
  delivered (subscribe exchange symbol cb c) = delivered c.
Proof.
  unfold subscribe, _start_polling, _send_subscription_message. simpl.
  destruct (use_polling c); simpl.
  - by destruct (polling_tasks c !! _).
  - by destruct (websocket c) as [[]|].
Qed.

(** [subscribe] adds the callback at the end of the callbacks of its key:
    the count grows by one, an update for the key reaches the callbacks
    registered before, in their order, and then the new one; the
    callbacks of other keys stay.  In polling mode the key has a task
    afterwards. *)
Theorem subscribe_appends_callback exchange symbol cb
    (c : WebSocketClient.t) :
  let key := subscription_key exchange symbol in
  let c' := subscribe exchange symbol cb c in
  callback_count exchange symbol c' = S (callback_count exchange symbol c)
  ∧ (∀ data,
       delivered (_notify_callbacks key data c')
       = delivered c
         ++ ((λ cb', (cb', data)) <$> callbacks_of key c ++ [cb]))
  ∧ (∀ k, k ≠ key → callbacks_of k c' = callbacks_of k c)
  ∧ (use_polling c = true → is_Some (polling_tasks c' !! key)).
Proof.
  intros key c'.
  pose proof (subscribe_subscriptions exchange symbol cb c) as Hsubs.
  fold key c' in Hsubs. simpl in Hsubs. split_and!.
  - unfold callback_count. fold key. rewrite Hsubs, dict_get_set_eq.
    rewrite length_app. simpl. unfold callbacks_of.
    destruct (dict_get (subscriptions c) key); simpl; lia.
  - intros data. unfold _notify_callbacks. rewrite Hsubs, dict_get_set_eq.
    simpl. unfold c'. by rewrite subscribe_delivered.
  - intros k Hk. unfold callbacks_of. rewrite Hsubs.
    by rewrite dict_get_set_ne.
  - intros Hpoll. unfold c', subscribe. simpl. rewrite Hpoll.
    unfold _start_polling. fold key. simpl.
    destruct (polling_tasks c !! key) eqn:Htask; simpl.
    + by rewrite Htask.
    + rewrite lookup_insert_eq. eauto.
Qed.

Lemma subscribe_appends_callback_witness :
  let c := two_subscribers in
  callback_count "binance" "BTCUSDT"
    (subscribe "binance" "BTCUSDT" (UserCallback 3) c) = 3%nat
  ∧ is_Some (polling_tasks (subscribe "binance" "BTCUSDT" (UserCallback 3) c)
               !! "binance:BTCUSDT").
Proof.
  intros c.
  destruct (subscribe_appends_callback "binance" "BTCUSDT" (UserCallback 3) c)
    as (Hcount & _ & _ & Htask).
  split; [exact Hcount|]. apply Htask. reflexivity.
Defined.
End Subscribe.

(** ** Keys and reconnection *)

Section Keys.
Import WebSocketClient.

Lemma split_colon_aux_plain (text cur : string) :
  no_colon text → split_colon_aux text cur = [cur +:+ text].
Proof.
  revert cur. induction text as [|a text IH]; intros cur Hno;
    cbn [split_colon_aux].
  - by rewrite append_nil_r.
  - apply no_colon_cons in Hno as [Ha Hno].
    rewrite bool_decide_eq_false_2 by done.
    rewrite IH by done. by rewrite append_snoc.
Qed.

Lemma split_colon_aux_key (e s cur : string) :
  no_colon e →
  split_colon_aux (e +:+ String ":" s) cur
  = (cur +:+ e) :: split_colon_aux s "".
Proof.
  revert cur. induction e as [|a e IH]; intros cur Hno.
  - change ("" +:+ String ":" s) with (String ":" s). cbn [split_colon_aux].
    rewrite bool_decide_eq_true_2 by done. by rewrite append_nil_r.
  - change (String a e +:+ String ":" s) with (String a (e +:+ String ":" s)).
    cbn [split_colon_aux].
    apply no_colon_cons in Hno as [Ha Hno].
    rewrite bool_decide_eq_false_2 by done.
    rewrite IH by done. by rewrite append_snoc.
Qed.

(** The key of a pair whose exchange and symbol hold no colon splits back
    into the pair. *)
Theorem subscription_key_splits (exchange symbol : string) :
  no_colon exchange → no_colon symbol →
  split_colon (subscription_key exchange symbol) = [exchange; symbol].
Proof.
  intros He Hs. unfold split_colon, subscription_key.
  change (":" +:+ symbol) with (String ":" symbol).
  rewrite split_colon_aux_key by done. by rewrite split_colon_aux_plain.
Qed.

Lemma subscription_key_splits_witness :
  split_colon (subscription_key "binance" "BTC/USDT") = ["binance"; "BTC/USDT"].
Proof.
  apply subscription_key_splits; unfold no_colon, has_char;
    apply (bool_decide_unpack _); by vm_compute.
Defined.

Lemma resubscribe_open (pairs : list (string * string))
    (c : WebSocketClient.t) :
  websocket c = Some Open →
  Forall (λ p, no_colon p.1 ∧ no_colon p.2) pairs →
  resubscribe ((λ p, subscription_key p.1 p.2) <$> pairs) c
  = (Ok (), with_effects (sent c ++ (subscribe_message <$> pairs))
              (delivered c) (slept c) c).
Proof.
  intros Hopen Hpairs. revert c Hopen.
  induction Hpairs as [|[e s] pairs [He Hs] _ IH]; intros c Hopen.
  - simpl. rewrite app_nil_r. by destruct c.
  - rewrite fmap_cons. cbn [resubscribe fst snd].
    rewrite subscription_key_splits by done.
    rewrite IH.
    + unfold _send_subscription_message. rewrite Hopen.
      unfold with_effects. simpl. by rewrite <- app_assoc.
    + unfold _send_subscription_message. by rewrite Hopen.
Qed.

(** A lost connection that is re-established at once: the client is
    connected and not polling, the attempt counter is back at 0 after one
    sleep of [reconnect_delay * 2 ^ reconnect_count] seconds, and one
    subscribe message per registered pair went out in registration order.
    The receive loop has ended all the same, so a message that arrives
    afterwards reaches no callback. *)
Theorem reconnect_resubscribes (pairs : list (string * string))
    (c : WebSocketClient.t) :
  receiving c = true →
  (Z.of_nat (reconnect_count c) < max_reconnect_attempts c)%Z →
  dict_keys (subscriptions c) = (λ p, subscription_key p.1 p.2) <$> pairs →
  Forall (λ p, no_colon p.1 ∧ no_colon p.2) pairs →
  let c' := on_connection_closed true c in
  websocket c' = Some Open ∧ is_connected c' = true
  ∧ use_polling c' = false ∧ reconnect_count c' = 0%nat
  ∧ sent c' = sent c ++ (subscribe_message <$> pairs)
  ∧ slept c'
    = slept c ++ [(reconnect_delay c * 2 ^ Z.of_nat (reconnect_count c))%Z]
  ∧ subscriptions c' = subscriptions c
  ∧ polling_tasks c' = polling_tasks c
  ∧ receiving c' = false
  ∧ ∀ parsed, on_message parsed c' = c'.
Proof.
  intros Hrecv Hcount Hkeys Hpairs c'.
  assert (Hc' : c' = with_connection (Some Open) true (is_running c) false
                       false 0
                       (with_effects (sent c ++ (subscribe_message <$> pairs))
                          (delivered c)
                          (slept c ++ [(reconnect_delay c
                                        * 2 ^ Z.of_nat (reconnect_count c))%Z])
                          c)).
  { unfold c', on_connection_closed. rewrite Hrecv. unfold _reconnect.
    cbn [max_reconnect_attempts reconnect_count with_connection].
    rewrite bool_decide_eq_false_2 by lia.
    cbn [connect with_connection with_effects subscriptions reconnect_delay
         reconnect_count sent delivered slept websocket is_connected
         is_running use_polling receiving].
    rewrite Hkeys. rewrite resubscribe_open; [|done|done].
    replace (reconnect_count c + 1 - 1)%nat with (reconnect_count c) by lia.
    reflexivity. }
  rewrite Hc'. split_and!; try done.
Qed.

Lemma reconnect_resubscribes_witness :
  let c' := on_connection_closed true streaming_client in
  websocket c' = Some Open ∧ is_connected c' = true
  ∧ use_polling c' = false ∧ reconnect_count c' = 0%nat
  ∧ sent c'
    = sent streaming_client
      ++ (subscribe_message <$> [("binance", "BTCUSDT")])
  ∧ slept c' = slept streaming_client ++ [(5 * 2 ^ Z.of_nat 0)%Z]
  ∧ subscriptions c' = subscriptions streaming_client
  ∧ polling_tasks c' = polling_tasks streaming_client
  ∧ receiving c' = false
  ∧ ∀ parsed, on_message parsed c' = c'.
Proof.
  apply (reconnect_resubscribes [("binance", "BTCUSDT")] streaming_client).
  - reflexivity.
  - reflexivity.
  - reflexivity.
  - repeat constructor; unfold no_colon, has_char;
      apply (bool_decide_unpack _); by vm_compute.
Defined.

Lemma resubscribe_bad_key keys bad (c : WebSocketClient.t) :
  bad ∈ keys →
  (∀ e s, split_colon bad ≠ [e; s]) →
  ∃ msg c1, resubscribe keys c = (Raise (ValueError msg), c1)
            ∧ use_polling c1 = use_polling c.
Proof.
  intros Hin Hbad. revert c. induction keys as [|key keys IH]; intros c.
  - by apply elem_of_nil in Hin.
  - cbn [resubscribe].
    destruct (split_colon key) as [|e [|s [|? ?]]] eqn:Hsplit; eauto.
    apply elem_of_cons in Hin as [->|Hin].
    + by apply Hbad in Hsplit.
    + destruct (IH Hin (_send_subscription_message e s c))
        as (msg & c1 & -> & Hp).
      exists msg, c1. split; [done|]. rewrite Hp.
      unfold _send_subscription_message. by destruct (websocket c) as [[]|].
Qed.

(** A registered key that does not split at a single colon, as the key of
    a symbol that holds a colon itself, stops the client at the first
    lost connection: resubscribing raises, [is_running] is cleared and the
    receive loop has ended, whether the connection came back or not. *)
Theorem reconnect_stops_on_bad_key (bad : string) (reachable : bool)
    (c : WebSocketClient.t) :
  receiving c = true →
  (Z.of_nat (reconnect_count c) < max_reconnect_attempts c)%Z →
  bad ∈ dict_keys (subscriptions c) →
  (∀ e s, split_colon bad ≠ [e; s]) →
  let c' := on_connection_closed reachable c in
  is_running c' = false ∧ receiving c' = false
  ∧ use_polling c' = negb reachable.
Proof.
  intros Hrecv Hcount Hin Hbad c'. unfold c', on_connection_closed.
  rewrite Hrecv. unfold _reconnect.
  cbn [max_reconnect_attempts reconnect_count with_connection].
  rewrite bool_decide_eq_false_2 by lia.
  destruct reachable;
    cbn [connect with_connection with_effects subscriptions reconnect_delay
         reconnect_count sent delivered slept websocket is_connected
         is_running use_polling receiving].
  - match goal with |- context [resubscribe ?k ?c0] =>
      destruct (resubscribe_bad_key k bad c0 Hin Hbad)
        as (msg & c1 & -> & Hp) end.
    simpl. by rewrite Hp.
  - match goal with |- context [resubscribe ?k ?c0] =>
      destruct (resubscribe_bad_key k bad c0 Hin Hbad)
        as (msg & c1 & -> & Hp) end.
    simpl. by rewrite Hp.
Qed.

Lemma reconnect_stops_on_bad_key_witness :
  let c := subscribe "okx" "BTC/USDT:USDT" (UserCallback 1)
             (start (connect true (init None None)).2) in
  let c' := on_connection_closed true c in
  is_running c' = false ∧ receiving c' = false ∧ use_polling c' = negb true.
Proof.
  intros c.
  apply (reconnect_stops_on_bad_key "okx:BTC/USDT:USDT" true c).
  - reflexivity.
  - reflexivity.
  - apply (bool_decide_unpack _). by vm_compute.
  - intros e s. by vm_compute.
Defined.

Lemma closed_reopens (pairs : list (string * string))
    (c : WebSocketClient.t) :
  receiving c = true →
  (Z.of_nat (reconnect_count c) < max_reconnect_attempts c)%Z →
  dict_keys (subscriptions c) = (λ p, subscription_key p.1 p.2) <$> pairs →
  Forall (λ p, no_colon p.1 ∧ no_colon p.2) pairs →
  on_connection_closed true c
  = with_connection (Some Open) true (is_running c) false false 0
      (with_effects (sent c ++ (subscribe_message <$> pairs)) (delivered c)
         (slept c ++ [(reconnect_delay c
                       * 2 ^ Z.of_nat (reconnect_count c))%Z])
         c).
Proof.
  intros Hrecv Hcount Hkeys Hpairs.
  unfold on_connection_closed. rewrite Hrecv. unfold _reconnect.
  cbn [max_reconnect_attempts reconnect_count with_connection].
  rewrite bool_decide_eq_false_2 by lia.
  cbn [connect with_connection with_effects subscriptions reconnect_delay
       reconnect_count sent delivered slept websocket is_connected
       is_running use_polling receiving].
  rewrite Hkeys. rewrite resubscribe_open; [|done|done].
  replace (reconnect_count c + 1 - 1)%nat with (reconnect_count c) by lia.
  reflexivity.
Qed.

(** [disconnect] silences a client whose receive loop is not waiting in
    [recv]: whatever arrives or whichever worker takes a turn afterwards,
    nothing changes and no callback is called.  It does not end a
    streaming client: the close makes [recv] raise [ConnectionClosed],
    and with the server reachable the handler of the loop reconnects, so
    that the socket is open and [is_connected] set again and a subscribe
    message per registered pair has gone out, with [is_running]
    cleared. *)
Theorem disconnect_reopens (pairs : list (string * string))
    (c : WebSocketClient.t) :
  (Z.of_nat (reconnect_count c) < max_reconnect_attempts c)%Z →
  dict_keys (subscriptions c) = (λ p, subscription_key p.1 p.2) <$> pairs →
  Forall (λ p, no_colon p.1 ∧ no_colon p.2) pairs →
  (receiving c = false →
     is_connected (disconnect c) = false
     ∧ ∀ evs, run evs (disconnect c) = disconnect c)
  ∧ (receiving c = true →
     let c' := on_connection_closed true (disconnect c) in
     is_running c' = false
     ∧ websocket c' = Some Open ∧ is_connected c' = true
     ∧ use_polling c' = false
     ∧ sent c' = sent c ++ (subscribe_message <$> pairs)
     ∧ slept c'
       = slept c ++ [(reconnect_delay c * 2 ^ Z.of_nat (reconnect_count c))%Z]
     ∧ delivered c' = delivered c
     ∧ subscriptions c' = subscriptions c
     ∧ receiving c' = false).
Proof.
  intros Hcount Hkeys Hpairs. split.
  - intros Hrecv. split; [done|].
    assert (Hstep : ∀ ev, step ev (disconnect c) = disconnect c).
    { intros [parsed|reachable|key ticker]; simpl.
      - unfold on_message. cbn [disconnect receiving with_polling_tasks
                                  with_connection]. by rewrite Hrecv.
      - unfold on_connection_closed.
        cbn [disconnect receiving with_polling_tasks with_connection].
        by rewrite Hrecv.
      - unfold poll_worker. cbn [disconnect polling_tasks with_polling_tasks].
        rewrite lookup_fmap. by destruct (polling_tasks c !! key). }
    intros evs. unfold run. induction evs as [|ev evs IH]; [done|].
    simpl. by rewrite Hstep.
  - intros Hrecv c'. unfold c'.
    rewrite (closed_reopens pairs (disconnect c)); [by split_and!|done..].
Qed.

Lemma disconnect_reopens_witness :
  let c' := on_connection_closed true (disconnect streaming_client) in
  is_running c' = false
  ∧ websocket c' = Some Open ∧ is_connected c' = true
  ∧ use_polling c' = false
  ∧ sent c'
    = sent streaming_client
      ++ (subscribe_message <$> [("binance", "BTCUSDT")])
  ∧ slept c' = slept streaming_client ++ [(5 * 2 ^ Z.of_nat 0)%Z]
  ∧ delivered c' = delivered streaming_client
  ∧ subscriptions c' = subscriptions streaming_client
  ∧ receiving c' = false.
Proof.
  destruct (disconnect_reopens [("binance", "BTCUSDT")] streaming_client)
    as [_ H].
  - reflexivity.
  - reflexivity.
  - repeat constructor; unfold no_colon, has_char;
      apply (bool_decide_unpack _); by vm_compute.
  - apply H. reflexivity.
Defined.
End Keys.


(** ** The cache and the sessions of [ArbitrageService] *)

Section Service.
Import ArbitrageService.

(** [_market_data_callback] stores the snapshot under its symbol and
    exchange, where it replaces the one stored before; every other entry
    of the cache stays, the keys of each symbol stay without duplicates,
    and nothing else in the service changes. *)
Theorem market_data_callback_stores (market_data : MarketData.t)
    (s : ArbitrageService.t) :
  let s' := _market_data_callback market_data s in
  cached (MarketData.symbol market_data) (MarketData.exchange market_data) s'
  = Ok market_data
  ∧ (∀ symbol exchange,
       symbol ≠ MarketData.symbol market_data
       ∨ exchange ≠ MarketData.exchange market_data →
       cached symbol exchange s' = cached symbol exchange s)
  ∧ ((∀ symbol l, market_data_cache s !! symbol = Some l →
        NoDup (dict_keys l)) →
     ∀ symbol l, market_data_cache s' !! symbol = Some l →
       NoDup (dict_keys l))
  ∧ monitoring_sessions s' = monitoring_sessions s
  ∧ opportunity_history s' = opportunity_history s
  ∧ alert_cooldowns s' = alert_cooldowns s
  ∧ notified s' = notified s.
Proof.
  intros s'. unfold s', _market_data_callback, cached. simpl.
  split_and!; try done.
  - rewrite lookup_insert_eq. simpl. apply dict_get_set_eq.
  - intros symbol exchange Hother.
    destruct (decide (symbol = MarketData.symbol market_data)) as [->|Hs].
    + rewrite lookup_insert_eq. simpl. apply dict_get_set_ne.
      destruct Hother; congruence.
    + by rewrite lookup_insert_ne.
  - intros Hinv symbol l.
    destruct (decide (symbol = MarketData.symbol market_data)) as [->|Hs].
    + rewrite lookup_insert_eq. intros [= <-]. apply dict_set_NoDup.
      destruct (market_data_cache s !! _) eqn:Hl; simpl.
      * by eapply Hinv.
      * apply NoDup_nil_2.
    + rewrite lookup_insert_ne by done. apply Hinv.
Qed.

Lemma foldl_keeps {A B} (f : A → B → A) (P : A → Prop) :
  (∀ a b, P a → P (f a b)) → ∀ l a, P a → P (foldl f a l).
Proof.
  intros Hf l. induction l as [|b l IH]; intros a Ha; simpl; [done|].
  apply IH. by apply Hf.
Qed.

Lemma foldl_reaches {A B} (f : A → B → A) (P : A → B → Prop) :
  (∀ a b, P (f a b) b) → (∀ a b b', P a b → P (f a b') b) →
  ∀ l a b, b ∈ l → P (foldl f a l) b.
Proof.
  intros Hdo Hkeep l. induction l as [|b' l IH]; intros a b Hin; simpl.
  - by apply elem_of_nil in Hin.
  - apply elem_of_cons in Hin as [->|Hin]; [|by apply IH].
    apply (foldl_keeps f (λ a, P a b')); [intros; by apply Hkeep|apply Hdo].
Qed.

Lemma unsubscribe_releases exchange symbol (m : DataStreamManager.t) :
  released (WebSocketClient.subscription_key exchange symbol)
    (DataStreamManager.unsubscribe_from_market_data exchange symbol m).
Proof.
  unfold released, DataStreamManager.unsubscribe_from_market_data. simpl.
  rewrite unsubscribe_subscriptions, lookup_delete_eq.
  by rewrite dict_mem_del.
Qed.

Lemma unsubscribe_keeps_released key exchange symbol (m : DataStreamManager.t) :
  released key m →
  released key (DataStreamManager.unsubscribe_from_market_data exchange symbol m).
Proof.
  unfold released, DataStreamManager.unsubscribe_from_market_data. simpl.
  intros [Hmem Hstream]. rewrite unsubscribe_subscriptions. split.
  - apply bool_decide_eq_false_2. apply bool_decide_eq_false_1 in Hmem.
    unfold dict_keys, dict_del in *.
    intros (kv & -> & Hin)%list_elem_of_fmap.
    apply list_elem_of_filter in Hin as [_ Hin]. apply Hmem.
    apply list_elem_of_fmap. by exists kv.
  - destruct (decide (WebSocketClient.subscription_key exchange symbol = key))
      as [->|Hne]; [apply lookup_delete_eq|by rewrite lookup_delete_ne].
Qed.

Lemma unsubscribe_from_symbols_releases (config : MonitoringConfig.t)
    (m : DataStreamManager.t) symbol exchange :
  symbol ∈ MonitoringConfig.symbols config →
  exchange ∈ MonitoringConfig.exchanges config →
  released (WebSocketClient.subscription_key exchange symbol)
    (_unsubscribe_from_symbols config m).
Proof.
  intros Hs He. unfold _unsubscribe_from_symbols.
  apply (foldl_reaches _
           (λ m symbol, released
                          (WebSocketClient.subscription_key exchange symbol)
                          m)); [| |done].
  - intros a b.
    apply (foldl_reaches _
             (λ m exchange, released
                              (WebSocketClient.subscription_key exchange b) m));
      [| |done].
    + intros. apply unsubscribe_releases.
    + intros. by apply unsubscribe_keeps_released.
  - intros a b b' Ha.
    apply (foldl_keeps _ (released (WebSocketClient.subscription_key exchange b)));
      [|done].
    intros. by apply unsubscribe_keeps_released.
Qed.

(** [stop_monitoring] does nothing for a chat without a session.  For a
    chat with a session it removes the session and the task of that chat
    only, and afterwards no pair of the session's symbols and exchanges is
    subscribed, whoever else had subscribed it. *)
Theorem stop_monitoring_releases (chat_id : Z) (s : ArbitrageService.t) :
  (monitoring_sessions s !! chat_id = None → stop_monitoring chat_id s = s)
  ∧ ∀ config, monitoring_sessions s !! chat_id = Some config →
      let s' := stop_monitoring chat_id s in
      monitoring_sessions s' = delete chat_id (monitoring_sessions s)
      ∧ active_monitoring_tasks s'
        = delete chat_id (active_monitoring_tasks s)
      ∧ (∀ symbol exchange,
           symbol ∈ MonitoringConfig.symbols config →
           exchange ∈ MonitoringConfig.exchanges config →
           WebSocketClient.callback_count exchange symbol (client_of s') = 0%nat
           ∧ DataStreamManager.active_streams (data_stream_manager s')
               !! WebSocketClient.subscription_key exchange symbol = None)
      ∧ opportunity_history s' = opportunity_history s
      ∧ alert_cooldowns s' = alert_cooldowns s
      ∧ market_data_cache s' = market_data_cache s.
Proof.
  unfold stop_monitoring. split.
  - by intros ->.
  - intros config ->. simpl. split_and!; try done.
    intros symbol exchange Hs He.
    destruct (unsubscribe_from_symbols_releases config (data_stream_manager s)
                symbol exchange Hs He) as [Hmem Hstream].
    split; [|done]. unfold WebSocketClient.callback_count, client_of. simpl.
    by rewrite dict_get_absent.
Qed.

Lemma stop_monitoring_releases_witness :
  let both :=
    start_monitoring (config_of 2 ["binance"; "okx"] 0.05) 0
      (start_monitoring (config_of 1 ["binance"] 0.05) 0 fresh_service) in
  let s' := stop_monitoring 1 both in
  monitoring_sessions s' = delete 1%Z (monitoring_sessions both)
  ∧ WebSocketClient.callback_count "binance" "BTC/USDT" (client_of s') = 0%nat
  ∧ is_Some (monitoring_sessions s' !! 2%Z).
Proof.
  intros both s'.
  destruct (stop_monitoring_releases 1 both) as [_ Hstop].
  destruct (Hstop (config_of 1 ["binance"] 0.05)) as (Hs & _ & Hrel & _);
    [reflexivity|].
  split_and!; [exact Hs| |by vm_compute; eauto].
  apply (Hrel "BTC/USDT" "binance"); apply (bool_decide_unpack _);
    by vm_compute.
Defined.

(** Starting a session for a chat without one and stopping it again
    leaves the sessions and the tasks as they were. *)
Theorem start_then_stop (config : MonitoringConfig.t) (utcnow : datetime)
    (s : ArbitrageService.t) :
  monitoring_sessions s !! MonitoringConfig.chat_id config = None →
  active_monitoring_tasks s !! MonitoringConfig.chat_id config = None →
  let s' := stop_monitoring (MonitoringConfig.chat_id config)
              (start_monitoring config utcnow s) in
  monitoring_sessions s' = monitoring_sessions s
  ∧ active_monitoring_tasks s' = active_monitoring_tasks s.
Proof.
  intros Hnone Htask. unfold start_monitoring, stop_monitoring.
  rewrite Hnone. simpl. rewrite lookup_insert_eq. simpl.
  split; apply delete_insert_id; done.
Qed.
End Service.

Lemma start_then_stop_witness :
  let s' := ArbitrageService.stop_monitoring 1
              (ArbitrageService.start_monitoring
                 (config_of 1 ["binance"; "okx"] 0.05) 0 fresh_service) in
  ArbitrageService.monitoring_sessions s'
  = ArbitrageService.monitoring_sessions fresh_service
  ∧ ArbitrageService.active_monitoring_tasks s'
    = ArbitrageService.active_monitoring_tasks fresh_service.
Proof.
  apply (start_then_stop (config_of 1 ["binance"; "okx"] 0.05) 0
           fresh_service); reflexivity.
Defined.

(** ** Cleanup, history and the periodic check *)

Section Housekeeping.
Import ArbitrageService.

(** [cleanup_expired_data] never lifts a suppression: for a cooldown of
    at most an hour, whether an alert key is in its cooldown at a reading
    not before the cleanup is the same with and without the cleanup.  The
    sessions, the tasks and the subscriptions are not touched, and the
    history keeps exactly the signals of the last 24 hours. *)
Theorem cleanup_keeps_suppression (current_time : datetime)
    (utcnow_fresh : string → string → datetime) (s : ArbitrageService.t)
    (key : string) (utcnow : datetime) :
  (0 ≤ alert_cooldown_minutes s ≤ 60)%Z →
  (current_time ≤ utcnow)%Z →
  let s' := cleanup_expired_data current_time utcnow_fresh s in
  _is_alert_cooldown_active key utcnow s'
  = _is_alert_cooldown_active key utcnow s
  ∧ monitoring_sessions s' = monitoring_sessions s
  ∧ active_monitoring_tasks s' = active_monitoring_tasks s
  ∧ data_stream_manager s' = data_stream_manager s
  ∧ ∀ o, o ∈ opportunity_history s' ↔
      o ∈ opportunity_history s
      ∧ (current_time - timedelta_hours 24
         ≤ ArbitrageOpportunity.timestamp o)%Z.
Proof.
  intros Hmin Hnow s'. split_and!; try done.
  - unfold s', _is_alert_cooldown_active, cleanup_expired_data. simpl.
    destruct (alert_cooldowns s !! key) as [fired|] eqn:Hkey.
    + destruct (decide (current_time - fired > timedelta_hours 1)%Z)
        as [Hold|Hyoung].
      * rewrite (proj2 (map_lookup_filter_None _ _ _)).
        2:{ right. intros x Hx.
            pose proof (eq_trans (eq_sym Hkey) Hx) as [= <-]. simpl. tauto. }
        symmetry. apply bool_decide_eq_false_2.
        unfold timedelta_hours, timedelta_minutes, timedelta_seconds in *.
        lia.
      * by rewrite (map_lookup_filter_Some_2 _ _ _ _ Hkey Hyoung).
    + rewrite (proj2 (map_lookup_filter_None _ _ _)); [done|by left].
  - intros o. unfold s', cleanup_expired_data. simpl.
    rewrite list_elem_of_filter. tauto.
Qed.

Lemma cleanup_keeps_suppression_witness :
  let accepted := _process_opportunity 1 crossed_signal 0 5 fresh_service in
  let s' := cleanup_expired_data 30000000 (λ _ _, 30000000%Z) accepted in
  _is_alert_cooldown_active (opportunity_key crossed_signal) 40000000 s'
  = _is_alert_cooldown_active (opportunity_key crossed_signal) 40000000
      accepted
  ∧ monitoring_sessions s' = monitoring_sessions accepted
  ∧ active_monitoring_tasks s' = active_monitoring_tasks accepted
  ∧ data_stream_manager s' = data_stream_manager accepted
  ∧ ∀ o, o ∈ opportunity_history s' ↔
      o ∈ opportunity_history accepted
      ∧ (30000000 - timedelta_hours 24
         ≤ ArbitrageOpportunity.timestamp o)%Z.
Proof.
  intros accepted.
  apply (cleanup_keeps_suppression 30000000 (λ _ _, 30000000%Z) accepted
           (opportunity_key crossed_signal) 40000000).
  - by vm_compute.
  - by vm_compute.
Defined.

(** The history is one list for all chats: a signal accepted for one chat
    is in the history asked for any chat, with or without its symbol as
    filter, as long as its timestamp is inside the window. *)
Theorem history_shared_between_chats (chat_id : Z) (asking : option Z)
    (o : ArbitrageOpportunity.t) (checked_at fired_at : datetime)
    (hours : Z) (utcnow : datetime) (s : ArbitrageService.t) :
  _is_alert_cooldown_active (opportunity_key o) checked_at s = false →
  (utcnow - timedelta_hours hours ≤ ArbitrageOpportunity.timestamp o)%Z →
  let s' := _process_opportunity chat_id o checked_at fired_at s in
  o ∈ get_opportunity_history asking None hours utcnow s'
  ∧ o ∈ get_opportunity_history asking
          (Some (ArbitrageOpportunity.symbol o)) hours utcnow s'
  ∧ get_opportunity_history asking None hours utcnow s'
    = get_opportunity_history None None hours utcnow s
      ++ [o].
Proof.
  intros Hfree Hwindow s'. unfold s'. rewrite process_accepted by done.
  unfold get_opportunity_history. simpl.
  rewrite filter_app, filter_cons_True, filter_nil by done.
  split_and!; [| |done].
  - apply elem_of_app. right. by apply list_elem_of_singleton.
  - apply list_elem_of_filter. split; [done|].
    apply elem_of_app. right. by apply list_elem_of_singleton.
Qed.

Lemma history_shared_between_chats_witness :
  let s' := _process_opportunity 1 crossed_signal 0 5 fresh_service in
  crossed_signal ∈ get_opportunity_history (Some 2%Z) None 24 60000000 s'
  ∧ crossed_signal
    ∈ get_opportunity_history (Some 2%Z) (Some "BTC/USDT") 24 60000000 s'
  ∧ get_opportunity_history (Some 2%Z) None 24 60000000 s'
    = get_opportunity_history None None 24 60000000 fresh_service
      ++ [crossed_signal].
Proof.
  apply (history_shared_between_chats 1 (Some 2%Z) crossed_signal 0 5 24
           60000000 fresh_service).
  - reflexivity.
  - by vm_compute.
Defined.

Lemma filter_keys_NoDup {V} (P : string * V → Prop) `{∀ x, Decision (P x)}
    (l : list (string * V)) :
  NoDup (dict_keys l) → NoDup (dict_keys (filter P l)).
Proof.
  unfold dict_keys. induction l as [|[k v] l IH]; [done|].
  rewrite fmap_cons. intros [Hk Hnd]%NoDup_cons. rewrite filter_cons.
  case_decide; [|by apply IH]. rewrite fmap_cons. apply NoDup_cons.
  split; [|by apply IH]. intros (kv & Hkv & Hin)%list_elem_of_fmap.
  apply list_elem_of_filter in Hin as [_ Hin]. apply Hk.
  apply list_elem_of_fmap. by exists kv.
Qed.

Lemma elem_of_foldl_app {A B} (f : B → list A) (l : list B) (acc : list A) x :
  x ∈ foldl (λ acc b, acc ++ f b) acc l ↔ x ∈ acc ∨ ∃ b, b ∈ l ∧ x ∈ f b.
Proof.
  revert acc. induction l as [|b l IH]; intros acc; simpl.
  - split; [by left|]. intros [?|(b & ?%elem_of_nil & _)]; done.
  - rewrite IH, elem_of_app. split.
    + intros [[?|?]|(b' & ? & ?)]; [by left|right|right].
      * exists b. split; [apply elem_of_cons; by left|done].
      * exists b'. split; [apply elem_of_cons; by right|done].
    + intros [?|(b' & [->|?]%elem_of_cons & ?)].
      * left. by left.
      * left. by right.
      * right. by exists b'.
Qed.

(** Every signal of [_check_arbitrage_opportunities] comes from two
    snapshots the cache holds for one of the session's symbols, both from
    exchanges of the session and both at most 60 seconds old; it buys at
    the ask of one and sells at the bid of the other, and its percentage
    reaches the session's threshold. *)
Theorem check_reports_configured_fresh (fl : Q → Q)
    (utcnow_fresh utcnow_at : string → string → datetime)
    (config : MonitoringConfig.t) (s : ArbitrageService.t)
    (o : ArbitrageOpportunity.t) :
  (∀ symbol l, market_data_cache s !! symbol = Some l →
     NoDup (dict_keys l) ∧ Forall (λ kv, MarketData.valid kv.2) l) →
  o ∈ _check_arbitrage_opportunities fl utcnow_fresh utcnow_at config s →
  ∃ symbol sell_data buy_data,
    symbol ∈ MonitoringConfig.symbols config
    ∧ cached symbol (ArbitrageOpportunity.sell_exchange o) s = Ok sell_data
    ∧ cached symbol (ArbitrageOpportunity.buy_exchange o) s = Ok buy_data
    ∧ ArbitrageOpportunity.sell_exchange o ∈ MonitoringConfig.exchanges config
    ∧ ArbitrageOpportunity.buy_exchange o ∈ MonitoringConfig.exchanges config
    ∧ MarketData.is_fresh sell_data
        (utcnow_fresh symbol (ArbitrageOpportunity.sell_exchange o)) 60 = true
    ∧ MarketData.is_fresh buy_data
        (utcnow_fresh symbol (ArbitrageOpportunity.buy_exchange o)) 60 = true
    ∧ ArbitrageOpportunity.sell_price o = MarketData.bid_price sell_data
    ∧ ArbitrageOpportunity.buy_price o = MarketData.ask_price buy_data
    ∧ (MonitoringConfig.threshold_percentage config
       <= ArbitrageOpportunity.spread_percentage o)%Q.
Proof.
  intros Hinv Ho. unfold _check_arbitrage_opportunities in Ho.
  apply elem_of_foldl_app in Ho as [?%elem_of_nil|(symbol & Hsym & Ho)];
    [done|].
  unfold check_symbol in Ho.
  set (symbol_data := default [] (market_data_cache s !! symbol)) in *.
  assert (Hdata : NoDup (dict_keys symbol_data)
                  ∧ Forall (λ kv, MarketData.valid kv.2) symbol_data).
  { unfold symbol_data. destruct (market_data_cache s !! symbol) eqn:Hl; simpl.
    - by eapply Hinv.
    - split; [apply NoDup_nil_2|done]. }
  destruct Hdata as [Hnd Hvalid].
  set (filtered := filter _ symbol_data) in *.
  case_bool_decide; [by apply elem_of_nil in Ho|].
  set (fresh := filter _ filtered) in *.
  case_bool_decide; [by apply elem_of_nil in Ho|].
  assert (Hfresh : ∀ kv, kv ∈ fresh →
            kv ∈ symbol_data
            ∧ kv.1 ∈ MonitoringConfig.exchanges config
            ∧ MarketData.is_fresh kv.2 (utcnow_fresh symbol kv.1) 60 = true).
  { intros kv [Hf [He Hin]%list_elem_of_filter]%list_elem_of_filter.
    split_and!; [done|done|]. by destruct (MarketData.is_fresh _ _ _). }
  assert (Hnd' : NoDup (dict_keys fresh)).
  { unfold fresh, filtered. by do 2 apply filter_keys_NoDup. }
  assert (Hasks : Forall (λ kv, (0 < MarketData.ask_price kv.2)%Q) fresh).
  { apply Forall_forall. intros kv Hin. rewrite Forall_forall in Hvalid.
    by destruct (Hvalid _ (proj1 (Hfresh _ Hin))) as (_ & ? & _). }
  destruct (find_arbitrage_opportunities _ _ fresh _) as [out|] eqn:Hscan;
    [|by apply elem_of_nil in Ho].
  apply find_arbitrage_opportunities_Ok in Hscan as [-> _]; [|done..].
  apply elem_of_crossed_signals in Ho
    as (i & j & ei & di & ej & dj & Hij & Hi & Hj & [Hlt Hth] & ->).
  apply list_elem_of_lookup_2 in Hi, Hj.
  destruct (Hfresh _ Hi) as (Hi' & Hei & Hfi).
  destruct (Hfresh _ Hj) as (Hj' & Hej & Hfj). simpl in *.
  exists symbol, di, dj. unfold cached. fold symbol_data.
  split_and!; try done; by apply dict_get_elem.
Qed.

Lemma check_reports_configured_fresh_witness :
  let s := _market_data_callback (snapshot "binance" 50000 50001)
             (_market_data_callback (snapshot "okx" 50050 50051)
                fresh_service) in
  let config := config_of 1 ["binance"; "okx"] 0.05 in
  ∃ symbol sell_data buy_data,
    symbol ∈ MonitoringConfig.symbols config
    ∧ cached symbol (ArbitrageOpportunity.sell_exchange crossed_signal) s
      = Ok sell_data
    ∧ cached symbol (ArbitrageOpportunity.buy_exchange crossed_signal) s
      = Ok buy_data
    ∧ ArbitrageOpportunity.sell_exchange crossed_signal
      ∈ MonitoringConfig.exchanges config
    ∧ ArbitrageOpportunity.buy_exchange crossed_signal
      ∈ MonitoringConfig.exchanges config
    ∧ MarketData.is_fresh sell_data 0 60 = true
    ∧ MarketData.is_fresh buy_data 0 60 = true
    ∧ ArbitrageOpportunity.sell_price crossed_signal
      = MarketData.bid_price sell_data
    ∧ ArbitrageOpportunity.buy_price crossed_signal
      = MarketData.ask_price buy_data
    ∧ (MonitoringConfig.threshold_percentage config
       <= ArbitrageOpportunity.spread_percentage crossed_signal)%Q.
Proof.
  intros s config.
  apply (check_reports_configured_fresh exactly (λ _ _, 0%Z) (λ _ _, 0%Z)
           config s crossed_signal).
  - intros symbol l Hl.
    destruct (decide (symbol = "BTC/USDT")) as [->|Hne].
    + vm_compute in Hl. injection Hl as <-. split.
      * apply (bool_decide_unpack _). by vm_compute.
      * repeat constructor.
    + unfold s, _market_data_callback in Hl. simpl in Hl.
      rewrite !lookup_insert_ne in Hl by done. by rewrite lookup_empty in Hl.
  - assert (Hc : _check_arbitrage_opportunities exactly (λ _ _, 0%Z)
                   (λ _ _, 0%Z) config s = [crossed_signal])
      by (by vm_compute).
    rewrite Hc. by apply list_elem_of_singleton.
Defined.
End Housekeeping.


(** ** Updates of the market view *)

Section Updates.
Import MarketViewService.

Lemma py_div_zero (x y : Q) : (y == 0)%Q → py_div x y = Raise ZeroDivisionError.
Proof.
  intros H. unfold py_div. by rewrite (proj2 (Qeq_bool_iff _ _) H).
Qed.

Lemma no_move (x y th : Q) :
  (0 <= th)%Q → Qltb th (Qabs (x - x) / y) = false.
Proof.
  intros Hth. apply Qltb_ge.
  assert (H0 : (Qabs (x - x) == 0)%Q).
  { rewrite (Qabs_wd (x - x) 0) by ring. reflexivity. }
  rewrite H0. unfold Qdiv. by rewrite Qmult_0_l.
Qed.

(** The first quote of a session is sent.  With a last quote whose bid,
    ask and percentage are not zero, the same quote again is not sent, and
    a quote with another best-bid or best-ask exchange is sent. *)
Theorem should_send_update_changes (last_cbbo : ConsolidatedBBO.t) :
  ¬ (ConsolidatedBBO.best_bid_price last_cbbo == 0)%Q →
  ¬ (ConsolidatedBBO.best_ask_price last_cbbo == 0)%Q →
  ¬ (ConsolidatedBBO.spread_percentage last_cbbo == 0)%Q →
  (∀ cbbo, _should_send_update None cbbo = Ok true)
  ∧ _should_send_update (Some last_cbbo) last_cbbo = Ok false
  ∧ ∀ cbbo, has_venue_changed cbbo last_cbbo = true →
      _should_send_update (Some last_cbbo) cbbo = Ok true.
Proof.
  intros Hb Ha Hs. split_and!; [done| |].
  - unfold _should_send_update.
    rewrite !py_div_nonzero by done.
    cbv beta iota zeta delta [mbind result_bind].
    rewrite !bool_decide_eq_true_2 by done.
    by rewrite !no_move.
  - intros cbbo Hvenue. unfold _should_send_update.
    rewrite !py_div_nonzero by done.
    cbv beta iota zeta delta [mbind result_bind].
    unfold has_venue_changed in Hvenue. by rewrite Hvenue.
Qed.

(** After a quote whose percentage is zero, a locked market, no later
    quote is ever compared: [_should_send_update] raises
    [ZeroDivisionError] whatever the new quote. *)
Theorem should_send_update_locked (last_cbbo cbbo : ConsolidatedBBO.t) :
  ¬ (ConsolidatedBBO.best_bid_price last_cbbo == 0)%Q →
  ¬ (ConsolidatedBBO.best_ask_price last_cbbo == 0)%Q →
  (ConsolidatedBBO.spread_percentage last_cbbo == 0)%Q →
  _should_send_update (Some last_cbbo) cbbo = Raise ZeroDivisionError.
Proof.
  intros Hb Ha Hs. unfold _should_send_update.
  rewrite (py_div_nonzero _ (ConsolidatedBBO.best_bid_price last_cbbo)) by done.
  rewrite (py_div_nonzero _ (ConsolidatedBBO.best_ask_price last_cbbo)) by done.
  rewrite (py_div_zero _ (ConsolidatedBBO.spread_percentage last_cbbo)) by done.
  reflexivity.
Qed.
End Updates.

Lemma should_send_update_changes_witness :
  ∃ q, consolidate_bbo "BTC/USDT" close_books 0 = Ok q
    ∧ MarketViewService._should_send_update (Some q) q = Ok false.
Proof.
  eexists. split; [vm_compute; reflexivity|].
  match goal with |- MarketViewService._should_send_update (Some ?q) _ = _ =>
    destruct (should_send_update_changes q) as (_ & H & _) end;
    [by vm_compute..|exact H].
Defined.

Lemma should_send_update_locked_witness :
  ∃ q, consolidate_bbo "BTC/USDT" locked_books 0 = Ok q
    ∧ ∀ cbbo, MarketViewService._should_send_update (Some q) cbbo
              = Raise ZeroDivisionError.
Proof.
  eexists. split; [vm_compute; reflexivity|]. intros cbbo.
  apply should_send_update_locked; by vm_compute.
Defined.


(** ** The quote on request *)

Section OnRequest.
Import MarketViewService.
Variable get_ticker : string → result MarketData.t.

Lemma dict_set_absent {V} (d : list (string * V)) (k : string) (v : V) :
  k ∉ dict_keys d → dict_set d k v = d ++ [(k, v)].
Proof.
  unfold dict_keys. induction d as [|[k' v'] d IH]; [done|].
  rewrite fmap_cons, not_elem_of_cons. cbn [fst]. intros [Hk Hd].
  cbn [dict_set]. rewrite bool_decide_eq_false_2 by done.
  by rewrite IH.
Qed.

Lemma answered_keys (exchanges : list string) (k : string) :
  k ∈ dict_keys (answered get_ticker exchanges) → k ∈ exchanges.
Proof.
  unfold dict_keys, answered. induction exchanges as [|e l IH]; [done|].
  cbn [omap list_omap]. destruct (get_ticker e).
  - rewrite fmap_cons, !elem_of_cons. cbn [fst]. intros [->|H]; auto.
  - intros H. apply elem_of_cons. auto.
Qed.

Lemma fetch_all_from (exchanges : list string) (acc : market_dict) :
  NoDup exchanges →
  (∀ k, k ∈ dict_keys acc → k ∉ exchanges) →
  foldl (λ market_data exchange,
           match get_ticker exchange with
           | Ok ticker_data => dict_set market_data exchange ticker_data
           | Raise _ => market_data
           end)
    acc exchanges
  = acc ++ answered get_ticker exchanges.
Proof.
  revert acc. induction exchanges as [|e l IH]; intros acc Hnd Hacc.
  - by rewrite app_nil_r.
  - apply NoDup_cons in Hnd as [He Hnd]. cbn [foldl].
    unfold answered. cbn [omap list_omap]. fold (answered get_ticker l).
    destruct (get_ticker e) as [d|err].
    + rewrite dict_set_absent.
      2:{ intros Hk. apply (Hacc _ Hk). apply elem_of_cons. by left. }
      rewrite IH; [by rewrite <- app_assoc|done|].
      intros k. unfold dict_keys. rewrite fmap_app, elem_of_app.
      intros [Hk| ->%list_elem_of_singleton]; [|done].
      specialize (Hacc _ Hk). by apply not_elem_of_cons in Hacc as [_ ?].
    + apply IH; [done|]. intros k Hk. specialize (Hacc _ Hk).
      by apply not_elem_of_cons in Hacc as [_ ?].
Qed.

Lemma fetch_all_answered (exchanges : list string) :
  NoDup exchanges → fetch_all get_ticker exchanges = answered get_ticker exchanges.
Proof.
  intros Hnd. unfold fetch_all. rewrite fetch_all_from; [done..|].
  intros k Hk. by apply elem_of_nil in Hk.
Qed.

(** [get_current_cbbo] over distinct exchanges whose snapshots are valid:
    if no exchange answers, the error is the inner message wrapped once
    more; otherwise the quote lists the exchanges that answered, in the
    order asked, its best bid is the highest bid among the answers, at
    the first exchange that gave it, and its best ask the lowest ask,
    likewise; no answer has a higher bid or a lower ask. *)
Theorem get_current_cbbo_answered (symbol : string) (exchanges : list string)
    (utcnow : datetime) :
  NoDup exchanges →
  (∀ exchange data, get_ticker exchange = Ok data → MarketData.valid data) →
  (answered get_ticker exchanges = [] →
     get_current_cbbo get_ticker symbol exchanges utcnow
     = Raise (GoMarketAPIError
                ("Failed to calculate CBBO: No market data available for "
                 +:+ symbol)))
  ∧ (answered get_ticker exchanges ≠ [] →
     ∃ q, get_current_cbbo get_ticker symbol exchanges utcnow = Ok q
       ∧ ConsolidatedBBO.all_exchanges q
         = dict_keys (answered get_ticker exchanges)
       ∧ first_max_bid (answered get_ticker exchanges)
           (ConsolidatedBBO.best_bid_exchange q)
           (ConsolidatedBBO.best_bid_price q)
       ∧ first_min_ask (answered get_ticker exchanges)
           (ConsolidatedBBO.best_ask_exchange q)
           (ConsolidatedBBO.best_ask_price q)
       ∧ (∃ bid_data ask_data,
            get_ticker (ConsolidatedBBO.best_bid_exchange q) = Ok bid_data
            ∧ ConsolidatedBBO.best_bid_exchange q ∈ exchanges
            ∧ MarketData.bid_price bid_data = ConsolidatedBBO.best_bid_price q
            ∧ get_ticker (ConsolidatedBBO.best_ask_exchange q) = Ok ask_data
            ∧ ConsolidatedBBO.best_ask_exchange q ∈ exchanges
            ∧ MarketData.ask_price ask_data
              = ConsolidatedBBO.best_ask_price q)
       ∧ ∀ exchange data,
           exchange ∈ exchanges → get_ticker exchange = Ok data →
           (MarketData.bid_price data <= ConsolidatedBBO.best_bid_price q)%Q
           ∧ (ConsolidatedBBO.best_ask_price q <= MarketData.ask_price data)%Q).
Proof.
  intros Hnd Hvalid. unfold get_current_cbbo.
  rewrite fetch_all_answered by done.
  set (market_data := answered get_ticker exchanges).
  split.
  - intros ->. reflexivity.
  - intros Hne.
    assert (Hall : ∀ kv, kv ∈ market_data → get_ticker kv.1 = Ok kv.2).
    { intros [e d]. unfold market_data, answered.
      rewrite list_elem_of_omap. intros (e' & _ & He').
      destruct (get_ticker e') eqn:E; [|done]. by injection He' as -> ->. }
    assert (Hpos : Forall (λ kv, (0 < MarketData.bid_price kv.2)%Q) market_data).
    { apply Forall_forall. intros kv Hkv. apply (Hvalid kv.1), Hall, Hkv. }
    destruct (bbo_loop_invariant market_data Hne Hpos)
      as [Hbid (ask & Hask & Hmin)].
    assert (Hbest : (0 < best_bid_price (bbo_loop market_data))%Q).
    { destruct Hbid as (i & d & Hi & <- & _).
      apply list_elem_of_lookup_2 in Hi.
      rewrite Forall_forall in Hpos. apply (Hpos _ Hi). }
    unfold consolidate_bbo.
    assert (Hmd' : market_data = answered get_ticker exchanges) by done.
    clearbody market_data. destruct market_data as [|x l]; [done|].
    rewrite Hask. unfold ConsolidatedBBO.make.
    rewrite py_div_nonzero by lra.
    eexists. split; [done|]. simpl. split_and!; [|done|done| |].
    + apply bbo_loop_all_exchanges.
    + destruct Hbid as (i & bid_data & Hi & Hbp & _).
      destruct Hmin as (j & ask_data & Hj & Hap & _).
      apply list_elem_of_lookup_2 in Hi. apply list_elem_of_lookup_2 in Hj.
      exists bid_data, ask_data.
      pose proof (Hall _ Hi) as Hgi. pose proof (Hall _ Hj) as Hgj.
      simpl in Hgi, Hgj. split_and!; [done| |done|done| |done].
      * apply (answered_keys exchanges). rewrite <- Hmd'.
        apply list_elem_of_fmap. by exists (best_bid_exchange (bbo_loop (x :: l)), bid_data).
      * apply (answered_keys exchanges). rewrite <- Hmd'.
        apply list_elem_of_fmap. by exists (best_ask_exchange (bbo_loop (x :: l)), ask_data).
    + intros e d He Hd.
      assert (Hin : (e, d) ∈ x :: l).
      { rewrite Hmd'. unfold answered.
        apply list_elem_of_omap. exists e. split; [done|]. by rewrite Hd. }
      destruct Hbid as (_ & _ & _ & _ & Hmax & _).
      destruct Hmin as (_ & _ & _ & _ & Hlow & _).
      split; [apply (Hmax _ Hin)|apply (Hlow _ Hin)].
Qed.
End OnRequest.

Lemma two_answer_valid (exchange : string) (data : MarketData.t) :
  two_answer exchange = Ok data → MarketData.valid data.
Proof.
  unfold two_answer. repeat case_bool_decide; intros [= <-];
    unfold MarketData.valid; simpl; lra.
Qed.

Lemma get_current_cbbo_answered_witness :
  answered two_answer ["kraken"; "binance"; "okx"] ≠ []
  ∧ ∃ q, MarketViewService.get_current_cbbo two_answer "BTC/USDT"
           ["kraken"; "binance"; "okx"] 0 = Ok q
      ∧ ConsolidatedBBO.all_exchanges q = ["binance"; "okx"]
      ∧ first_max_bid (answered two_answer ["kraken"; "binance"; "okx"])
          (ConsolidatedBBO.best_bid_exchange q)
          (ConsolidatedBBO.best_bid_price q)
      ∧ first_min_ask (answered two_answer ["kraken"; "binance"; "okx"])
          (ConsolidatedBBO.best_ask_exchange q)
          (ConsolidatedBBO.best_ask_price q).
Proof.
  split; [by vm_compute|].
  destruct (get_current_cbbo_answered two_answer "BTC/USDT"
              ["kraken"; "binance"; "okx"] 0) as [_ H].
  - apply (bool_decide_unpack _). by vm_compute.
  - apply two_answer_valid.
  - destruct H as (q & Hq & Hall & Hbid & Hask & _); [by vm_compute|].
    exists q. split_and!; [exact Hq| |exact Hbid|exact Hask].
    rewrite Hall. by vm_compute.
Defined.

(** The quote of the three exchanges above: kraken does not answer, the
    best bid 50000 is binance's and the best ask 50001 is binance's
    too. *)
Example get_current_cbbo_sample :
  ∃ q, MarketViewService.get_current_cbbo two_answer "BTC/USDT"
         ["kraken"; "binance"; "okx"] 0 = Ok q
    ∧ ConsolidatedBBO.best_bid_exchange q = "binance"
    ∧ ConsolidatedBBO.best_bid_price q = 50000%Q
    ∧ ConsolidatedBBO.best_ask_exchange q = "binance"
    ∧ ConsolidatedBBO.best_ask_price q = 50001%Q.
Proof. eexists. split; [vm_compute; reflexivity|]. by vm_compute. Qed.
